(** * PX4Gyroscope: the gyroscope driver front end

    A shallow embedding of [src/lib/drivers/gyroscope/PX4Gyroscope.cpp]:
    the two input paths [update] (one sample) and [updateFIFO] (a batch of
    up to 16 raw samples), the clip counters, the trapezoidal integrator
    with its gap check and flush, and the status publication.

    - C++ [float] is IEEE-754 binary32, embedded with the Standard
      Library's executable [SpecFloat] at precision 24 and [emax] 128
      (round to nearest, ties to even); every operation of the source
      rounds on its own, and a division by zero yields an infinity or
      NaN as IEEE-754 has it.
    - Integers are [Z]; members whose C++ type is declared in the class
      header wrap at a width taken from [Externals].
    - Publications are collected in order; reading outside an array and
      converting an out-of-range [float] to [int16_t] are undefined
      behaviour and stop the computation. *)

From Stdlib Require Import ZArith List Bool Lia.
From Stdlib Require Import Floats.SpecFloat.
Import ListNotations.
Local Open Scope Z_scope.

(** ** binary32 arithmetic *)

Module F32.

Definition prec : Z := 24.
Definition emax : Z := 128.

Definition float : Type := spec_float.

Definition add : float -> float -> float := SFadd prec emax.
Definition sub : float -> float -> float := SFsub prec emax.
Definition mul : float -> float -> float := SFmul prec emax.
Definition div : float -> float -> float := SFdiv prec emax.

(** Conversion of an integer to [float], as in [(float)n]. *)
Definition of_Z (n : Z) : float := binary_normalize prec emax n 0 false.

(** The literal [p/q] for small [p] and [q]: both are exact in binary32,
    so the correctly rounded quotient is the nearest [float] to the
    decimal literal. *)
Definition lit (p q : Z) : float := div (of_Z p) (of_Z q).

Definition ltb : float -> float -> bool := SFltb.
Definition gtb (a b : float) : bool := SFltb b a.
Definition eqb : float -> float -> bool := SFeqb.

Definition fabsf : float -> float := SFabs.

(** C [fmaxf]: a NaN argument is treated as missing data. *)
Definition fmaxf (a b : float) : float :=
  match a, b with
  | S754_nan, _ => b
  | _, S754_nan => a
  | _, _ => if SFltb a b then b else a
  end.

(** Integer part, rounding toward zero; nothing for infinities and NaN. *)
Definition trunc (a : float) : option Z :=
  match a with
  | S754_zero _ => Some 0
  | S754_finite s m e =>
      let mag := if 0 <=? e then Z.shiftl (Zpos m) e
                 else Z.shiftr (Zpos m) (- e) in
      Some (if s then - mag else mag)
  | _ => None
  end.

(** [(int16_t)a]: defined only when the truncated value is representable. *)
Definition to_int16 (a : float) : option Z :=
  match trunc a with
  | Some n => if (-32768 <=? n) && (n <=? 32767) then Some n else None
  | None => None
  end.

Definition zero : float := S754_zero false.
Definition pinf : float := S754_infinity false.

End F32.

(** ** Machine integers *)

(** An unsigned integer of [bits] bits: arithmetic is reduced modulo
    [2 ^ bits]. *)
Definition wrap (bits n : Z) : Z := n mod 2 ^ bits.

(** [hrt_abstime] is a 64-bit unsigned count of microseconds. *)
Definition hrt_abstime_bits : Z := 64.

Definition INT16_MAX : Z := 32767.

(** ** Three-element arrays and [matrix::Vector3f] *)

Inductive Axis : Type := AX | AY | AZ.

Record triple (A : Type) : Type := mk3 { t0 : A; t1 : A; t2 : A }.

Arguments mk3 {A} _ _ _.
Arguments t0 {A} _.
Arguments t1 {A} _.
Arguments t2 {A} _.

Definition get3 {A : Type} (t : triple A) (i : Axis) : A :=
  match i with AX => t0 t | AY => t1 t | AZ => t2 t end.

Definition upd3 {A : Type} (i : Axis) (f : A -> A) (t : triple A) : triple A :=
  match i with
  | AX => mk3 (f (t0 t)) (t1 t) (t2 t)
  | AY => mk3 (t0 t) (f (t1 t)) (t2 t)
  | AZ => mk3 (t0 t) (t1 t) (f (t2 t))
  end.

Definition map3 {A B : Type} (f : A -> B) (t : triple A) : triple B :=
  mk3 (f (t0 t)) (f (t1 t)) (f (t2 t)).

Definition zip3 {A B C : Type} (f : A -> B -> C) (a : triple A) (b : triple B)
  : triple C :=
  mk3 (f (t0 a) (t0 b)) (f (t1 a) (t1 b)) (f (t2 a) (t2 b)).

Definition Vector3f : Type := triple F32.float.

Module Vec.

(** [v * s], [a + b], [a - b] and [zero()] of [matrix::Vector3f]: element
    by element. *)
Definition scale (v : Vector3f) (s : F32.float) : Vector3f :=
  map3 (fun c => F32.mul c s) v.

Definition add (a b : Vector3f) : Vector3f := zip3 F32.add a b.

Definition sub (a b : Vector3f) : Vector3f := zip3 F32.sub a b.

Definition zero : Vector3f := mk3 F32.zero F32.zero F32.zero.

(** [a % b], the cross product. *)
Definition cross (a b : Vector3f) : Vector3f :=
  mk3 (F32.sub (F32.mul (t1 a) (t2 b)) (F32.mul (t2 a) (t1 b)))
      (F32.sub (F32.mul (t2 a) (t0 b)) (F32.mul (t0 a) (t2 b)))
      (F32.sub (F32.mul (t0 a) (t1 b)) (F32.mul (t1 a) (t0 b))).

End Vec.

(** ** What the driver takes from the rest of the firmware

    None of these is defined in [PX4Gyroscope.cpp]; the driver is modelled
    over any choice of them.

    - [Integrator] and [Integrator_put]: the windowed integrator of the
      single-sample path; [put] returns the delta angle and its time span
      when a window is complete.
    - [rotate_3f]: the rotation of a triplet by a named orientation;
      [rot_matrix_mul r v] is the product [get_rot_matrix(r) * v].
    - [Vector3f_norm]: the Euclidean norm.
    - [hrt_absolute_time_at k]: what the [k]-th reading of the clock
      returns.
    - the widths, in bits, of the unsigned counters that the class header
      declares. *)

Definition Rotation : Type := Z.

Class Externals : Type := {
  Integrator : Type;
  Integrator_put :
    Integrator -> Z -> Vector3f -> Integrator * option (Vector3f * Z);
  rotate_3f : Rotation -> Vector3f -> Vector3f;
  rot_matrix_mul : Rotation -> Vector3f -> Vector3f;
  Vector3f_norm : Vector3f -> F32.float;
  hrt_absolute_time_at : nat -> Z;
  clipping_bits : Z;
  integrator_reset_samples_bits : Z;
  integrator_samples_bits : Z;
  integrator_fifo_samples_bits : Z;
  integrator_clipping_bits : Z
}.

(** ** Messages *)

(** The value assigned to an integer message field whose type the message
    header declares: the source assigns a [uint32_t] on one path and a
    [float] product on the other. *)
Inductive Assigned : Type :=
| from_uint32 (n : Z)
| from_float (f : F32.float).

Module sensor_gyro_s.
Record t : Type := mk {
  timestamp_sample : Z;
  device_id : Z;
  temperature : F32.float;
  x : F32.float;
  y : F32.float;
  z : F32.float;
  timestamp : Z
}.
End sensor_gyro_s.

Module sensor_gyro_integrated_s.
Record t : Type := mk {
  timestamp_sample : Z;
  error_count : Z;
  device_id : Z;
  delta_angle : Vector3f;
  dt : Assigned;
  samples : Z;
  clip_count : Z;
  timestamp : Z
}.
End sensor_gyro_integrated_s.

Module sensor_gyro_fifo_s.
Record t : Type := mk {
  device_id : Z;
  timestamp_sample : Z;
  dt : F32.float;
  scale : F32.float;
  samples : Z;
  x : list Z;
  y : list Z;
  z : list Z;
  timestamp : Z
}.
End sensor_gyro_fifo_s.

Module sensor_gyro_status_s.
Record t : Type := mk {
  device_id : Z;
  error_count : Z;
  full_scale_range : F32.float;
  rotation : Rotation;
  measure_rate_hz : Z;
  temperature : F32.float;
  vibration_metric : F32.float;
  coning_vibration : F32.float;
  clipping : triple Z;
  timestamp : Z
}.
End sensor_gyro_status_s.

(** One call of [publish] on one of the four publications. *)
Inductive Publication : Type :=
| sensor_pub (r : sensor_gyro_s.t)
| sensor_fifo_pub (r : sensor_gyro_fifo_s.t)
| sensor_integrated_pub (r : sensor_gyro_integrated_s.t)
| sensor_status_pub (r : sensor_gyro_status_s.t).

(** ** The batch input *)

(** [PX4Gyroscope::FIFOSample]; [x], [y] and [z] are the arrays
    [int16_t x[16]]. *)
Module FIFOSample.
Record t : Type := mk {
  timestamp_sample : Z;
  samples : Z;
  dt : F32.float;
  x : list Z;
  y : list Z;
  z : list Z
}.
End FIFOSample.

(** ** Undefined behaviour *)

Inductive Undefined : Type :=
| out_of_bounds (n : Z)
| float_to_int16 (f : F32.float)
| division_by_zero.

Inductive result (A : Type) : Type :=
| Ok (a : A)
| UB (u : Undefined).

Arguments Ok {A} a.
Arguments UB {A} u.

Section Driver.

Context {E : Externals}.

(** ** The object *)

Record PX4Gyroscope : Type := mkPX4Gyroscope {
  _device_id : Z;
  _rotation : Rotation;
  _range : F32.float;
  _scale : F32.float;
  _temperature : F32.float;
  _clip_limit : F32.float;
  _error_count : Z;
  _clipping : triple Z;
  _update_rate : Z;
  _calibration_offset : Vector3f;
  _delta_angle_prev : Vector3f;
  _vibration_metric : F32.float;
  _coning_vibration : F32.float;
  _status_last_publish : Z;
  _integrator : Integrator;
  _timestamp_sample_prev : Z;
  _integration_raw : Vector3f;
  _last_sample : triple Z;
  _integrator_reset_samples : Z;
  _integrator_samples : Z;
  _integrator_fifo_samples : Z;
  _integrator_clipping : Z
}.

(** Assignment to one member, the others unchanged. *)
Definition with_range (v : F32.float) (g : PX4Gyroscope) : PX4Gyroscope :=
  mkPX4Gyroscope (_device_id g) (_rotation g) v (_scale g) (_temperature g)
    (_clip_limit g) (_error_count g) (_clipping g) (_update_rate g)
    (_calibration_offset g) (_delta_angle_prev g) (_vibration_metric g)
    (_coning_vibration g) (_status_last_publish g) (_integrator g)
    (_timestamp_sample_prev g) (_integration_raw g) (_last_sample g)
    (_integrator_reset_samples g) (_integrator_samples g)
    (_integrator_fifo_samples g) (_integrator_clipping g).

Definition with_scale (v : F32.float) (g : PX4Gyroscope) : PX4Gyroscope :=
  mkPX4Gyroscope (_device_id g) (_rotation g) (_range g) v (_temperature g)
    (_clip_limit g) (_error_count g) (_clipping g) (_update_rate g)
    (_calibration_offset g) (_delta_angle_prev g) (_vibration_metric g)
    (_coning_vibration g) (_status_last_publish g) (_integrator g)
    (_timestamp_sample_prev g) (_integration_raw g) (_last_sample g)
    (_integrator_reset_samples g) (_integrator_samples g)
    (_integrator_fifo_samples g) (_integrator_clipping g).

Definition with_clip_limit (v : F32.float) (g : PX4Gyroscope) : PX4Gyroscope :=
  mkPX4Gyroscope (_device_id g) (_rotation g) (_range g) (_scale g)
    (_temperature g) v (_error_count g) (_clipping g) (_update_rate g)
    (_calibration_offset g) (_delta_angle_prev g) (_vibration_metric g)
    (_coning_vibration g) (_status_last_publish g) (_integrator g)
    (_timestamp_sample_prev g) (_integration_raw g) (_last_sample g)
    (_integrator_reset_samples g) (_integrator_samples g)
    (_integrator_fifo_samples g) (_integrator_clipping g).

Definition with_clipping (v : triple Z) (g : PX4Gyroscope) : PX4Gyroscope :=
  mkPX4Gyroscope (_device_id g) (_rotation g) (_range g) (_scale g)
    (_temperature g) (_clip_limit g) (_error_count g) v (_update_rate g)
    (_calibration_offset g) (_delta_angle_prev g) (_vibration_metric g)
    (_coning_vibration g) (_status_last_publish g) (_integrator g)
    (_timestamp_sample_prev g) (_integration_raw g) (_last_sample g)
    (_integrator_reset_samples g) (_integrator_samples g)
    (_integrator_fifo_samples g) (_integrator_clipping g).

Definition with_update_rate (v : Z) (g : PX4Gyroscope) : PX4Gyroscope :=
  mkPX4Gyroscope (_device_id g) (_rotation g) (_range g) (_scale g)
    (_temperature g) (_clip_limit g) (_error_count g) (_clipping g) v
    (_calibration_offset g) (_delta_angle_prev g) (_vibration_metric g)
    (_coning_vibration g) (_status_last_publish g) (_integrator g)
    (_timestamp_sample_prev g) (_integration_raw g) (_last_sample g)
    (_integrator_reset_samples g) (_integrator_samples g)
    (_integrator_fifo_samples g) (_integrator_clipping g).

Definition with_calibration_offset (v : Vector3f) (g : PX4Gyroscope) : PX4Gyroscope :=
  mkPX4Gyroscope (_device_id g) (_rotation g) (_range g) (_scale g)
    (_temperature g) (_clip_limit g) (_error_count g) (_clipping g)
    (_update_rate g) v (_delta_angle_prev g) (_vibration_metric g)
    (_coning_vibration g) (_status_last_publish g) (_integrator g)
    (_timestamp_sample_prev g) (_integration_raw g) (_last_sample g)
    (_integrator_reset_samples g) (_integrator_samples g)
    (_integrator_fifo_samples g) (_integrator_clipping g).

Definition with_delta_angle_prev (v : Vector3f) (g : PX4Gyroscope) : PX4Gyroscope :=
  mkPX4Gyroscope (_device_id g) (_rotation g) (_range g) (_scale g)
    (_temperature g) (_clip_limit g) (_error_count g) (_clipping g)
    (_update_rate g) (_calibration_offset g) v (_vibration_metric g)
    (_coning_vibration g) (_status_last_publish g) (_integrator g)
    (_timestamp_sample_prev g) (_integration_raw g) (_last_sample g)
    (_integrator_reset_samples g) (_integrator_samples g)
    (_integrator_fifo_samples g) (_integrator_clipping g).

Definition with_vibration_metric (v : F32.float) (g : PX4Gyroscope) : PX4Gyroscope :=
  mkPX4Gyroscope (_device_id g) (_rotation g) (_range g) (_scale g)
    (_temperature g) (_clip_limit g) (_error_count g) (_clipping g)
    (_update_rate g) (_calibration_offset g) (_delta_angle_prev g) v
    (_coning_vibration g) (_status_last_publish g) (_integrator g)
    (_timestamp_sample_prev g) (_integration_raw g) (_last_sample g)
    (_integrator_reset_samples g) (_integrator_samples g)
    (_integrator_fifo_samples g) (_integrator_clipping g).

Definition with_coning_vibration (v : F32.float) (g : PX4Gyroscope) : PX4Gyroscope :=
  mkPX4Gyroscope (_device_id g) (_rotation g) (_range g) (_scale g)
    (_temperature g) (_clip_limit g) (_error_count g) (_clipping g)
    (_update_rate g) (_calibration_offset g) (_delta_angle_prev g)
    (_vibration_metric g) v (_status_last_publish g) (_integrator g)
    (_timestamp_sample_prev g) (_integration_raw g) (_last_sample g)
    (_integrator_reset_samples g) (_integrator_samples g)
    (_integrator_fifo_samples g) (_integrator_clipping g).

Definition with_status_last_publish (v : Z) (g : PX4Gyroscope) : PX4Gyroscope :=
  mkPX4Gyroscope (_device_id g) (_rotation g) (_range g) (_scale g)
    (_temperature g) (_clip_limit g) (_error_count g) (_clipping g)
    (_update_rate g) (_calibration_offset g) (_delta_angle_prev g)
    (_vibration_metric g) (_coning_vibration g) v (_integrator g)
    (_timestamp_sample_prev g) (_integration_raw g) (_last_sample g)
    (_integrator_reset_samples g) (_integrator_samples g)
    (_integrator_fifo_samples g) (_integrator_clipping g).

Definition with_integrator (v : Integrator) (g : PX4Gyroscope) : PX4Gyroscope :=
  mkPX4Gyroscope (_device_id g) (_rotation g) (_range g) (_scale g)
    (_temperature g) (_clip_limit g) (_error_count g) (_clipping g)
    (_update_rate g) (_calibration_offset g) (_delta_angle_prev g)
    (_vibration_metric g) (_coning_vibration g) (_status_last_publish g) v
    (_timestamp_sample_prev g) (_integration_raw g) (_last_sample g)
    (_integrator_reset_samples g) (_integrator_samples g)
    (_integrator_fifo_samples g) (_integrator_clipping g).

Definition with_timestamp_sample_prev (v : Z) (g : PX4Gyroscope) : PX4Gyroscope :=
  mkPX4Gyroscope (_device_id g) (_rotation g) (_range g) (_scale g)
    (_temperature g) (_clip_limit g) (_error_count g) (_clipping g)
    (_update_rate g) (_calibration_offset g) (_delta_angle_prev g)
    (_vibration_metric g) (_coning_vibration g) (_status_last_publish g)
    (_integrator g) v (_integration_raw g) (_last_sample g)
    (_integrator_reset_samples g) (_integrator_samples g)
    (_integrator_fifo_samples g) (_integrator_clipping g).

Definition with_integration_raw (v : Vector3f) (g : PX4Gyroscope) : PX4Gyroscope :=
  mkPX4Gyroscope (_device_id g) (_rotation g) (_range g) (_scale g)
    (_temperature g) (_clip_limit g) (_error_count g) (_clipping g)
    (_update_rate g) (_calibration_offset g) (_delta_angle_prev g)
    (_vibration_metric g) (_coning_vibration g) (_status_last_publish g)
    (_integrator g) (_timestamp_sample_prev g) v (_last_sample g)
    (_integrator_reset_samples g) (_integrator_samples g)
    (_integrator_fifo_samples g) (_integrator_clipping g).

Definition with_last_sample (v : triple Z) (g : PX4Gyroscope) : PX4Gyroscope :=
  mkPX4Gyroscope (_device_id g) (_rotation g) (_range g) (_scale g)
    (_temperature g) (_clip_limit g) (_error_count g) (_clipping g)
    (_update_rate g) (_calibration_offset g) (_delta_angle_prev g)
    (_vibration_metric g) (_coning_vibration g) (_status_last_publish g)
    (_integrator g) (_timestamp_sample_prev g) (_integration_raw g) v
    (_integrator_reset_samples g) (_integrator_samples g)
    (_integrator_fifo_samples g) (_integrator_clipping g).

Definition with_integrator_reset_samples (v : Z) (g : PX4Gyroscope) : PX4Gyroscope :=
  mkPX4Gyroscope (_device_id g) (_rotation g) (_range g) (_scale g)
    (_temperature g) (_clip_limit g) (_error_count g) (_clipping g)
    (_update_rate g) (_calibration_offset g) (_delta_angle_prev g)
    (_vibration_metric g) (_coning_vibration g) (_status_last_publish g)
    (_integrator g) (_timestamp_sample_prev g) (_integration_raw g)
    (_last_sample g) v (_integrator_samples g) (_integrator_fifo_samples g)
    (_integrator_clipping g).

Definition with_integrator_samples (v : Z) (g : PX4Gyroscope) : PX4Gyroscope :=
  mkPX4Gyroscope (_device_id g) (_rotation g) (_range g) (_scale g)
    (_temperature g) (_clip_limit g) (_error_count g) (_clipping g)
    (_update_rate g) (_calibration_offset g) (_delta_angle_prev g)
    (_vibration_metric g) (_coning_vibration g) (_status_last_publish g)
    (_integrator g) (_timestamp_sample_prev g) (_integration_raw g)
    (_last_sample g) (_integrator_reset_samples g) v
    (_integrator_fifo_samples g) (_integrator_clipping g).

Definition with_integrator_fifo_samples (v : Z) (g : PX4Gyroscope) : PX4Gyroscope :=
  mkPX4Gyroscope (_device_id g) (_rotation g) (_range g) (_scale g)
    (_temperature g) (_clip_limit g) (_error_count g) (_clipping g)
    (_update_rate g) (_calibration_offset g) (_delta_angle_prev g)
    (_vibration_metric g) (_coning_vibration g) (_status_last_publish g)
    (_integrator g) (_timestamp_sample_prev g) (_integration_raw g)
    (_last_sample g) (_integrator_reset_samples g) (_integrator_samples g) v
    (_integrator_clipping g).

Definition with_integrator_clipping (v : Z) (g : PX4Gyroscope) : PX4Gyroscope :=
  mkPX4Gyroscope (_device_id g) (_rotation g) (_range g) (_scale g)
    (_temperature g) (_clip_limit g) (_error_count g) (_clipping g)
    (_update_rate g) (_calibration_offset g) (_delta_angle_prev g)
    (_vibration_metric g) (_coning_vibration g) (_status_last_publish g)
    (_integrator g) (_timestamp_sample_prev g) (_integration_raw g)
    (_last_sample g) (_integrator_reset_samples g) (_integrator_samples g)
    (_integrator_fifo_samples g) v.

(** The driver object and the number of clock readings made so far. *)
Record Machine : Type := mkMachine {
  gyro : PX4Gyroscope;
  clock_reads : nat
}.

(** ** The monad of member functions

    A member function transforms the machine, appends to the list of
    publications, and either returns or runs into undefined behaviour. *)

Definition M (A : Type) : Type :=
  Machine -> Machine * list Publication * result A.

Definition ret {A : Type} (a : A) : M A := fun m => (m, [], Ok a).

Definition bind {A B : Type} (c : M A) (k : A -> M B) : M B :=
  fun m =>
    match c m with
    | (m1, o1, Ok a) =>
        match k a m1 with
        | (m2, o2, r) => (m2, o1 ++ o2, r)
        end
    | (m1, o1, UB u) => (m1, o1, UB u)
    end.

Notation "x <- c ;; k" := (bind c (fun x => k))
  (at level 61, c at next level, right associativity).
Notation "c ;;; k" := (bind c (fun _ => k))
  (at level 61, right associativity).

Definition this : M PX4Gyroscope := fun m => (m, [], Ok (gyro m)).

Definition modify (f : PX4Gyroscope -> PX4Gyroscope) : M unit :=
  fun m => (mkMachine (f (gyro m)) (clock_reads m), [], Ok tt).

Definition publish (p : Publication) : M unit := fun m => (m, [p], Ok tt).

Definition undefined {A : Type} (u : Undefined) : M A :=
  fun m => (m, [], UB u).

Definition when (b : bool) (c : M unit) : M unit := if b then c else ret tt.

Definition hrt_absolute_time : M Z :=
  fun m =>
    (mkMachine (gyro m) (S (clock_reads m)), [],
     Ok (hrt_absolute_time_at (clock_reads m))).

(** [hrt_elapsed_time(&then)]: the clock minus [then], in [hrt_abstime]. *)
Definition hrt_elapsed_time (then_ : Z) : M Z :=
  now <- hrt_absolute_time ;;
  ret (wrap hrt_abstime_bits (now - then_)).

(** ** The two loops over a sample array *)

(** [samples[n]] of an [int16_t samples[16]]. *)
Definition read16 (samples : list Z) (n : Z) : M Z :=
  if (0 <=? n) && (n <? 16) then
    match nth_error samples (Z.to_nat n) with
    | Some v => ret v
    | None => undefined (out_of_bounds n)
    end
  else undefined (out_of_bounds n).

(** [for (int n = 0; n < len; n++) sum += samples[n];] with [k] rounds
    left. *)
Fixpoint sum_loop (samples : list Z) (k : nat) (n : Z) (acc : Z) : M Z :=
  match k with
  | O => ret acc
  | S k' =>
      v <- read16 samples n ;;
      sum_loop samples k' (n + 1) (acc + v)
  end.

Definition sum (samples : list Z) (len : Z) : M Z :=
  sum_loop samples (Z.to_nat len) 0 0.

(** [abs] of an [int16_t] promoted to [int]. *)
Definition abs (v : Z) : Z := Z.abs v.

Fixpoint clipping_loop (samples : list Z) (clip_limit : Z) (k : nat) (n : Z)
  (clip_count : Z) : M Z :=
  match k with
  | O => ret clip_count
  | S k' =>
      v <- read16 samples n ;;
      clipping_loop samples clip_limit k' (n + 1)
        (if abs v >=? clip_limit then clip_count + 1 else clip_count)
  end.

Definition clipping (samples : list Z) (clip_limit : Z) (len : Z) : M Z :=
  clipping_loop samples clip_limit (Z.to_nat len) 0 0.

(** The conversion of the [float] member [_clip_limit] to the [int16_t]
    parameter of [clipping]. *)
Definition int16_of_float (f : F32.float) : M Z :=
  match F32.to_int16 f with
  | Some n => ret n
  | None => undefined (float_to_int16 f)
  end.

(** ** Member functions *)

Definition ResetIntegrator (g : PX4Gyroscope) : PX4Gyroscope :=
  with_timestamp_sample_prev 0
    (with_integrator_clipping 0
      (with_integration_raw Vec.zero
        (with_integrator_fifo_samples 0
          (with_integrator_samples 0 g)))).

(** [_clip_limit = fmaxf((_range / _scale) * 0.999f, INT16_MAX)] *)
Definition UpdateClipLimit (g : PX4Gyroscope) : PX4Gyroscope :=
  with_clip_limit
    (F32.fmaxf (F32.mul (F32.div (_range g) (_scale g)) (F32.lit 999 1000))
               (F32.of_Z INT16_MAX))
    g.

Definition UpdateVibrationMetrics (delta_angle : Vector3f) (g : PX4Gyroscope)
  : PX4Gyroscope :=
  let delta_angle_diff := Vec.sub delta_angle (_delta_angle_prev g) in
  let g1 :=
    with_vibration_metric
      (F32.add (F32.mul (F32.lit 99 100) (_vibration_metric g))
               (F32.mul (F32.lit 1 100) (Vector3f_norm delta_angle_diff)))
      g in
  let coning_metric := Vec.cross delta_angle (_delta_angle_prev g1) in
  let g2 :=
    with_coning_vibration
      (F32.add (F32.mul (F32.lit 99 100) (_coning_vibration g1))
               (F32.mul (F32.lit 1 100) (Vector3f_norm coning_metric)))
      g1 in
  with_delta_angle_prev delta_angle g2.

(** [100_ms] in microseconds. *)
Definition status_interval : Z := 100000.

Definition PublishStatus : M unit :=
  g <- this ;;
  elapsed <- hrt_elapsed_time (_status_last_publish g) ;;
  when (elapsed >=? status_interval)
    (now <- hrt_absolute_time ;;
     publish (sensor_status_pub
       (sensor_gyro_status_s.mk (_device_id g) (_error_count g) (_range g)
          (_rotation g) (_update_rate g) (_temperature g)
          (_vibration_metric g) (_coning_vibration g) (_clipping g) now)) ;;;
     modify (with_status_last_publish now)).

(** [rate] is a [uint16_t] and [update_interval] a [uint32_t]; both
    quotients are integer divisions. *)
Definition set_update_rate (rate : Z) : M unit :=
  modify (with_update_rate rate) ;;;
  (if rate =? 0 then undefined division_by_zero else ret tt) ;;;
  let update_interval := wrap 32 (1000000 / rate) in
  (if update_interval =? 0 then undefined division_by_zero else ret tt) ;;;
  modify (with_integrator_reset_samples
            (wrap integrator_reset_samples_bits (4000 / update_interval))).

(** The body of the clipping loop of [update] at index [i]. *)
Definition clip_axis (raw : Vector3f) (i : Axis) (g : PX4Gyroscope)
  : PX4Gyroscope :=
  if F32.gtb (F32.fabsf (get3 raw i)) (_clip_limit g) then
    with_integrator_clipping
      (wrap integrator_clipping_bits (_integrator_clipping g + 1))
      (with_clipping
         (upd3 i (fun c => wrap clipping_bits (c + 1)) (_clipping g)) g)
  else g.

(** The clipping loop of [update], [for (int i = 0; i < 3; i++)]. *)
Definition update_clipping (raw : Vector3f) : M unit :=
  modify (clip_axis raw AX) ;;;
  modify (clip_axis raw AY) ;;;
  modify (clip_axis raw AZ).

(** The second half of [update]: count the sample, hand it to the
    integrator, publish and reset when a window is complete. *)
Definition update_integrate (timestamp_sample : Z) (val_calibrated : Vector3f)
  : M unit :=
  modify (fun g =>
    with_integrator_samples
      (wrap integrator_samples_bits (_integrator_samples g + 1)) g) ;;;
  g <- this ;;
  let put := Integrator_put (_integrator g) timestamp_sample val_calibrated in
  modify (with_integrator (fst put)) ;;;
  match snd put with
  | Some (delta_angle, integral_dt) =>
      (* fill sensor_gyro_integrated and publish *)
      g <- this ;;
      now <- hrt_absolute_time ;;
      publish (sensor_integrated_pub
        (sensor_gyro_integrated_s.mk timestamp_sample (_error_count g)
           (_device_id g) delta_angle (from_uint32 integral_dt)
           (_integrator_samples g) (_integrator_clipping g) now)) ;;;
      (* reset integrator *)
      modify ResetIntegrator ;;;
      (* update vibration metrics *)
      modify (UpdateVibrationMetrics delta_angle)
  | None => ret tt
  end.

Definition update (timestamp_sample : Z) (x y z : F32.float) : M unit :=
  g0 <- this ;;
  (* Apply rotation (before scaling) *)
  let raw := rotate_3f (_rotation g0) (mk3 x y z) in
  (* Clipping (check unscaled raw values) *)
  update_clipping raw ;;;
  (* Apply range scale and the calibrating offset/scale *)
  g <- this ;;
  let val_calibrated :=
    Vec.sub (Vec.scale raw (_scale g)) (_calibration_offset g) in
  (* publish raw data immediately *)
  now <- hrt_absolute_time ;;
  publish (sensor_pub
    (sensor_gyro_s.mk timestamp_sample (_device_id g) (_temperature g)
       (t0 val_calibrated) (t1 val_calibrated) (t2 val_calibrated) now)) ;;;
  (* Integrated values *)
  update_integrate timestamp_sample val_calibrated ;;;
  PublishStatus.

(** [const uint8_t N = sample.samples] *)
Definition batch_size (sample : FIFOSample.t) : Z :=
  wrap 8 (FIFOSample.samples sample).

(** The condition of the gap check of [updateFIFO]: the difference of the
    two [hrt_abstime] is converted to [float] for the comparison. *)
Definition timestamp_gap (sample : FIFOSample.t) (g : PX4Gyroscope) : bool :=
  let N := batch_size sample in
  let dt := FIFOSample.dt sample in
  (FIFOSample.timestamp_sample sample >? _timestamp_sample_prev g)
  && F32.gtb
       (F32.of_Z (wrap hrt_abstime_bits
          (FIFOSample.timestamp_sample sample - _timestamp_sample_prev g)))
       (F32.mul (F32.mul (F32.of_Z N) dt) (F32.of_Z 2)).

(** The flush condition of [updateFIFO]. *)
Definition integrator_ready (g : PX4Gyroscope) : bool :=
  (_integrator_fifo_samples g >? 0)
  && (_integrator_samples g >=? _integrator_reset_samples g).

(** One axis of the trapezoidal sum:
    [0.5f * (_last_sample[i] + s[N - 1]) + sum(s, N - 1)]. The two
    samples in brackets are [int16_t] values, whose sum is exact both as
    an [int] and as a [float]; the length passed to [sum] is a
    [uint8_t]. *)
Definition trapezoid (last_sample : Z) (s : list Z) (N : Z) : M F32.float :=
  last <- read16 s (N - 1) ;;
  rest <- sum s (wrap 8 (N - 1)) ;;
  ret (F32.add (F32.mul (F32.lit 1 2) (F32.of_Z (last_sample + last)))
               (F32.of_Z rest)).

(** The delta angle of a flush:
    [(_rotation_dcm * _integration_raw * _scale - offset) * (1e-6f * dt)]. *)
Definition flush_delta_angle (dt : F32.float) (g : PX4Gyroscope) : Vector3f :=
  let delta_angle_uncalibrated :=
    Vec.scale (rot_matrix_mul (_rotation g) (_integration_raw g)) (_scale g) in
  let offset :=
    Vec.scale (_calibration_offset g)
              (F32.of_Z (_integrator_fifo_samples g)) in
  let delta_angle := Vec.sub delta_angle_uncalibrated offset in
  Vec.scale delta_angle (F32.mul (F32.lit 1 1000000) dt).

(** [memcpy(fifo.x, sample.x, sizeof(sample.x[0]) * N)] into a zeroed
    array of 16. *)
Definition fifo_copy (s : list Z) (N : Z) : list Z :=
  firstn (Z.to_nat N) s ++ repeat 0 (16 - Z.to_nat N)%nat.

(** [updateFIFO], block by block. *)

(** "publish raw data immediately": the average of the batch, rotated,
    scaled and offset. *)
Definition fifo_publish_raw (sample : FIFOSample.t) : M unit :=
  let N := batch_size sample in
  sum_x <- sum (FIFOSample.x sample) N ;;
  sum_y <- sum (FIFOSample.y sample) N ;;
  sum_z <- sum (FIFOSample.z sample) N ;;
  g <- this ;;
  let average :=
    mk3 (F32.div (F32.of_Z sum_x) (F32.of_Z N))
        (F32.div (F32.of_Z sum_y) (F32.of_Z N))
        (F32.div (F32.of_Z sum_z) (F32.of_Z N)) in
  (* Apply rotation (before scaling) *)
  let rotated := rotate_3f (_rotation g) average in
  (* Apply range scale and the calibration offset *)
  let val_calibrated :=
    Vec.sub (Vec.scale rotated (_scale g)) (_calibration_offset g) in
  now <- hrt_absolute_time ;;
  publish (sensor_pub
    (sensor_gyro_s.mk (FIFOSample.timestamp_sample sample) (_device_id g)
       (_temperature g)
       (t0 val_calibrated) (t1 val_calibrated) (t2 val_calibrated) now)).

(** "clipping": the three counts are [unsigned]. *)
Definition fifo_clipping (sample : FIFOSample.t) : M unit :=
  let N := batch_size sample in
  g <- this ;;
  clip_limit <- int16_of_float (_clip_limit g) ;;
  clip_count_x <- clipping (FIFOSample.x sample) clip_limit N ;;
  clip_count_y <- clipping (FIFOSample.y sample) clip_limit N ;;
  clip_count_z <- clipping (FIFOSample.z sample) clip_limit N ;;
  modify (fun g =>
    with_clipping
      (mk3 (wrap clipping_bits (t0 (_clipping g) + clip_count_x))
           (wrap clipping_bits (t1 (_clipping g) + clip_count_y))
           (wrap clipping_bits (t2 (_clipping g) + clip_count_z))) g) ;;;
  modify (fun g =>
    with_integrator_clipping
      (wrap integrator_clipping_bits
         (_integrator_clipping g
          + wrap 32 (clip_count_x + clip_count_y + clip_count_z))) g).

(** "reset integrator if previous sample was too long ago" *)
Definition fifo_gap_check (sample : FIFOSample.t) : M unit :=
  g <- this ;;
  when (timestamp_gap sample g) (modify ResetIntegrator).

(** "integrate": the two counters, the trapezoidal sums and
    [_last_sample]. *)
Definition fifo_integrate (sample : FIFOSample.t) : M unit :=
  let N := batch_size sample in
  modify (fun g =>
    with_integrator_samples
      (wrap integrator_samples_bits (_integrator_samples g + 1)) g) ;;;
  modify (fun g =>
    with_integrator_fifo_samples
      (wrap integrator_fifo_samples_bits (_integrator_fifo_samples g + N))
      g) ;;;
  (* trapezoidal integration (equally spaced, scaled by dt later) *)
  g <- this ;;
  area_x <- trapezoid (t0 (_last_sample g)) (FIFOSample.x sample) N ;;
  area_y <- trapezoid (t1 (_last_sample g)) (FIFOSample.y sample) N ;;
  area_z <- trapezoid (t2 (_last_sample g)) (FIFOSample.z sample) N ;;
  modify (fun g =>
    with_integration_raw
      (Vec.add (_integration_raw g) (mk3 area_x area_y area_z)) g) ;;;
  last_x <- read16 (FIFOSample.x sample) (N - 1) ;;
  last_y <- read16 (FIFOSample.y sample) (N - 1) ;;
  last_z <- read16 (FIFOSample.z sample) (N - 1) ;;
  modify (with_last_sample (mk3 last_x last_y last_z)).

(** The report of a flush, from the members at that point. *)
Definition flush_report (sample : FIFOSample.t) (g : PX4Gyroscope) (now : Z)
  : sensor_gyro_integrated_s.t :=
  let dt := FIFOSample.dt sample in
  sensor_gyro_integrated_s.mk (FIFOSample.timestamp_sample sample)
    (_error_count g) (_device_id g) (flush_delta_angle dt g)
    (from_float (F32.mul (F32.of_Z (_integrator_fifo_samples g)) dt))
    (_integrator_fifo_samples g) (_integrator_clipping g) now.

(** The flush: publish, update the vibration metrics, reset. *)
Definition fifo_flush (sample : FIFOSample.t) : M unit :=
  g <- this ;;
  when (integrator_ready g)
    (now <- hrt_absolute_time ;;
     publish (sensor_integrated_pub (flush_report sample g now)) ;;;
     (* update vibration metrics *)
     modify (UpdateVibrationMetrics
               (flush_delta_angle (FIFOSample.dt sample) g)) ;;;
     (* reset integrator *)
     modify ResetIntegrator).

(** "publish sensor fifo" *)
Definition fifo_publish_fifo (sample : FIFOSample.t) : M unit :=
  let N := batch_size sample in
  g <- this ;;
  now <- hrt_absolute_time ;;
  publish (sensor_fifo_pub
    (sensor_gyro_fifo_s.mk (_device_id g)
       (FIFOSample.timestamp_sample sample) (FIFOSample.dt sample)
       (_scale g) N
       (fifo_copy (FIFOSample.x sample) N)
       (fifo_copy (FIFOSample.y sample) N)
       (fifo_copy (FIFOSample.z sample) N) now)).

(** The blocks of [updateFIFO] that come before the flush. *)
Definition fifo_until_flush (sample : FIFOSample.t) : M unit :=
  fifo_publish_raw sample ;;;
  fifo_clipping sample ;;;
  fifo_gap_check sample ;;;
  fifo_integrate sample.

Definition updateFIFO (sample : FIFOSample.t) : M unit :=
  fifo_publish_raw sample ;;;
  fifo_clipping sample ;;;
  fifo_gap_check sample ;;;
  fifo_integrate sample ;;;
  fifo_flush sample ;;;
  modify (with_timestamp_sample_prev (FIFOSample.timestamp_sample sample)) ;;;
  fifo_publish_fifo sample ;;;
  PublishStatus.

(** ** Plain descriptions of what the blocks compute *)

(** The sum of the first [len] entries, the number of them whose magnitude
    is at least [clip_limit], and the entry at index [n]. *)
Definition sum_of (samples : list Z) (len : Z) : Z :=
  fold_right Z.add 0 (firstn (Z.to_nat len) samples).

Definition clip_count_of (samples : list Z) (clip_limit len : Z) : Z :=
  Z.of_nat (length (filter (fun v => Z.abs v >=? clip_limit)
                           (firstn (Z.to_nat len) samples))).

Definition sample_at (samples : list Z) (n : Z) : Z :=
  nth (Z.to_nat n) samples 0.

(** A batch the caller may pass: between 1 and 16 samples in arrays of 16. *)
Definition valid_batch (sample : FIFOSample.t) : Prop :=
  1 <= FIFOSample.samples sample <= 16
  /\ length (FIFOSample.x sample) = 16%nat
  /\ length (FIFOSample.y sample) = 16%nat
  /\ length (FIFOSample.z sample) = 16%nat.

(** The trapezoidal contribution of one axis,
    [0.5 * (last_sample + s[N-1]) + sum(s[0..N-1))]. *)
Definition trapezoid_of (last_sample : Z) (s : list Z) (N : Z) : F32.float :=
  F32.add
    (F32.mul (F32.lit 1 2) (F32.of_Z (last_sample + sample_at s (N - 1))))
    (F32.of_Z (sum_of s (N - 1))).

Definition contribution (last_sample : triple Z) (sample : FIFOSample.t)
  : Vector3f :=
  let N := batch_size sample in
  mk3 (trapezoid_of (t0 last_sample) (FIFOSample.x sample) N)
      (trapezoid_of (t1 last_sample) (FIFOSample.y sample) N)
      (trapezoid_of (t2 last_sample) (FIFOSample.z sample) N).

(** The last sample of the batch on each axis. *)
Definition last_of (sample : FIFOSample.t) : triple Z :=
  let N := batch_size sample in
  mk3 (sample_at (FIFOSample.x sample) (N - 1))
      (sample_at (FIFOSample.y sample) (N - 1))
      (sample_at (FIFOSample.z sample) (N - 1)).

(** The average of the batch on each axis. *)
Definition average_of (sample : FIFOSample.t) : Vector3f :=
  let N := batch_size sample in
  mk3 (F32.div (F32.of_Z (sum_of (FIFOSample.x sample) N)) (F32.of_Z N))
      (F32.div (F32.of_Z (sum_of (FIFOSample.y sample) N)) (F32.of_Z N))
      (F32.div (F32.of_Z (sum_of (FIFOSample.z sample) N)) (F32.of_Z N)).

(** [raw_rotated * scale - offset] *)
Definition calibrate (g : PX4Gyroscope) (raw_rotated : Vector3f) : Vector3f :=
  Vec.sub (Vec.scale raw_rotated (_scale g)) (_calibration_offset g).

(** The message of the immediate publication. *)
Definition reading (timestamp_sample : Z) (g : PX4Gyroscope)
  (val_calibrated : Vector3f) (now : Z) : sensor_gyro_s.t :=
  sensor_gyro_s.mk timestamp_sample (_device_id g) (_temperature g)
    (t0 val_calibrated) (t1 val_calibrated) (t2 val_calibrated) now.

(** The members after each block of [updateFIFO]. *)
Definition clip_counts (sample : FIFOSample.t) (clip_limit : Z) : triple Z :=
  let N := batch_size sample in
  mk3 (clip_count_of (FIFOSample.x sample) clip_limit N)
      (clip_count_of (FIFOSample.y sample) clip_limit N)
      (clip_count_of (FIFOSample.z sample) clip_limit N).

Definition after_clipping (sample : FIFOSample.t) (clip_limit : Z)
  (g : PX4Gyroscope) : PX4Gyroscope :=
  let c := clip_counts sample clip_limit in
  with_integrator_clipping
    (wrap integrator_clipping_bits
       (_integrator_clipping g + wrap 32 (t0 c + t1 c + t2 c)))
    (with_clipping
       (zip3 (fun old n => wrap clipping_bits (old + n)) (_clipping g) c) g).

Definition after_gap_check (sample : FIFOSample.t) (g : PX4Gyroscope)
  : PX4Gyroscope :=
  if timestamp_gap sample g then ResetIntegrator g else g.

Definition after_integrate (sample : FIFOSample.t) (g : PX4Gyroscope)
  : PX4Gyroscope :=
  with_last_sample (last_of sample)
    (with_integration_raw
       (Vec.add (_integration_raw g) (contribution (_last_sample g) sample))
       (with_integrator_fifo_samples
          (wrap integrator_fifo_samples_bits
             (_integrator_fifo_samples g + batch_size sample))
          (with_integrator_samples
             (wrap integrator_samples_bits (_integrator_samples g + 1)) g))).

(** The members when the flush condition is evaluated. *)
Definition before_flush (sample : FIFOSample.t) (clip_limit : Z)
  (g : PX4Gyroscope) : PX4Gyroscope :=
  after_integrate sample
    (after_gap_check sample (after_clipping sample clip_limit g)).

(** The members after the three rounds of the clipping loop of [update]. *)
Definition after_update_clipping (raw : Vector3f) (g : PX4Gyroscope)
  : PX4Gyroscope :=
  clip_axis raw AZ (clip_axis raw AY (clip_axis raw AX g)).

(** The members after the flush block. *)
Definition after_flush (sample : FIFOSample.t) (g : PX4Gyroscope)
  : PX4Gyroscope :=
  if integrator_ready g
  then ResetIntegrator
         (UpdateVibrationMetrics
            (flush_delta_angle (FIFOSample.dt sample) g) g)
  else g.

(** The machine after one reading of the clock, after a change of the
    members, and the time the next reading returns. *)
Definition tick (m : Machine) : Machine :=
  mkMachine (gyro m) (S (clock_reads m)).

Definition on_gyro (f : PX4Gyroscope -> PX4Gyroscope) (m : Machine)
  : Machine :=
  mkMachine (f (gyro m)) (clock_reads m).

Definition time (m : Machine) : Z := hrt_absolute_time_at (clock_reads m).

(** The immediate publication of a batch. *)
Definition fifo_reading (sample : FIFOSample.t) (g : PX4Gyroscope) (now : Z)
  : sensor_gyro_s.t :=
  reading (FIFOSample.timestamp_sample sample) g
    (calibrate g (rotate_3f (_rotation g) (average_of sample))) now.

(** The echo of a batch. *)
Definition fifo_echo (sample : FIFOSample.t) (g : PX4Gyroscope) (now : Z)
  : sensor_gyro_fifo_s.t :=
  let N := batch_size sample in
  sensor_gyro_fifo_s.mk (_device_id g)
    (FIFOSample.timestamp_sample sample) (FIFOSample.dt sample)
    (_scale g) N
    (fifo_copy (FIFOSample.x sample) N)
    (fifo_copy (FIFOSample.y sample) N)
    (fifo_copy (FIFOSample.z sample) N) now.

(** What the flush block publishes. *)
Definition flush_out (sample : FIFOSample.t) (g : PX4Gyroscope) (now : Z)
  : list Publication :=
  if integrator_ready g
  then [sensor_integrated_pub (flush_report sample g now)]
  else [].

(** The single-sample path: the members when the integrator is asked,
    its answer, the report of a completed window, and the members after
    the second half of [update]. *)
Definition counted (g : PX4Gyroscope) : PX4Gyroscope :=
  with_integrator_samples
    (wrap integrator_samples_bits (_integrator_samples g + 1)) g.

Definition put_result (timestamp_sample : Z) (val_calibrated : Vector3f)
  (g : PX4Gyroscope) : Integrator * option (Vector3f * Z) :=
  Integrator_put (_integrator (counted g)) timestamp_sample val_calibrated.

Definition update_report (timestamp_sample : Z) (g : PX4Gyroscope)
  (delta_angle : Vector3f) (integral_dt : Z) (now : Z)
  : sensor_gyro_integrated_s.t :=
  sensor_gyro_integrated_s.mk timestamp_sample (_error_count g)
    (_device_id g) delta_angle (from_uint32 integral_dt)
    (_integrator_samples (counted g)) (_integrator_clipping g) now.

Definition after_update_integrate (timestamp_sample : Z)
  (val_calibrated : Vector3f) (g : PX4Gyroscope) : PX4Gyroscope :=
  let put := put_result timestamp_sample val_calibrated g in
  let g1 := with_integrator (fst put) (counted g) in
  match snd put with
  | Some (delta_angle, _) =>
      UpdateVibrationMetrics delta_angle (ResetIntegrator g1)
  | None => g1
  end.

Definition update_integrate_out (timestamp_sample : Z)
  (val_calibrated : Vector3f) (g : PX4Gyroscope) (now : Z)
  : list Publication :=
  match snd (put_result timestamp_sample val_calibrated g) with
  | Some (delta_angle, integral_dt) =>
      [sensor_integrated_pub
         (update_report timestamp_sample g delta_angle integral_dt now)]
  | None => []
  end.

(** ** The specification's wording, where it is compared with the code *)


(** "if prev_timestamp != 0 and (timestamp_of_first_sample -
    prev_timestamp) > 2 x N x dt" *)
Definition spec_gap_condition (sample : FIFOSample.t) (g : PX4Gyroscope)
  : bool :=
  negb (_timestamp_sample_prev g =? 0)
  && F32.gtb
       (F32.of_Z (FIFOSample.timestamp_sample sample
                  - _timestamp_sample_prev g))
       (F32.mul (F32.mul (F32.of_Z 2) (F32.of_Z (batch_size sample)))
                (FIFOSample.dt sample)).

(** "computed on rotated-but-uncalibrated raw values": sample [k] of the
    batch and the previous last sample as rotated triplets, and the
    trapezoidal contribution [0.5*(last_sample + sample[N-1]) +
    sum(sample[0..N-1))] taken over them. *)
Definition spec_rotated (r : Rotation) (v : triple Z) : Vector3f :=
  rotate_3f r (map3 F32.of_Z v).

Definition spec_sample (sample : FIFOSample.t) (k : nat) : triple Z :=
  mk3 (nth k (FIFOSample.x sample) 0)
      (nth k (FIFOSample.y sample) 0)
      (nth k (FIFOSample.z sample) 0).

Definition spec_rotated_contribution (r : Rotation) (last_sample : triple Z)
  (sample : FIFOSample.t) : Vector3f :=
  let n := Z.to_nat (batch_size sample - 1) in
  Vec.add
    (Vec.scale (Vec.add (spec_rotated r last_sample)
                        (spec_rotated r (spec_sample sample n)))
               (F32.lit 1 2))
    (fold_left Vec.add
       (map (fun k => spec_rotated r (spec_sample sample k)) (seq 0 n))
       Vec.zero).

(** ** Sequences of calls *)

Inductive Call : Type :=
| call_update (timestamp_sample : Z) (x y z : F32.float)
| call_updateFIFO (sample : FIFOSample.t).

Definition call (c : Call) : M unit :=
  match c with
  | call_update timestamp_sample x y z => update timestamp_sample x y z
  | call_updateFIFO sample => updateFIFO sample
  end.

Fixpoint run (cs : list Call) : M unit :=
  match cs with
  | [] => ret tt
  | c :: cs' => call c ;;; run cs'
  end.

Definition valid_call (c : Call) : Prop :=
  match c with
  | call_update _ _ _ _ => True
  | call_updateFIFO sample => valid_batch sample
  end.

(** The clipped samples that one call counts on each axis, and those of
    a sequence of calls. They depend on the members [_rotation] and
    [_clip_limit] only; [clip_limit] is [(int16_t)_clip_limit]. *)
Definition call_clips (g : PX4Gyroscope) (clip_limit : Z) (c : Call)
  : triple Z :=
  match c with
  | call_update _ x y z =>
      map3 (fun v =>
              if F32.gtb (F32.fabsf v) (_clip_limit g) then 1 else 0)
           (rotate_3f (_rotation g) (mk3 x y z))
  | call_updateFIFO sample => clip_counts sample clip_limit
  end.

Fixpoint run_clips (g : PX4Gyroscope) (clip_limit : Z) (cs : list Call)
  : triple Z :=
  match cs with
  | [] => mk3 0 0 0
  | c :: cs' =>
      zip3 Z.add (call_clips g clip_limit c) (run_clips g clip_limit cs')
  end.

(** What a list of publications holds on one topic. *)
Definition readings (out : list Publication) : list sensor_gyro_s.t :=
  flat_map (fun p => match p with sensor_pub r => [r] | _ => [] end) out.

Definition reports (out : list Publication)
  : list sensor_gyro_integrated_s.t :=
  flat_map (fun p => match p with sensor_integrated_pub r => [r] | _ => [] end)
           out.

(** ** Topics, the status message and the batch echo *)

Inductive Topic : Type :=
| sensor_gyro
| sensor_gyro_fifo
| sensor_gyro_integrated
| sensor_gyro_status.

Definition topic_of (p : Publication) : Topic :=
  match p with
  | sensor_pub _ => sensor_gyro
  | sensor_fifo_pub _ => sensor_gyro_fifo
  | sensor_integrated_pub _ => sensor_gyro_integrated
  | sensor_status_pub _ => sensor_gyro_status
  end.

Definition echoes (out : list Publication) : list sensor_gyro_fifo_s.t :=
  flat_map (fun p => match p with sensor_fifo_pub r => [r] | _ => [] end) out.

Definition statuses (out : list Publication) : list sensor_gyro_status_s.t :=
  flat_map (fun p => match p with sensor_status_pub r => [r] | _ => [] end)
           out.

(** The status message that [PublishStatus] fills from the members. *)
Definition status_of (g : PX4Gyroscope) (now : Z) : sensor_gyro_status_s.t :=
  sensor_gyro_status_s.mk (_device_id g) (_error_count g) (_range g)
    (_rotation g) (_update_rate g) (_temperature g)
    (_vibration_metric g) (_coning_vibration g) (_clipping g) now.

(** The time that [PublishStatus] compares with [100_ms]. *)
Definition status_elapsed (m : Machine) : Z :=
  wrap hrt_abstime_bits (time m - _status_last_publish (gyro m)).

(** Timestamps that start at least [100_ms] after [last] and are at least
    [100_ms] apart. *)
Fixpoint spaced (last : Z) (times : list Z) : Prop :=
  match times with
  | [] => True
  | t :: times' => last + status_interval <= t /\ spaced t times'
  end.

(** The members that [update] and [updateFIFO] only read. *)
Definition same_configuration (g g' : PX4Gyroscope) : Prop :=
  _device_id g' = _device_id g
  /\ _rotation g' = _rotation g
  /\ _range g' = _range g
  /\ _scale g' = _scale g
  /\ _temperature g' = _temperature g
  /\ _clip_limit g' = _clip_limit g
  /\ _error_count g' = _error_count g
  /\ _update_rate g' = _update_rate g
  /\ _calibration_offset g' = _calibration_offset g
  /\ _integrator_reset_samples g' = _integrator_reset_samples g.

(** The conversion of a [float] to an integer type is defined when the
    value, truncated toward zero, is a value of that type. The integer
    type of the field [dt] of the integrated report is declared by the
    message header; it is given here by the set of its values. What
    [update] assigns is a [uint32_t], whose conversion to an integer
    type is always defined; what [updateFIFO] assigns is a [float]
    product. *)
Definition float_to_integer_defined (representable : Z -> Prop)
  (f : F32.float) : Prop :=
  exists n, F32.trunc f = Some n /\ representable n.

Definition report_dt_defined (representable : Z -> Prop)
  (r : sensor_gyro_integrated_s.t) : Prop :=
  match sensor_gyro_integrated_s.dt r with
  | from_uint32 _ => True
  | from_float f => float_to_integer_defined representable f
  end.

(** A batch whose [dt] gives a convertible product with every value the
    raw sample counter can hold. *)
Definition convertible_dt (representable : Z -> Prop) (c : Call) : Prop :=
  match c with
  | call_update _ _ _ _ => True
  | call_updateFIFO sample =>
      forall k, 0 <= k < 2 ^ integrator_fifo_samples_bits ->
        float_to_integer_defined representable
          (F32.mul (F32.of_Z k) (FIFOSample.dt sample))
  end.

(** The machine on which [updateFIFO] and [update] call
    [PublishStatus]. *)
Definition fifo_before_status (sample : FIFOSample.t) (clip_limit : Z)
  (m : Machine) : Machine :=
  let g1 := before_flush sample clip_limit (gyro m) in
  mkMachine
    (with_timestamp_sample_prev (FIFOSample.timestamp_sample sample)
       (after_flush sample g1))
    (if integrator_ready g1 then S (S (S (clock_reads m)))
     else S (S (clock_reads m))).

Definition update_before_status (timestamp_sample : Z) (x y z : F32.float)
  (m : Machine) : Machine :=
  let raw := rotate_3f (_rotation (gyro m)) (mk3 x y z) in
  let g1 := after_update_clipping raw (gyro m) in
  let val := calibrate g1 raw in
  mkMachine
    (after_update_integrate timestamp_sample val g1)
    (match snd (put_result timestamp_sample val g1) with
     | Some _ => S (S (clock_reads m))
     | None => S (clock_reads m)
     end).

End Driver.

(** ** The control channel

    [ioctl] switches on command codes and returns status codes that the
    device headers define; they are taken as given. With
    [GYROIOCSSCALE] the argument is the address of a
    [gyro_calibration_s], of which the three offsets are read; it is
    passed here as the structure it points to. The [uint32_t] device id
    is returned as an [int]. *)

Class IoctlCodes : Type := {
  GYROIOCSSCALE : Z;
  DEVIOCGDEVICEID : Z;
  ENOTTY : Z;
  PX4_OK : Z
}.

Module gyro_calibration_s.
Record t : Type := mk {
  x_offset : F32.float;
  y_offset : F32.float;
  z_offset : F32.float
}.
End gyro_calibration_s.

(** The conversion of a [uint32_t] to [int]. *)
Definition int_of_uint32 (n : Z) : Z :=
  let r := wrap 32 n in
  if r <? 2 ^ 31 then r else r - 2 ^ 32.

Section Control.

Context {E : Externals} {C : IoctlCodes}.

Definition ioctl (cmd : Z) (arg : gyro_calibration_s.t) : M Z :=
  if cmd =? GYROIOCSSCALE then
    (* Copy offsets and scale factors in *)
    bind (modify (with_calibration_offset
                    (mk3 (gyro_calibration_s.x_offset arg)
                         (gyro_calibration_s.y_offset arg)
                         (gyro_calibration_s.z_offset arg))))
         (fun _ => ret PX4_OK)
  else if cmd =? DEVIOCGDEVICEID then
    bind this (fun g => ret (int_of_uint32 (_device_id g)))
  else ret (- ENOTTY).

End Control.

(** ** A concrete firmware for running the model

    Two orientations, [ROTATION_NONE] (no rotation) and
    [ROTATION_YAW_90] (a quarter turn about z, taking [(x, y, z)] to
    [(-y, x, z)]) with their rotation matrices, an integrator that
    completes a window every [period] samples, a clock that advances by
    10 microseconds per reading, and the counters at 8 bits but for the
    32-bit lifetime clip counters. *)

Definition ROTATION_NONE : Rotation := 0.
Definition ROTATION_YAW_90 : Rotation := 2.

Definition rotate_3f_model (r : Rotation) (v : Vector3f) : Vector3f :=
  if r =? ROTATION_YAW_90 then mk3 (SFopp (t1 v)) (t0 v) (t2 v) else v.

(** A row of a matrix times a vector, accumulated from zero. *)
Definition row_dot (row v : Vector3f) : F32.float :=
  F32.add (F32.add (F32.add F32.zero (F32.mul (t0 row) (t0 v)))
                   (F32.mul (t1 row) (t1 v)))
          (F32.mul (t2 row) (t2 v)).

Definition rot_matrix_model (r : Rotation) : triple Vector3f :=
  let o := F32.of_Z 1 in
  let z := F32.zero in
  if r =? ROTATION_YAW_90
  then mk3 (mk3 z (SFopp o) z) (mk3 o z z) (mk3 z z o)
  else mk3 (mk3 o z z) (mk3 z o z) (mk3 z z o).

Definition rot_matrix_mul_model (r : Rotation) (v : Vector3f) : Vector3f :=
  map3 (fun row => row_dot row v) (rot_matrix_model r).

Definition norm_model (v : Vector3f) : F32.float :=
  SFsqrt F32.prec F32.emax (row_dot v v).

Definition put_every (period : nat) (count : nat) (timestamp : Z)
  (val : Vector3f) : nat * option (Vector3f * Z) :=
  if (period <=? S count)%nat then (O, Some (val, Z.of_nat period * 1000))
  else (S count, None).

Definition firmware (period : nat) : Externals := {|
  Integrator := nat;
  Integrator_put := put_every period;
  rotate_3f := rotate_3f_model;
  rot_matrix_mul := rot_matrix_mul_model;
  Vector3f_norm := norm_model;
  hrt_absolute_time_at := fun k => 1000000 + 10 * Z.of_nat k;
  clipping_bits := 32;
  integrator_reset_samples_bits := 8;
  integrator_samples_bits := 8;
  integrator_fifo_samples_bits := 8;
  integrator_clipping_bits := 8
|}.

(** A freshly constructed driver on [firmware period]: scale 1, no
    offset, the clip limit at [INT16_MAX], a flush once
    [reset_samples] calls are counted. *)
Definition fresh (period : nat) (r : Rotation) (reset_samples : Z)
  : @PX4Gyroscope (firmware period) :=
  @mkPX4Gyroscope (firmware period)
    7 r (F32.of_Z 35) (F32.of_Z 1) F32.zero (F32.of_Z INT16_MAX) 0
    (mk3 0 0 0) 1000 Vec.zero Vec.zero F32.zero F32.zero 0
    O 0 Vec.zero (mk3 0 0 0) reset_samples 0 0 0.

Definition boot (period : nat) (r : Rotation) (reset_samples : Z)
  : @Machine (firmware period) :=
  @mkMachine (firmware period) (fresh period r reset_samples) O.

(** Sixteen copies of [v], of which [N] count. *)
Definition constant_batch (timestamp : Z) (N : Z) (dt : F32.float) (v : Z)
  : FIFOSample.t :=
  FIFOSample.mk timestamp N dt (repeat v 16) (repeat v 16) (repeat v 16).

(** The machine after a computation, and what it published. *)
Definition machine_after {E : Externals} {A : Type} (c : M A) (m : Machine)
  : Machine := fst (fst (c m)).

Definition published {E : Externals} {A : Type} (c : M A) (m : Machine)
  : list Publication := snd (fst (c m)).

(** Command and status codes for running [ioctl]. *)
Definition codes : IoctlCodes := {|
  GYROIOCSSCALE := 9218;
  DEVIOCGDEVICEID := 8194;
  ENOTTY := 25;
  PX4_OK := 0
|}.

(** * Properties *)

Arguments F32.add : simpl never.
Arguments F32.sub : simpl never.
Arguments F32.mul : simpl never.
Arguments F32.div : simpl never.
Arguments F32.of_Z : simpl never.
Arguments F32.lit : simpl never.
Arguments F32.gtb : simpl never.
Arguments F32.to_int16 : simpl never.
Arguments wrap : simpl never.

Section Properties.

Context {E : Externals}.

(** ** Running a sequence of two computations *)

Lemma bind_Ok {A B : Type} (c : M A) (k : A -> M B) m m1 o1 a m2 o2 r :
  c m = (m1, o1, Ok a) ->
  k a m1 = (m2, o2, r) ->
  bind c k m = (m2, o1 ++ o2, r).
Proof. intros Hc Hk. unfold bind. rewrite Hc, Hk. reflexivity. Qed.

Lemma bind_UB {A B : Type} (c : M A) (k : A -> M B) m m1 o1 u :
  c m = (m1, o1, UB u) ->
  bind c k m = (m1, o1, UB u).
Proof. intros Hc. unfold bind. rewrite Hc. reflexivity. Qed.

Lemma bind_Ok_eq {A B : Type} (c : M A) (k : A -> M B) m m1 o1 a m2 o2 r o :
  c m = (m1, o1, Ok a) ->
  o = o1 ++ o2 ->
  k a m1 = (m2, o2, r) ->
  bind c k m = (m2, o, r).
Proof. intros Hc -> Hk. apply (bind_Ok _ _ _ _ _ _ _ _ _ Hc Hk). Qed.

(** A computation that reads without changing or publishing anything. *)
Lemma bind_pure {A B : Type} (c : M A) (k : A -> M B) m a :
  c m = (m, [], Ok a) ->
  bind c k m = k a m.
Proof.
  intros Hc. unfold bind. rewrite Hc.
  destruct (k a m) as [[m2 o2] r]. reflexivity.
Qed.

(** A computation that only changes the members. *)
Lemma bind_modify {B : Type} (f : PX4Gyroscope -> PX4Gyroscope)
  (k : unit -> M B) m :
  bind (modify f) k m = k tt (mkMachine (f (gyro m)) (clock_reads m)).
Proof.
  unfold bind, modify.
  destruct (k tt _) as [[m2 o2] r]. reflexivity.
Qed.

Lemma bind_this {B : Type} (k : PX4Gyroscope -> M B) m :
  bind this k m = k (gyro m) m.
Proof.
  unfold bind, this.
  destruct (k (gyro m) m) as [[m2 o2] r]. reflexivity.
Qed.

Lemma bind_ret {A B : Type} (a : A) (k : A -> M B) m :
  bind (ret a) k m = k a m.
Proof.
  unfold bind, ret.
  destruct (k a m) as [[m2 o2] r]. reflexivity.
Qed.

Lemma bind_clock {B : Type} (k : Z -> M B) m :
  bind hrt_absolute_time k m =
  k (hrt_absolute_time_at (clock_reads m))
    (mkMachine (gyro m) (S (clock_reads m))).
Proof.
  unfold bind, hrt_absolute_time.
  destruct (k _ _) as [[m2 o2] r]. reflexivity.
Qed.

Lemma bind_publish {B : Type} (p : Publication) (k : unit -> M B) m :
  bind (publish p) k m =
  (fst (fst (k tt m)), p :: snd (fst (k tt m)), snd (k tt m)).
Proof.
  unfold bind, publish.
  destruct (k tt m) as [[m2 o2] r]. reflexivity.
Qed.

(** ** The loops *)

Lemma wrap_small (bits n : Z) : 0 <= n < 2 ^ bits -> wrap bits n = n.
Proof. intros H. unfold wrap. apply Z.mod_small. exact H. Qed.

Lemma wrap_range (bits n : Z) : 0 <= bits -> 0 <= wrap bits n < 2 ^ bits.
Proof.
  intros H. unfold wrap. apply Z.mod_pos_bound.
  apply Z.pow_pos_nonneg; lia.
Qed.

Lemma read16_Ok (samples : list Z) (n : Z) m :
  0 <= n < 16 -> (Z.to_nat n < length samples)%nat ->
  read16 samples n m = (m, [], Ok (sample_at samples n)).
Proof.
  intros Hn Hlen. unfold read16, sample_at.
  replace ((0 <=? n) && (n <? 16)) with true
    by (symmetry; apply andb_true_intro; split;
        [apply Z.leb_le | apply Z.ltb_lt]; lia).
  destruct (nth_error samples (Z.to_nat n)) as [v|] eqn:Hv.
  - rewrite (nth_error_nth _ _ 0 Hv). reflexivity.
  - apply nth_error_None in Hv. lia.
Qed.

Lemma read16_UB (samples : list Z) (n : Z) m :
  n < 0 \/ 16 <= n ->
  read16 samples n m = (m, [], UB (out_of_bounds n)).
Proof.
  intros Hn. unfold read16.
  replace ((0 <=? n) && (n <? 16)) with false; [reflexivity|].
  symmetry. apply andb_false_iff.
  destruct Hn; [left; apply Z.leb_gt | right; apply Z.ltb_ge]; lia.
Qed.

Lemma firstn_skipn_step (l : list Z) (i k : nat) :
  (i < length l)%nat ->
  firstn (S k) (skipn i l) = nth i l 0 :: firstn k (skipn (S i) l).
Proof.
  revert i. induction l as [|a l IH]; intros i Hi; simpl in Hi; [lia|].
  destruct i as [|i].
  - reflexivity.
  - simpl skipn at 1. rewrite IH by lia. reflexivity.
Qed.

Lemma sum_loop_Ok (samples : list Z) (k : nat) : forall (n acc : Z) m,
  0 <= n -> n + Z.of_nat k <= 16 ->
  (Z.to_nat n + k <= length samples)%nat ->
  sum_loop samples k n acc m =
  (m, [], Ok (acc + fold_right Z.add 0
                      (firstn k (skipn (Z.to_nat n) samples)))).
Proof.
  induction k as [|k IH]; intros n acc m Hn Hk Hlen.
  - simpl. unfold ret. rewrite Z.add_0_r. reflexivity.
  - cbn [sum_loop].
    rewrite (bind_pure _ _ _ _ (read16_Ok samples n m ltac:(lia) ltac:(lia))).
    rewrite IH by lia.
    rewrite firstn_skipn_step by lia.
    cbn [fold_right]. unfold sample_at.
    replace (Z.to_nat (n + 1)) with (S (Z.to_nat n)) by lia.
    f_equal. f_equal. lia.
Qed.

Lemma sum_Ok (samples : list Z) (len : Z) m :
  0 <= len <= 16 -> length samples = 16%nat ->
  sum samples len m = (m, [], Ok (sum_of samples len)).
Proof.
  intros Hlen Hs. unfold sum, sum_of.
  rewrite sum_loop_Ok by (simpl; lia). reflexivity.
Qed.

Lemma clipping_loop_Ok (samples : list Z) (clip_limit : Z) (k : nat) :
  forall (n count : Z) m,
  0 <= n -> n + Z.of_nat k <= 16 ->
  (Z.to_nat n + k <= length samples)%nat ->
  clipping_loop samples clip_limit k n count m =
  (m, [],
   Ok (count + Z.of_nat (length (filter (fun v => Z.abs v >=? clip_limit)
                            (firstn k (skipn (Z.to_nat n) samples)))))).
Proof.
  induction k as [|k IH]; intros n count m Hn Hk Hlen.
  - simpl. unfold ret. rewrite Z.add_0_r. reflexivity.
  - cbn [clipping_loop].
    rewrite (bind_pure _ _ _ _ (read16_Ok samples n m ltac:(lia) ltac:(lia))).
    rewrite IH by lia.
    rewrite firstn_skipn_step by lia.
    cbn [filter]. unfold sample_at, abs.
    replace (Z.to_nat (n + 1)) with (S (Z.to_nat n)) by lia.
    destruct (Z.abs (nth (Z.to_nat n) samples 0) >=? clip_limit);
      cbn [length]; f_equal; f_equal; lia.
Qed.

Lemma clipping_Ok (samples : list Z) (clip_limit len : Z) m :
  0 <= len <= 16 -> length samples = 16%nat ->
  clipping samples clip_limit len m =
  (m, [], Ok (clip_count_of samples clip_limit len)).
Proof.
  intros Hlen Hs. unfold clipping, clip_count_of.
  rewrite clipping_loop_Ok by (simpl; lia). reflexivity.
Qed.

(** The accumulator of [sum] is an [int32_t]: over at most 16 samples of
    an [int16_t] array it cannot overflow. *)
Lemma sum_of_fits_int32 (samples : list Z) (len : Z) :
  Forall (fun v => -32768 <= v <= 32767) samples ->
  length samples = 16%nat ->
  - 2 ^ 31 <= sum_of samples len < 2 ^ 31.
Proof.
  intros Hrange Hlen. unfold sum_of.
  assert (Hb : forall l : list Z,
             Forall (fun v => -32768 <= v <= 32767) l ->
             - 32768 * Z.of_nat (length l) <= fold_right Z.add 0 l
             <= 32767 * Z.of_nat (length l)).
  { induction l as [|v l IH]; intros Hl; [cbn; lia|].
    inversion Hl as [|v' l' Hv Hl']; subst.
    specialize (IH Hl'). cbn [fold_right length]. lia. }
  assert (Hf : forall (n : nat) (l : list Z),
             Forall (fun v => -32768 <= v <= 32767) l ->
             Forall (fun v => -32768 <= v <= 32767) (firstn n l)).
  { induction n as [|n IH]; intros l Hl; [constructor|].
    destruct l as [|v l]; [constructor|].
    inversion Hl; subst. cbn [firstn]. constructor; auto. }
  specialize (Hb _ (Hf (Z.to_nat len) samples Hrange)).
  pose proof (length_firstn (Z.to_nat len) samples) as Hle.
  rewrite Hlen in Hle. change (2 ^ 31) with 2147483648. lia.
Qed.

Lemma batch_size_valid (sample : FIFOSample.t) :
  valid_batch sample -> batch_size sample = FIFOSample.samples sample.
Proof.
  intros [H _]. unfold batch_size. apply wrap_small.
  change (2 ^ 8) with 256. lia.
Qed.

Lemma trapezoid_Ok (last_sample : Z) (s : list Z) (N : Z) m :
  1 <= N <= 16 -> length s = 16%nat ->
  trapezoid last_sample s N m = (m, [], Ok (trapezoid_of last_sample s N)).
Proof.
  intros HN Hs. unfold trapezoid, trapezoid_of.
  rewrite (wrap_small 8 (N - 1)) by (change (2 ^ 8) with 256; lia).
  rewrite (bind_pure _ _ _ _ (read16_Ok s (N - 1) m ltac:(lia) ltac:(lia))).
  rewrite (bind_pure _ _ _ _ (sum_Ok s (N - 1) m ltac:(lia) Hs)).
  reflexivity.
Qed.


(** ** The blocks of [updateFIFO] *)

Lemma fifo_publish_raw_Ok (sample : FIFOSample.t) m :
  valid_batch sample ->
  fifo_publish_raw sample m =
  (tick m, [sensor_pub (fifo_reading sample (gyro m) (time m))], Ok tt).
Proof.
  intros Hv. pose proof (batch_size_valid _ Hv) as HN.
  destruct Hv as (Hs & Hx & Hy & Hz).
  unfold fifo_publish_raw, fifo_reading, reading, calibrate, average_of.
  rewrite (bind_pure _ _ _ _ (sum_Ok _ (batch_size sample) m ltac:(lia) Hx)).
  rewrite (bind_pure _ _ _ _ (sum_Ok _ (batch_size sample) m ltac:(lia) Hy)).
  rewrite (bind_pure _ _ _ _ (sum_Ok _ (batch_size sample) m ltac:(lia) Hz)).
  reflexivity.
Qed.

Lemma int16_of_float_Ok (f : F32.float) (n : Z) m :
  F32.to_int16 f = Some n -> int16_of_float f m = (m, [], Ok n).
Proof. intros H. unfold int16_of_float. rewrite H. reflexivity. Qed.

Lemma fifo_clipping_Ok (sample : FIFOSample.t) (clip_limit : Z) m :
  valid_batch sample ->
  F32.to_int16 (_clip_limit (gyro m)) = Some clip_limit ->
  fifo_clipping sample m =
  (on_gyro (after_clipping sample clip_limit) m, [], Ok tt).
Proof.
  intros Hv Hlim. pose proof (batch_size_valid _ Hv) as HN.
  destruct Hv as (Hs & Hx & Hy & Hz).
  unfold fifo_clipping. rewrite bind_this.
  rewrite (bind_pure _ _ _ _ (int16_of_float_Ok _ _ m Hlim)).
  rewrite (bind_pure _ _ _ _ (clipping_Ok _ clip_limit (batch_size sample) m ltac:(lia) Hx)).
  rewrite (bind_pure _ _ _ _ (clipping_Ok _ clip_limit (batch_size sample) m ltac:(lia) Hy)).
  rewrite (bind_pure _ _ _ _ (clipping_Ok _ clip_limit (batch_size sample) m ltac:(lia) Hz)).
  reflexivity.
Qed.

Lemma fifo_clipping_UB (sample : FIFOSample.t) m :
  F32.to_int16 (_clip_limit (gyro m)) = None ->
  fifo_clipping sample m = (m, [], UB (float_to_int16 (_clip_limit (gyro m)))).
Proof.
  intros Hlim. unfold fifo_clipping. rewrite bind_this.
  apply bind_UB. unfold int16_of_float. rewrite Hlim. reflexivity.
Qed.

Lemma fifo_gap_check_Ok (sample : FIFOSample.t) m :
  fifo_gap_check sample m = (on_gyro (after_gap_check sample) m, [], Ok tt).
Proof.
  unfold fifo_gap_check, after_gap_check, on_gyro. rewrite bind_this.
  destruct (timestamp_gap sample (gyro m)); [reflexivity|].
  destruct m; reflexivity.
Qed.

Lemma fifo_integrate_Ok (sample : FIFOSample.t) m :
  valid_batch sample ->
  fifo_integrate sample m = (on_gyro (after_integrate sample) m, [], Ok tt).
Proof.
  intros Hv. pose proof (batch_size_valid _ Hv) as HN.
  destruct Hv as (Hs & Hx & Hy & Hz).
  unfold fifo_integrate. rewrite !bind_modify, bind_this.
  rewrite (bind_pure _ _ _ _ (trapezoid_Ok _ _ (batch_size sample) _ ltac:(lia) Hx)).
  rewrite (bind_pure _ _ _ _ (trapezoid_Ok _ _ (batch_size sample) _ ltac:(lia) Hy)).
  rewrite (bind_pure _ _ _ _ (trapezoid_Ok _ _ (batch_size sample) _ ltac:(lia) Hz)).
  rewrite bind_modify.
  rewrite (bind_pure _ _ _ _
    (read16_Ok (FIFOSample.x sample) (batch_size sample - 1) _
       ltac:(lia) ltac:(lia))).
  rewrite (bind_pure _ _ _ _
    (read16_Ok (FIFOSample.y sample) (batch_size sample - 1) _
       ltac:(lia) ltac:(lia))).
  rewrite (bind_pure _ _ _ _
    (read16_Ok (FIFOSample.z sample) (batch_size sample - 1) _
       ltac:(lia) ltac:(lia))).
  reflexivity.
Qed.

Lemma fifo_flush_Ok (sample : FIFOSample.t) m :
  fifo_flush sample m =
  if integrator_ready (gyro m)
  then (tick (on_gyro (after_flush sample) m),
        [sensor_integrated_pub (flush_report sample (gyro m) (time m))],
        Ok tt)
  else (m, [], Ok tt).
Proof.
  unfold fifo_flush, after_flush, tick, on_gyro. rewrite bind_this.
  destruct (integrator_ready (gyro m)) eqn:Hr; cbn [gyro clock_reads].
  - cbn [when]. rewrite bind_clock. cbv beta.
    unfold bind, publish, modify. reflexivity.
  - reflexivity.
Qed.

Lemma fifo_publish_fifo_Ok (sample : FIFOSample.t) m :
  fifo_publish_fifo sample m =
  (tick m, [sensor_fifo_pub (fifo_echo sample (gyro m) (time m))], Ok tt).
Proof. reflexivity. Qed.

(** [PublishStatus] always returns; it publishes on the status topic only
    and changes [_status_last_publish] only. *)
Lemma PublishStatus_Ok m :
  exists m' out t,
    PublishStatus m = (m', out, Ok tt)
    /\ gyro m' = with_status_last_publish t (gyro m)
    /\ readings out = [] /\ reports out = [].
Proof.
  unfold PublishStatus. rewrite bind_this. unfold hrt_elapsed_time.
  unfold bind at 1. unfold bind at 1. unfold hrt_absolute_time at 1.
  cbv beta iota. unfold ret at 1. cbv beta iota.
  destruct (wrap hrt_abstime_bits _ >=? status_interval).
  - eexists _, _, _. split; [reflexivity|].
    split; [reflexivity|]. split; reflexivity.
  - exists (tick m), [], (_status_last_publish (gyro m)).
    split; [reflexivity|]. split; [|split; reflexivity].
    destruct m as [g c]. destruct g. reflexivity.
Qed.


(** ** The two entry points on defined inputs *)

Lemma updateFIFO_Ok (sample : FIFOSample.t) (clip_limit : Z) m :
  valid_batch sample ->
  F32.to_int16 (_clip_limit (gyro m)) = Some clip_limit ->
  let g1 := before_flush sample clip_limit (gyro m) in
  exists m' status t,
    updateFIFO sample m =
    (m',
     sensor_pub (fifo_reading sample (gyro m) (time m))
       :: flush_out sample g1 (time (tick m))
       ++ sensor_fifo_pub
            (fifo_echo sample
               (with_timestamp_sample_prev
                  (FIFOSample.timestamp_sample sample)
                  (after_flush sample g1))
               (hrt_absolute_time_at
                  (if integrator_ready g1 then S (S (clock_reads m))
                   else S (clock_reads m))))
       :: status,
     Ok tt)
    /\ gyro m' =
       with_status_last_publish t
         (with_timestamp_sample_prev (FIFOSample.timestamp_sample sample)
            (after_flush sample g1))
    /\ readings status = [] /\ reports status = [].
Proof.
  intros Hv Hlim g1. unfold updateFIFO.
  set (ts := FIFOSample.timestamp_sample sample).
  set (m1 := on_gyro (fun _ => g1) (tick m)).
  set (m2 := if integrator_ready g1
             then tick (on_gyro (after_flush sample) m1) else m1).
  set (m3 := on_gyro (with_timestamp_sample_prev ts) m2).
  destruct (PublishStatus_Ok (tick m3)) as (m' & status & t & Hp & Hg & Hr1 & Hr2).
  exists m', status, t.
  assert (Hg2 : gyro m2 = after_flush sample g1).
  { unfold m2, after_flush.
    destruct (integrator_ready g1) eqn:Hr; cbn; unfold after_flush;
      rewrite ?Hr; reflexivity. }
  split; [|split; [|split; assumption]].
  - eapply bind_Ok_eq;
      [ apply fifo_publish_raw_Ok; exact Hv | reflexivity | ].
    eapply bind_Ok_eq;
      [ apply (fifo_clipping_Ok _ clip_limit); assumption | reflexivity | ].
    eapply bind_Ok_eq; [ apply fifo_gap_check_Ok | reflexivity | ].
    eapply bind_Ok_eq;
      [ apply fifo_integrate_Ok; exact Hv | reflexivity | ].
    change (on_gyro (after_integrate sample)
              (on_gyro (after_gap_check sample)
                 (on_gyro (after_clipping sample clip_limit) (tick m))))
      with m1.
    assert (Hf : fifo_flush sample m1 =
                 (m2, flush_out sample g1 (time (tick m)), Ok tt)).
    { rewrite fifo_flush_Ok. unfold m2, flush_out. cbn [gyro m1 on_gyro].
      destruct (integrator_ready g1); reflexivity. }
    eapply bind_Ok_eq; [ exact Hf | reflexivity | ].
    rewrite bind_modify. fold (on_gyro (with_timestamp_sample_prev ts) m2).
    fold m3.
    eapply bind_Ok_eq; [ apply fifo_publish_fifo_Ok | | exact Hp ].
    cbn [app]. do 3 f_equal.
    + unfold m3. cbn [gyro on_gyro]. rewrite Hg2. reflexivity.
    + unfold time, m3, m2, m1. 
      destruct (integrator_ready g1); reflexivity.
  - rewrite Hg. cbn [gyro tick m3 on_gyro]. rewrite Hg2. reflexivity.
Qed.


Lemma fifo_until_flush_Ok (sample : FIFOSample.t) (clip_limit : Z) m :
  valid_batch sample ->
  F32.to_int16 (_clip_limit (gyro m)) = Some clip_limit ->
  fifo_until_flush sample m =
  (mkMachine (before_flush sample clip_limit (gyro m)) (S (clock_reads m)),
   [sensor_pub (fifo_reading sample (gyro m) (time m))], Ok tt).
Proof.
  intros Hv Hlim. unfold fifo_until_flush.
  eapply bind_Ok_eq;
    [ apply fifo_publish_raw_Ok; exact Hv | reflexivity | ].
  eapply bind_Ok_eq;
    [ apply (fifo_clipping_Ok _ clip_limit); assumption | reflexivity | ].
  eapply bind_Ok_eq; [ apply fifo_gap_check_Ok | reflexivity | ].
  rewrite fifo_integrate_Ok by exact Hv. reflexivity.
Qed.

Lemma update_clipping_Ok (raw : Vector3f) m :
  update_clipping raw m = (on_gyro (after_update_clipping raw) m, [], Ok tt).
Proof. unfold update_clipping. rewrite !bind_modify. reflexivity. Qed.

Lemma update_integrate_Ok (timestamp_sample : Z) (val : Vector3f) m :
  update_integrate timestamp_sample val m =
  (match snd (put_result timestamp_sample val (gyro m)) with
   | Some _ => tick (on_gyro (after_update_integrate timestamp_sample val) m)
   | None => on_gyro (after_update_integrate timestamp_sample val) m
   end,
   update_integrate_out timestamp_sample val (gyro m) (time m), Ok tt).
Proof.
  unfold update_integrate, update_integrate_out, after_update_integrate.
  unfold put_result, counted, on_gyro, tick.
  rewrite bind_modify, bind_this, bind_modify. cbn [gyro clock_reads].
  destruct (Integrator_put _ timestamp_sample val) as [i [[da dt]|]];
    cbn [fst snd]; reflexivity.
Qed.

Lemma update_Ok (timestamp_sample : Z) (x y z : F32.float) m :
  let raw := rotate_3f (_rotation (gyro m)) (mk3 x y z) in
  let g1 := after_update_clipping raw (gyro m) in
  let val := calibrate g1 raw in
  exists m' status t,
    update timestamp_sample x y z m =
    (m',
     sensor_pub (reading timestamp_sample g1 val (time m))
       :: update_integrate_out timestamp_sample val g1 (time (tick m))
       ++ status,
     Ok tt)
    /\ gyro m' =
       with_status_last_publish t
         (after_update_integrate timestamp_sample val g1)
    /\ readings status = [] /\ reports status = [].
Proof.
  intros raw g1 val. unfold update. rewrite bind_this. fold raw.
  set (m1 := tick (on_gyro (after_update_clipping raw) m)).
  set (m2 := match snd (put_result timestamp_sample val g1) with
             | Some _ =>
                 tick (on_gyro (after_update_integrate timestamp_sample val)
                               m1)
             | None => on_gyro (after_update_integrate timestamp_sample val) m1
             end).
  destruct (PublishStatus_Ok m2) as (m' & status & t & Hp & Hg & Hr1 & Hr2).
  exists m', status, t.
  split; [|split; [|split; assumption]].
  - eapply bind_Ok_eq; [ apply update_clipping_Ok | reflexivity | ].
    rewrite bind_this, bind_clock, bind_publish.
    assert (Hi : update_integrate timestamp_sample val m1 =
                 (m2, update_integrate_out timestamp_sample val g1
                        (time (tick m)), Ok tt))
      by (rewrite update_integrate_Ok; reflexivity).
    cbn [gyro on_gyro]. fold g1. fold val. fold (tick (on_gyro (after_update_clipping raw) m)).
    fold m1.
    rewrite (bind_Ok _ _ _ _ _ _ _ _ _ Hi Hp). reflexivity.
  - rewrite Hg. unfold m2.
    destruct (snd (put_result timestamp_sample val g1)); reflexivity.
Qed.

(** ** Members that the calls leave alone *)

Lemma clip_axis_config (raw : Vector3f) (i : Axis) (g : PX4Gyroscope) :
  _clip_limit (clip_axis raw i g) = _clip_limit g
  /\ _rotation (clip_axis raw i g) = _rotation g
  /\ _scale (clip_axis raw i g) = _scale g
  /\ _calibration_offset (clip_axis raw i g) = _calibration_offset g
  /\ _integrator_samples (clip_axis raw i g) = _integrator_samples g
  /\ _integrator (clip_axis raw i g) = _integrator g
  /\ _integrator_fifo_samples (clip_axis raw i g)
     = _integrator_fifo_samples g.
Proof.
  unfold clip_axis. destruct (F32.gtb _ _); repeat split; reflexivity.
Qed.

Lemma after_update_clipping_keeps (raw : Vector3f) (g : PX4Gyroscope) :
  _scale (after_update_clipping raw g) = _scale g
  /\ _calibration_offset (after_update_clipping raw g)
     = _calibration_offset g
  /\ _integrator_samples (after_update_clipping raw g)
     = _integrator_samples g
  /\ _integrator (after_update_clipping raw g) = _integrator g
  /\ _integrator_fifo_samples (after_update_clipping raw g)
     = _integrator_fifo_samples g.
Proof.
  unfold after_update_clipping.
  destruct (clip_axis_config raw AX g) as (_ & _ & A1 & A2 & A3 & A4 & A5).
  destruct (clip_axis_config raw AY (clip_axis raw AX g))
    as (_ & _ & B1 & B2 & B3 & B4 & B5).
  destruct (clip_axis_config raw AZ (clip_axis raw AY (clip_axis raw AX g)))
    as (_ & _ & C1 & C2 & C3 & C4 & C5).
  repeat split; congruence.
Qed.


Lemma readings_app (a b : list Publication) :
  readings (a ++ b) = readings a ++ readings b.
Proof. unfold readings. apply flat_map_app. Qed.

Lemma reports_app (a b : list Publication) :
  reports (a ++ b) = reports a ++ reports b.
Proof. unfold reports. apply flat_map_app. Qed.

Lemma readings_flush_out (sample : FIFOSample.t) g now :
  readings (flush_out sample g now) = [].
Proof. unfold flush_out. destruct (integrator_ready g); reflexivity. Qed.

Lemma reports_flush_out (sample : FIFOSample.t) g now :
  reports (flush_out sample g now) =
  if integrator_ready g then [flush_report sample g now] else [].
Proof. unfold flush_out. destruct (integrator_ready g); reflexivity. Qed.




(** [a < b] excludes [b < a], also with infinities and NaN. *)
Lemma SFltb_asym (a b : spec_float) : SFltb a b = true -> SFltb b a = false.
Proof.
  unfold SFltb, SFcompare.
  destruct a as [sa|sa| |sa ma ea], b as [sb|sb| |sb mb eb];
    try destruct sa; try destruct sb; try reflexivity; try discriminate.
  all: rewrite (Z.compare_antisym ea eb);
    pose proof (Pos.compare_cont_antisym ma mb Eq) as H; cbn [CompOpp] in H;
    destruct (ea ?= eb)%Z; cbn [CompOpp]; try reflexivity; try discriminate;
    destruct (Pos.compare_cont Eq ma mb), (Pos.compare_cont Eq mb ma);
    cbn [CompOpp] in *; congruence.
Qed.

(** ** The properties of the specification *)



(** When [_clip_limit] does not convert to [int16_t], the batch path
    stops after the immediate publication. *)
Lemma updateFIFO_UB_clip_limit (sample : FIFOSample.t) (m : Machine) :
  valid_batch sample ->
  F32.to_int16 (_clip_limit (gyro m)) = None ->
  updateFIFO sample m =
  (tick m, [sensor_pub (fifo_reading sample (gyro m) (time m))],
   UB (float_to_int16 (_clip_limit (gyro m)))).
Proof.
  intros Hv Hlim. unfold updateFIFO.
  eapply bind_Ok_eq; [ apply fifo_publish_raw_Ok; exact Hv | | ].
  2: { apply bind_UB. exact (fifo_clipping_UB sample (tick m) Hlim). }
  reflexivity.
Qed.

(** C6. Every [update] and every [updateFIFO] publishes exactly one
    [sensor_gyro] message, whatever the state of the integrator. Its
    value is the input triplet (for a batch, the sum of the first [N]
    samples divided by [N]) passed through [rotate_3f], then multiplied
    by [_scale], then reduced by [_calibration_offset]. [update] always
    returns; [updateFIFO] returns once [_clip_limit] converts to
    [int16_t]. *)
Theorem C6_one_calibrated_reading :
  (forall (timestamp_sample : Z) (x y z : F32.float) (m : Machine),
     exists m' out r,
       update timestamp_sample x y z m = (m', out, Ok tt)
       /\ readings out = [r]
       /\ mk3 (sensor_gyro_s.x r) (sensor_gyro_s.y r) (sensor_gyro_s.z r) =
          Vec.sub
            (Vec.scale (rotate_3f (_rotation (gyro m)) (mk3 x y z))
                       (_scale (gyro m)))
            (_calibration_offset (gyro m)))
  /\
  (forall (sample : FIFOSample.t) (m : Machine),
     valid_batch sample ->
     let N := FIFOSample.samples sample in
     let mean s := F32.div (F32.of_Z (sum_of s N)) (F32.of_Z N) in
     exists m' out res r,
       updateFIFO sample m = (m', out, res)
       /\ readings out = [r]
       /\ mk3 (sensor_gyro_s.x r) (sensor_gyro_s.y r) (sensor_gyro_s.z r) =
          Vec.sub
            (Vec.scale
               (rotate_3f (_rotation (gyro m))
                  (mk3 (mean (FIFOSample.x sample))
                       (mean (FIFOSample.y sample))
                       (mean (FIFOSample.z sample))))
               (_scale (gyro m)))
            (_calibration_offset (gyro m))
       /\ (forall clip_limit,
             F32.to_int16 (_clip_limit (gyro m)) = Some clip_limit ->
             res = Ok tt)).
Proof.
  split.
  - intros ts x y z m.
    destruct (update_Ok ts x y z m) as (m' & status & t & Hrun & _ & Hr1 & _).
    eexists m', _, _. split; [exact Hrun|].
    split.
    + change (readings (?a :: ?b)) with (readings [a] ++ readings b).
      rewrite readings_app, Hr1.
      unfold update_integrate_out.
      destruct (snd (put_result _ _ _)) as [[da dt]|]; reflexivity.
    + cbn [sensor_gyro_s.x sensor_gyro_s.y sensor_gyro_s.z reading].
      unfold calibrate, after_update_clipping.
      destruct (clip_axis_config (rotate_3f (_rotation (gyro m)) (mk3 x y z))
                  AX (gyro m)) as (_ & _ & Hs1 & Ho1 & _).
      destruct (clip_axis_config (rotate_3f (_rotation (gyro m)) (mk3 x y z))
                  AY (clip_axis (rotate_3f (_rotation (gyro m)) (mk3 x y z))
                        AX (gyro m))) as (_ & _ & Hs2 & Ho2 & _).
      destruct (clip_axis_config (rotate_3f (_rotation (gyro m)) (mk3 x y z))
                  AZ (clip_axis (rotate_3f (_rotation (gyro m)) (mk3 x y z)) AY
                        (clip_axis (rotate_3f (_rotation (gyro m)) (mk3 x y z))
                           AX (gyro m)))) as (_ & _ & Hs3 & Ho3 & _).
      rewrite Hs3, Hs2, Hs1, Ho3, Ho2, Ho1. reflexivity.
  - intros sample m Hv N mean.
    pose proof (batch_size_valid _ Hv) as HN.
    assert (Hval :
      mk3 (sensor_gyro_s.x (fifo_reading sample (gyro m) (time m)))
          (sensor_gyro_s.y (fifo_reading sample (gyro m) (time m)))
          (sensor_gyro_s.z (fifo_reading sample (gyro m) (time m))) =
      Vec.sub
        (Vec.scale
           (rotate_3f (_rotation (gyro m))
              (mk3 (mean (FIFOSample.x sample)) (mean (FIFOSample.y sample))
                   (mean (FIFOSample.z sample))))
           (_scale (gyro m)))
        (_calibration_offset (gyro m))).
    { unfold fifo_reading, reading, calibrate, average_of, mean, N.
      rewrite HN. reflexivity. }
    destruct (F32.to_int16 (_clip_limit (gyro m))) as [lim|] eqn:Hlim.
    + destruct (updateFIFO_Ok sample lim m Hv Hlim)
        as (m' & status & t & Hrun & _ & Hr1 & _).
      eexists m', _, _, _. split; [exact Hrun|].
      split; [|split; [exact Hval|reflexivity]].
      change (readings (?a :: ?b)) with (readings [a] ++ readings b).
      rewrite readings_app, readings_flush_out.
      change (readings (?a :: ?b)) with (readings [a] ++ readings b).
      rewrite Hr1. reflexivity.
    + eexists _, _, _, _.
      split; [apply updateFIFO_UB_clip_limit; assumption|].
      split; [reflexivity|]. split; [exact Hval|].
      intros lim Hc. discriminate Hc.
Qed.


(** C2, as the code has it. The integrate block adds to each axis of
    [_integration_raw] the value
    [0.5f * (_last_sample + s[N-1]) + sum(s[0..N-1))] computed from the
    samples [s] of that axis as they were passed in, neither rotated nor
    calibrated, and then stores [s[N-1]] in [_last_sample]. *)
Theorem C2_trapezoid_on_raw_samples (sample : FIFOSample.t) (m : Machine) :
  valid_batch sample ->
  let N := FIFOSample.samples sample in
  let area (last_sample : Z) (s : list Z) :=
    F32.add
      (F32.mul (F32.lit 1 2) (F32.of_Z (last_sample + sample_at s (N - 1))))
      (F32.of_Z (sum_of s (N - 1))) in
  exists m',
    fifo_integrate sample m = (m', [], Ok tt)
    /\ _integration_raw (gyro m') =
       Vec.add (_integration_raw (gyro m))
         (mk3 (area (t0 (_last_sample (gyro m))) (FIFOSample.x sample))
              (area (t1 (_last_sample (gyro m))) (FIFOSample.y sample))
              (area (t2 (_last_sample (gyro m))) (FIFOSample.z sample)))
    /\ _last_sample (gyro m') =
       mk3 (sample_at (FIFOSample.x sample) (N - 1))
           (sample_at (FIFOSample.y sample) (N - 1))
           (sample_at (FIFOSample.z sample) (N - 1)).
Proof.
  intros Hv N area. pose proof (batch_size_valid _ Hv) as HN.
  eexists. split; [apply fifo_integrate_Ok; exact Hv|].
  unfold on_gyro, after_integrate, contribution, last_of, trapezoid_of, area, N.
  rewrite HN. split; reflexivity.
Qed.

(** C3, as the code has it. The gap check publishes nothing; it calls
    [ResetIntegrator] when the batch's timestamp is greater than
    [_timestamp_sample_prev] (zero included) and their difference,
    as a [float], is greater than [N * dt * 2.0f], and changes nothing
    otherwise. After a reset the integrate block leaves the sample count
    at 1, the raw sample count at [N] and the sum at the contribution of
    this batch. *)
Theorem C3_gap_reset (sample : FIFOSample.t) (m : Machine) :
  let N := batch_size sample in
  let timestamp := FIFOSample.timestamp_sample sample in
  let prev := _timestamp_sample_prev (gyro m) in
  let gap :=
    timestamp > prev
    /\ F32.gtb (F32.of_Z (wrap hrt_abstime_bits (timestamp - prev)))
               (F32.mul (F32.mul (F32.of_Z N) (FIFOSample.dt sample))
                        (F32.of_Z 2)) = true in
  exists m',
    fifo_gap_check sample m = (m', [], Ok tt)
    /\ (gap -> gyro m' = ResetIntegrator (gyro m))
    /\ (~ gap -> gyro m' = gyro m)
    /\ (gap -> valid_batch sample ->
        exists m'',
          fifo_integrate sample m' = (m'', [], Ok tt)
          /\ _integrator_samples (gyro m'') = wrap integrator_samples_bits 1
          /\ _integrator_fifo_samples (gyro m'') =
             wrap integrator_fifo_samples_bits N
          /\ _integration_raw (gyro m'') =
             Vec.add Vec.zero (contribution (_last_sample (gyro m)) sample))
    /\ (gap -> valid_batch sample ->
        forall clip_limit,
          F32.to_int16 (_clip_limit (gyro m)) = Some clip_limit ->
          wrap integrator_samples_bits 1
            < _integrator_reset_samples (gyro m) ->
          exists m_end out,
            updateFIFO sample m = (m_end, out, Ok tt)
            /\ reports out = []
            /\ _integrator_samples (gyro m_end)
               = wrap integrator_samples_bits 1
            /\ _integrator_fifo_samples (gyro m_end)
               = wrap integrator_fifo_samples_bits N
            /\ _integration_raw (gyro m_end) =
               Vec.add Vec.zero (contribution (_last_sample (gyro m)) sample)
            /\ _integrator_clipping (gyro m_end) = 0).
Proof.
  intros N timestamp prev gap.
  assert (Hgap : gap <-> timestamp_gap sample (gyro m) = true).
  { unfold gap, timestamp_gap. fold N timestamp prev.
    rewrite andb_true_iff, Z.gtb_lt. intuition lia. }
  eexists. split; [apply fifo_gap_check_Ok|].
  split; [|split; [|split]].
  - intros Hg. apply Hgap in Hg.
    cbn [gyro on_gyro]. unfold after_gap_check. rewrite Hg. reflexivity.
  - intros Hg. cbn [gyro on_gyro]. unfold after_gap_check.
    destruct (timestamp_gap sample (gyro m)); [|reflexivity].
    exfalso. apply Hg, Hgap. reflexivity.
  - intros Hg Hv. apply Hgap in Hg.
    assert (Hm : on_gyro (after_gap_check sample) m
                 = on_gyro ResetIntegrator m)
      by (unfold on_gyro, after_gap_check; rewrite Hg; reflexivity).
    rewrite Hm.
    eexists. split; [apply fifo_integrate_Ok; exact Hv|].
    repeat split; reflexivity.
  - intros Hg Hv clip_limit Hlim Hfew. apply Hgap in Hg.
    destruct (updateFIFO_Ok sample clip_limit m Hv Hlim)
      as (m_end & status & t & Hrun & Hend & _ & Hr2).
    set (g1 := before_flush sample clip_limit (gyro m)) in *.
    assert (Hg1 : g1 = after_integrate sample
                         (ResetIntegrator
                            (after_clipping sample clip_limit (gyro m)))).
    { unfold g1, before_flush, after_gap_check.
      replace (timestamp_gap sample
                 (after_clipping sample clip_limit (gyro m)))
        with true; reflexivity. }
    assert (Hready : integrator_ready g1 = false).
    { unfold integrator_ready. rewrite Hg1.
      apply andb_false_iff. right. rewrite Z.geb_leb. apply Z.leb_gt.
      exact Hfew. }
    eexists m_end, _. split; [exact Hrun|].
    split.
    { change (reports (?a :: ?b)) with (reports [a] ++ reports b).
      rewrite reports_app, reports_flush_out, Hready.
      change (reports (?a :: ?b)) with (reports [a] ++ reports b).
      rewrite Hr2. reflexivity. }
    rewrite Hend. unfold after_flush. rewrite Hready, Hg1.
    repeat split; reflexivity.
Qed.

(** C4, as the code has it. On the batch path the samples are compared as
    passed in, before rotation and scaling: on each axis, each of the [N]
    samples whose magnitude is at least [(int16_t)_clip_limit] adds one
    to that axis of [_clipping] and one to [_integrator_clipping]. On the
    single-sample path the comparison is made after [rotate_3f], before
    scaling: an axis of the rotated triplet whose magnitude is greater
    than [_clip_limit] adds one to that axis of [_clipping] and one to
    [_integrator_clipping], and one whose magnitude is less adds
    nothing. *)
Theorem C4_clipping_on_both_paths :
  (forall (sample : FIFOSample.t) (clip_limit : Z) (m : Machine),
     valid_batch sample ->
     F32.to_int16 (_clip_limit (gyro m)) = Some clip_limit ->
     let N := FIFOSample.samples sample in
     let count (s : list Z) :=
       Z.of_nat (length (filter (fun v => Z.abs v >=? clip_limit)
                                (firstn (Z.to_nat N) s))) in
     exists m',
       fifo_clipping sample m = (m', [], Ok tt)
       /\ _clipping (gyro m') =
          mk3 (wrap clipping_bits
                 (t0 (_clipping (gyro m)) + count (FIFOSample.x sample)))
              (wrap clipping_bits
                 (t1 (_clipping (gyro m)) + count (FIFOSample.y sample)))
              (wrap clipping_bits
                 (t2 (_clipping (gyro m)) + count (FIFOSample.z sample)))
       /\ _integrator_clipping (gyro m') =
          wrap integrator_clipping_bits
            (_integrator_clipping (gyro m)
             + wrap 32 (count (FIFOSample.x sample)
                        + count (FIFOSample.y sample)
                        + count (FIFOSample.z sample))))
  /\
  (forall (timestamp_sample : Z) (x y z : F32.float) (m : Machine),
     let raw := rotate_3f (_rotation (gyro m)) (mk3 x y z) in
     (forall (i : Axis) (g : PX4Gyroscope),
        F32.gtb (F32.fabsf (get3 raw i)) (_clip_limit g) = true ->
        _clipping (clip_axis raw i g) =
          upd3 i (fun c => wrap clipping_bits (c + 1)) (_clipping g)
        /\ _integrator_clipping (clip_axis raw i g) =
           wrap integrator_clipping_bits (_integrator_clipping g + 1))
     /\ (forall (i : Axis) (g : PX4Gyroscope),
           F32.ltb (F32.fabsf (get3 raw i)) (_clip_limit g) = true ->
           clip_axis raw i g = g)
     /\ exists m' out,
          update timestamp_sample x y z m = (m', out, Ok tt)
          /\ _clipping (gyro m') =
             _clipping
               (clip_axis raw AZ (clip_axis raw AY (clip_axis raw AX (gyro m))))
          /\ (reports out = [] ->
              _integrator_clipping (gyro m') =
              _integrator_clipping
                (clip_axis raw AZ
                   (clip_axis raw AY (clip_axis raw AX (gyro m)))))).
Proof.
  split.
  - intros sample clip_limit m Hv Hlim N count.
    pose proof (batch_size_valid _ Hv) as HN.
    eexists. split; [apply fifo_clipping_Ok; eassumption|].
    unfold on_gyro, after_clipping, clip_counts, clip_count_of, count, N.
    rewrite HN. split; reflexivity.
  - intros ts x y z m raw. split; [|split].
    + intros i g Hgt. unfold clip_axis. rewrite Hgt. split; reflexivity.
    + intros i g Hlt. unfold clip_axis.
      unfold F32.gtb, F32.ltb in *. rewrite (SFltb_asym _ _ Hlt). reflexivity.
    + destruct (update_Ok ts x y z m) as (m' & status & t & Hrun & Hg & _ & Hr2).
      fold raw in Hrun, Hg.
      eexists m', _. split; [exact Hrun|].
      rewrite Hg. unfold after_update_integrate, update_integrate_out.
      fold (after_update_clipping raw (gyro m)).
      destruct (snd (put_result ts _ _)) as [[da dt]|].
      * split; [reflexivity|]. intros Hrep. discriminate Hrep.
      * split; reflexivity.
Qed.

(** A batch with no sample: the three sums are empty, the clipping loops
    count nothing, and the integrate block reads index -1. *)
Lemma fifo_integrate_UB_empty (sample : FIFOSample.t) (m : Machine) :
  batch_size sample = 0 ->
  exists m',
    fifo_integrate sample m = (m', [], UB (out_of_bounds (-1)))
    /\ _integrator_samples (gyro m') =
       wrap integrator_samples_bits (_integrator_samples (gyro m) + 1).
Proof.
  intros HN. unfold fifo_integrate. rewrite HN.
  rewrite !bind_modify, bind_this.
  eexists. split.
  - apply bind_UB. unfold trapezoid. apply bind_UB.
    apply read16_UB. lia.
  - reflexivity.
Qed.

(** C5, as the code has it. A batch with [N == 0] is not rejected:
    [updateFIFO] divides the empty sums by zero, publishes the
    [sensor_gyro] message computed from the resulting NaN triplet, and
    ends in undefined behaviour; when [_clip_limit] converts to
    [int16_t] it has by then counted the call in [_integrator_samples]
    and the undefined step is the read of [sample.x[N - 1]] at index
    -1. *)
Theorem C5_empty_batch_not_rejected (sample : FIFOSample.t) (m : Machine) :
  batch_size sample = 0 ->
  let g := gyro m in
  let nan := F32.div (F32.of_Z 0) (F32.of_Z 0) in
  nan = S754_nan
  /\ exists m' u,
       updateFIFO sample m =
       (m',
        [sensor_pub
           (reading (FIFOSample.timestamp_sample sample) g
              (calibrate g (rotate_3f (_rotation g) (mk3 nan nan nan)))
              (time m))],
        UB u)
       /\ (forall clip_limit,
             F32.to_int16 (_clip_limit g) = Some clip_limit ->
             u = out_of_bounds (-1)
             /\ _integrator_samples (gyro m') =
                wrap integrator_samples_bits
                  (_integrator_samples
                     (after_gap_check sample
                        (after_clipping sample clip_limit g)) + 1)).
Proof.
  intros HN g nan. split; [reflexivity|].
  assert (Hraw : fifo_publish_raw sample m =
    (tick m,
     [sensor_pub
        (reading (FIFOSample.timestamp_sample sample) g
           (calibrate g (rotate_3f (_rotation g) (mk3 nan nan nan)))
           (time m))], Ok tt)).
  { unfold fifo_publish_raw. rewrite HN. reflexivity. }
  unfold updateFIFO.
  destruct (F32.to_int16 (_clip_limit g)) as [lim|] eqn:Hlim.
  - assert (Hclip : fifo_clipping sample (tick m) =
                    (on_gyro (after_clipping sample lim) (tick m), [], Ok tt)).
    { unfold fifo_clipping. rewrite bind_this.
      rewrite (bind_pure _ _ _ _ (int16_of_float_Ok _ _ (tick m) Hlim)).
      unfold after_clipping, clip_counts. rewrite HN. reflexivity. }
    destruct (fifo_integrate_UB_empty sample
                (on_gyro (after_gap_check sample)
                   (on_gyro (after_clipping sample lim) (tick m))) HN)
      as (m' & Hint & Hcount).
    exists m', (out_of_bounds (-1)). split.
    + eapply bind_Ok_eq; [ exact Hraw | reflexivity | ].
      eapply bind_Ok_eq; [ exact Hclip | reflexivity | ].
      eapply bind_Ok_eq; [ apply fifo_gap_check_Ok | reflexivity | ].
      apply bind_UB. exact Hint.
    + intros lim' Hlim'. injection Hlim' as <-. split; [reflexivity|].
      exact Hcount.
  - eexists _, _. split.
    + eapply bind_Ok_eq; [ exact Hraw | | ].
      2: { apply bind_UB. exact (fifo_clipping_UB sample (tick m) Hlim). }
      reflexivity.
    + intros lim Hc. discriminate Hc.
Qed.


(** ** The lifetime clip counters along a sequence of calls *)

Lemma call_clips_nonneg g clip_limit c (i : Axis) :
  0 <= get3 (call_clips g clip_limit c) i.
Proof.
  destruct c as [ts x y z|sample]; cbn [call_clips].
  - destruct i; cbn [get3 map3 t0 t1 t2];
      destruct (F32.gtb _ _); lia.
  - unfold clip_counts, clip_count_of. destruct i; cbn [get3 t0 t1 t2]; lia.
Qed.

Lemma run_clips_nonneg g clip_limit cs (i : Axis) :
  0 <= get3 (run_clips g clip_limit cs) i.
Proof.
  induction cs as [|c cs IH]; cbn [run_clips].
  - destruct i; cbn; lia.
  - pose proof (call_clips_nonneg g clip_limit c i).
    destruct i; cbn [get3 zip3 t0 t1 t2] in *; lia.
Qed.

Lemma run_clips_app g clip_limit cs1 cs2 (i : Axis) :
  get3 (run_clips g clip_limit (cs1 ++ cs2)) i =
  get3 (run_clips g clip_limit cs1) i + get3 (run_clips g clip_limit cs2) i.
Proof.
  induction cs1 as [|c cs1 IH]; cbn [run_clips app].
  - destruct i; cbn; lia.
  - destruct i; cbn [get3 zip3 t0 t1 t2] in *; lia.
Qed.

Lemma call_clips_config g g' clip_limit c :
  _clip_limit g' = _clip_limit g -> _rotation g' = _rotation g ->
  call_clips g' clip_limit c = call_clips g clip_limit c.
Proof.
  intros Hl Hr. destruct c; cbn [call_clips]; rewrite ?Hl, ?Hr; reflexivity.
Qed.

Lemma run_clips_config g g' clip_limit cs :
  _clip_limit g' = _clip_limit g -> _rotation g' = _rotation g ->
  run_clips g' clip_limit cs = run_clips g clip_limit cs.
Proof.
  intros Hl Hr. induction cs as [|c cs IH]; cbn [run_clips]; [reflexivity|].
  rewrite IH, (call_clips_config g g') by assumption. reflexivity.
Qed.

(** One round of the clipping loop of [update] touches its own axis. *)
Lemma clip_axis_counter (raw : Vector3f) (j : Axis) g (i : Axis) :
  get3 (_clipping (clip_axis raw j g)) i =
  match i, j with
  | AX, AX | AY, AY | AZ, AZ =>
      if F32.gtb (F32.fabsf (get3 raw j)) (_clip_limit g)
      then wrap clipping_bits (get3 (_clipping g) i + 1)
      else get3 (_clipping g) i
  | _, _ => get3 (_clipping g) i
  end.
Proof.
  unfold clip_axis.
  destruct (F32.gtb (F32.fabsf (get3 raw j)) (_clip_limit g));
    destruct i, j; reflexivity.
Qed.

(** The clipping loop of [update], axis by axis. *)
Lemma after_update_clipping_counters (raw : Vector3f) g (i : Axis) :
  get3 (_clipping (after_update_clipping raw g)) i =
  if F32.gtb (F32.fabsf (get3 raw i)) (_clip_limit g)
  then wrap clipping_bits (get3 (_clipping g) i + 1)
  else get3 (_clipping g) i.
Proof.
  unfold after_update_clipping.
  destruct (clip_axis_config raw AX g) as (Hl1 & _).
  destruct (clip_axis_config raw AY (clip_axis raw AX g)) as (Hl2 & _).
  rewrite Hl1 in Hl2.
  rewrite !clip_axis_counter, Hl2, Hl1.
  destruct i; reflexivity.
Qed.

Lemma after_update_clipping_config (raw : Vector3f) g :
  _clip_limit (after_update_clipping raw g) = _clip_limit g
  /\ _rotation (after_update_clipping raw g) = _rotation g.
Proof.
  unfold after_update_clipping.
  destruct (clip_axis_config raw AX g) as (Hl1 & Hr1 & _).
  destruct (clip_axis_config raw AY (clip_axis raw AX g)) as (Hl2 & Hr2 & _).
  destruct (clip_axis_config raw AZ (clip_axis raw AY (clip_axis raw AX g)))
    as (Hl3 & Hr3 & _).
  split; congruence.
Qed.

(** Arithmetic of the unsigned counters. *)
Lemma wrap_add_l (bits a b : Z) :
  wrap bits (wrap bits a + b) = wrap bits (a + b).
Proof. unfold wrap. apply Zplus_mod_idemp_l. Qed.

Lemma wrap_fits (bits a b : Z) :
  0 <= a < 2 ^ bits -> 0 <= wrap bits b < 2 ^ bits.
Proof.
  intros Ha. apply wrap_range.
  destruct (Z_lt_le_dec bits 0) as [Hneg|Hpos]; [|exact Hpos].
  rewrite (Z.pow_neg_r 2 bits Hneg) in Ha. lia.
Qed.

(** One call: it returns, keeps [_clip_limit] and [_rotation], adds its
    clipped samples to the lifetime counters in their unsigned type, and
    leaves the window counter at zero when it has published an
    integrated report. *)
Lemma call_Ok (c : Call) (clip_limit : Z) (m : Machine) :
  valid_call c ->
  F32.to_int16 (_clip_limit (gyro m)) = Some clip_limit ->
  exists m' out,
    call c m = (m', out, Ok tt)
    /\ _clip_limit (gyro m') = _clip_limit (gyro m)
    /\ _rotation (gyro m') = _rotation (gyro m)
    /\ (forall i,
          0 <= get3 (_clipping (gyro m)) i < 2 ^ clipping_bits ->
          get3 (_clipping (gyro m')) i =
          wrap clipping_bits
            (get3 (_clipping (gyro m)) i
               + get3 (call_clips (gyro m) clip_limit c) i))
    /\ (reports out <> [] -> _integrator_clipping (gyro m') = 0).
Proof.
  intros Hv Hlim. destruct c as [ts x y z|sample]; cbn [call valid_call] in *.
  - destruct (update_Ok ts x y z m) as (m' & status & t & Hrun & Hg & _ & Hr2).
    set (raw := rotate_3f (_rotation (gyro m)) (mk3 x y z)) in *.
    set (g1 := after_update_clipping raw (gyro m)) in *.
    destruct (after_update_clipping_config raw (gyro m)) as (Hl & Hr).
    fold g1 in Hl, Hr.
    assert (Hc : _clipping (gyro m') = _clipping g1
                 /\ _clip_limit (gyro m') = _clip_limit g1
                 /\ _rotation (gyro m') = _rotation g1
                 /\ (snd (put_result ts (calibrate g1 raw) g1) <> None ->
                     _integrator_clipping (gyro m') = 0)).
    { rewrite Hg. unfold after_update_integrate.
      destruct (snd (put_result ts (calibrate g1 raw) g1)) as [[da dt]|];
        repeat split; try reflexivity.
      intros H; exfalso; apply H; reflexivity. }
    destruct Hc as (Hc & Hl' & Hr' & Hw).
    eexists m', _. split; [exact Hrun|].
    split; [congruence|]. split; [congruence|]. split.
    + intros i Hin. rewrite Hc. unfold g1.
      rewrite after_update_clipping_counters.
      cbn [call_clips]. fold raw.
      assert (Hget : forall f : F32.float -> Z,
                get3 (map3 f raw) i = f (get3 raw i))
        by (intros f; destruct i; reflexivity).
      rewrite Hget.
      destruct (F32.gtb (F32.fabsf (get3 raw i)) (_clip_limit (gyro m))).
      * reflexivity.
      * rewrite Z.add_0_r. symmetry. apply wrap_small. exact Hin.
    + intros Hrep. apply Hw. intros Hnone. apply Hrep.
      change (reports (?a :: ?b)) with (reports [a] ++ reports b).
      rewrite reports_app, Hr2. unfold update_integrate_out.
      rewrite Hnone. reflexivity.
  - destruct (updateFIFO_Ok sample clip_limit m Hv Hlim)
      as (m' & status & t & Hrun & Hg & _ & Hr2).
    set (g1 := before_flush sample clip_limit (gyro m)) in *.
    assert (Hg1 : _clipping g1 =
                  zip3 (fun old n => wrap clipping_bits (old + n))
                       (_clipping (gyro m)) (clip_counts sample clip_limit)
                  /\ _clip_limit g1 = _clip_limit (gyro m)
                  /\ _rotation g1 = _rotation (gyro m)).
    { unfold g1, before_flush, after_integrate, after_gap_check.
      destruct (timestamp_gap sample _); repeat split; reflexivity. }
    destruct Hg1 as (Hc & Hl & Hr).
    assert (Hf : _clipping (gyro m') = _clipping g1
                 /\ _clip_limit (gyro m') = _clip_limit g1
                 /\ _rotation (gyro m') = _rotation g1
                 /\ (integrator_ready g1 = true ->
                     _integrator_clipping (gyro m') = 0)).
    { rewrite Hg. unfold after_flush.
      destruct (integrator_ready g1); repeat split; try reflexivity.
      intros H; discriminate H. }
    destruct Hf as (Hc' & Hl' & Hr' & Hw).
    eexists m', _. split; [exact Hrun|].
    split; [congruence|]. split; [congruence|]. split.
    + intros i _. rewrite Hc', Hc. cbn [call_clips].
      destruct i; reflexivity.
    + intros Hrep. apply Hw.
      destruct (integrator_ready g1) eqn:Hready; [reflexivity|].
      exfalso. apply Hrep.
      change (reports (?a :: ?b)) with (reports [a] ++ reports b).
      rewrite reports_app, reports_flush_out, Hready.
      change (reports (?a :: ?b)) with (reports [a] ++ reports b).
      rewrite Hr2. reflexivity.
Qed.

Lemma run_Ok (cs : list Call) : forall (clip_limit : Z) (m : Machine),
  Forall valid_call cs ->
  F32.to_int16 (_clip_limit (gyro m)) = Some clip_limit ->
  (forall i, 0 <= get3 (_clipping (gyro m)) i < 2 ^ clipping_bits) ->
  exists m' out,
    run cs m = (m', out, Ok tt)
    /\ _clip_limit (gyro m') = _clip_limit (gyro m)
    /\ _rotation (gyro m') = _rotation (gyro m)
    /\ (forall i,
          get3 (_clipping (gyro m')) i =
          wrap clipping_bits
            (get3 (_clipping (gyro m)) i
               + get3 (run_clips (gyro m) clip_limit cs) i)).
Proof.
  induction cs as [|c cs IH]; intros clip_limit m Hv Hlim Hin.
  - exists m, []. split; [reflexivity|]. split; [reflexivity|].
    split; [reflexivity|]. intros i.
    replace (get3 (run_clips (gyro m) clip_limit []) i) with 0
      by (destruct i; reflexivity).
    rewrite Z.add_0_r. symmetry. apply wrap_small. apply Hin.
  - inversion Hv as [|c' cs' Hc Hcs]; subst.
    destruct (call_Ok c clip_limit m Hc Hlim)
      as (m1 & o1 & Hrun1 & Hl1 & Hr1 & Hcount1 & _).
    assert (Hstep : forall i,
              get3 (_clipping (gyro m1)) i =
              wrap clipping_bits
                (get3 (_clipping (gyro m)) i
                   + get3 (call_clips (gyro m) clip_limit c) i))
      by (intros i; apply Hcount1; apply Hin).
    destruct (IH clip_limit m1 Hcs) as (m2 & o2 & Hrun2 & Hl2 & Hr2 & Hcount2).
    + rewrite Hl1. exact Hlim.
    + intros i. rewrite Hstep. exact (wrap_fits _ _ _ (Hin i)).
    + exists m2, (o1 ++ o2). split.
      * cbn [run]. apply (bind_Ok _ _ _ _ _ _ _ _ _ Hrun1 Hrun2).
      * split; [congruence|]. split; [congruence|].
        intros i. rewrite Hcount2, Hstep, wrap_add_l.
        rewrite (run_clips_config (gyro m) (gyro m1)) by assumption.
        cbn [run_clips]. f_equal.
        destruct i; cbn [get3 zip3 t0 t1 t2]; lia.
Qed.

(** C8, as the code has it. Along any sequence of [update] and
    [updateFIFO] calls followed by one more call, each lifetime counter
    [_clipping[i]] is the counter before plus the clipped samples of the
    calls on that axis, in the unsigned type of the member: no call and
    no flush resets it, and it does not decrease as long as the sum fits
    the type; when the sum does not fit, the counter wraps and is
    smaller than before. [_integrator_clipping] is zero after a call
    that published an integrated report. The batches have 1 to 16
    samples, [_clip_limit] converts to [int16_t], and the counters start
    with values of their type. *)
Theorem C8_clip_counters
  (cs : list Call) (c : Call) (clip_limit : Z) (m : Machine) :
  Forall valid_call cs -> valid_call c ->
  F32.to_int16 (_clip_limit (gyro m)) = Some clip_limit ->
  (forall i, 0 <= get3 (_clipping (gyro m)) i < 2 ^ clipping_bits) ->
  exists m1 o1 m2 o2,
    run cs m = (m1, o1, Ok tt)
    /\ call c m1 = (m2, o2, Ok tt)
    /\ (forall i,
          get3 (_clipping (gyro m1)) i =
          wrap clipping_bits
            (get3 (_clipping (gyro m)) i
               + get3 (run_clips (gyro m) clip_limit cs) i)
          /\ get3 (_clipping (gyro m2)) i =
             wrap clipping_bits
               (get3 (_clipping (gyro m1)) i
                  + get3 (call_clips (gyro m) clip_limit c) i)
          /\ (get3 (_clipping (gyro m)) i
                + get3 (run_clips (gyro m) clip_limit (cs ++ [c])) i
              < 2 ^ clipping_bits ->
              get3 (_clipping (gyro m)) i <= get3 (_clipping (gyro m1)) i
              /\ get3 (_clipping (gyro m1)) i
                 <= get3 (_clipping (gyro m2)) i)
          /\ (2 ^ clipping_bits
              <= get3 (_clipping (gyro m1)) i
                   + get3 (call_clips (gyro m) clip_limit c) i
              < 2 ^ clipping_bits + get3 (_clipping (gyro m1)) i ->
              get3 (_clipping (gyro m2)) i
              < get3 (_clipping (gyro m1)) i))
    /\ (reports o2 <> [] -> _integrator_clipping (gyro m2) = 0).
Proof.
  intros Hcs Hc Hlim Hin.
  assert (Hsplit : forall i,
            get3 (run_clips (gyro m) clip_limit (cs ++ [c])) i =
            get3 (run_clips (gyro m) clip_limit cs) i
              + get3 (call_clips (gyro m) clip_limit c) i).
  { intros i. rewrite run_clips_app. cbn [run_clips].
    destruct i; cbn [get3 zip3 t0 t1 t2]; lia. }
  destruct (run_Ok cs clip_limit m Hcs Hlim Hin)
    as (m1 & o1 & Hrun1 & Hl1 & Hr1 & Hcount1).
  destruct (call_Ok c clip_limit m1 Hc)
    as (m2 & o2 & Hrun2 & _ & _ & Hcount2 & Hw).
  { rewrite Hl1. exact Hlim. }
  exists m1, o1, m2, o2. split; [exact Hrun1|]. split; [exact Hrun2|].
  split; [|exact Hw].
  intros i.
  pose proof (call_clips_nonneg (gyro m) clip_limit c i) as Hn1.
  pose proof (run_clips_nonneg (gyro m) clip_limit cs i) as Hn2.
  rewrite (call_clips_config (gyro m) (gyro m1)) in Hcount2 by assumption.
  pose proof (Hcount1 i) as H1.
  assert (Hin1 : 0 <= get3 (_clipping (gyro m1)) i < 2 ^ clipping_bits)
    by (rewrite H1; exact (wrap_fits _ _ _ (Hin i))).
  pose proof (Hcount2 i Hin1) as H2.
  split; [exact H1|]. split; [exact H2|]. split.
  - intros Hfit. rewrite Hsplit in Hfit. pose proof (Hin i) as H0.
    rewrite wrap_small in H1 by lia.
    rewrite H2, wrap_small by lia. lia.
  - intros Hover. rewrite H2. unfold wrap.
    set (s := get3 (_clipping (gyro m1)) i
              + get3 (call_clips (gyro m) clip_limit c) i) in *.
    assert (Hs : s mod 2 ^ clipping_bits = s - 2 ^ clipping_bits).
    { symmetry. apply (Z.mod_unique s (2 ^ clipping_bits) 1); [left; lia|lia]. }
    rewrite Hs. lia.
Qed.


(** Nothing is greater than plus infinity. *)
Lemma gtb_pinf (a : F32.float) : F32.gtb a F32.pinf = false.
Proof. destruct a as [s|s| |s m e]; try destruct s; reflexivity. Qed.

Lemma clip_axis_pinf (raw : Vector3f) (i : Axis) g :
  _clip_limit g = F32.pinf -> clip_axis raw i g = g.
Proof. intros H. unfold clip_axis. rewrite H, gtb_pinf. reflexivity. Qed.

(** C9, as the code has it. [UpdateClipLimit] has no guard for a zero
    [_scale]: the quotient [_range / _scale] is taken in binary32. When
    [_range] is infinite or finite and not zero, with the sign of the
    zero, the quotient and the clip limit are plus infinity; then no
    sample changes a clip counter on the single-sample path, and the
    batch path stops at the conversion of the limit to [int16_t].
    Otherwise ([_range] zero or NaN, or of the other sign) [fmaxf] yields
    the limit [INT16_MAX]. *)
Theorem C9_clip_limit_at_zero_scale (g : PX4Gyroscope) (s : bool) :
  _scale g = S754_zero s ->
  let limit := _clip_limit (UpdateClipLimit g) in
  let same_sign :=
    match _range g with
    | S754_infinity r | S754_finite r _ _ => Bool.eqb r s
    | _ => false
    end in
  (same_sign = false -> limit = F32.of_Z INT16_MAX)
  /\ (same_sign = true ->
      limit = F32.pinf
      /\ (forall (timestamp_sample : Z) (x y z : F32.float) (m : Machine),
            _clip_limit (gyro m) = limit ->
            exists m' out,
              update timestamp_sample x y z m = (m', out, Ok tt)
              /\ _clipping (gyro m') = _clipping (gyro m)
              /\ (reports out = [] ->
                  _integrator_clipping (gyro m')
                  = _integrator_clipping (gyro m)))
      /\ (forall (sample : FIFOSample.t) (m : Machine),
            valid_batch sample ->
            _clip_limit (gyro m) = limit ->
            exists m' out,
              updateFIFO sample m = (m', out, UB (float_to_int16 F32.pinf)))).
Proof.
  intros Hscale limit same_sign.
  assert (Hlimit : limit = if same_sign then F32.pinf
                           else F32.of_Z INT16_MAX).
  { unfold limit, same_sign, UpdateClipLimit.
    cbn [_clip_limit with_clip_limit]. rewrite Hscale.
    destruct (_range g) as [r|r| |r mr er]; destruct s; try destruct r;
      reflexivity. }
  split.
  - intros Hs. rewrite Hlimit, Hs. reflexivity.
  - intros Hs. rewrite Hs in Hlimit. split; [exact Hlimit|]. split.
    + intros ts x y z m Hm. rewrite Hlimit in Hm.
      destruct (update_Ok ts x y z m) as (m' & status & t & Hrun & Hg & _ & Hr2).
      set (raw := rotate_3f (_rotation (gyro m)) (mk3 x y z)) in *.
      assert (Hsame : after_update_clipping raw (gyro m) = gyro m).
      { unfold after_update_clipping.
        rewrite (clip_axis_pinf raw AX) by exact Hm.
        rewrite (clip_axis_pinf raw AY) by exact Hm.
        apply clip_axis_pinf. exact Hm. }
      rewrite Hsame in Hrun, Hg.
      eexists m', _. split; [exact Hrun|].
      rewrite Hg. unfold after_update_integrate, update_integrate_out.
      destruct (snd (put_result ts _ _)) as [[da dt]|].
      * split; [reflexivity|]. intros Hrep. discriminate Hrep.
      * split; reflexivity.
    + intros sample m Hv Hm. rewrite Hlimit in Hm.
      eexists _, _.
      rewrite (updateFIFO_UB_clip_limit sample m Hv)
        by (rewrite Hm; reflexivity).
      rewrite Hm. reflexivity.
Qed.


End Properties.

(** * Further properties of the driver *)

Section MoreProperties.

Context {E : Externals}.

(** ** The loops at and beyond the end of the array *)

Lemma sum_loop_UB (samples : list Z) (k : nat) : forall (n acc : Z) m,
  length samples = 16%nat ->
  0 <= n <= 16 -> 16 < n + Z.of_nat k ->
  sum_loop samples k n acc m = (m, [], UB (out_of_bounds 16)).
Proof.
  induction k as [|k IH]; intros n acc m Hlen Hn Hk; [lia|].
  cbn [sum_loop].
  destruct (Z.eq_dec n 16) as [->|Hne].
  - apply bind_UB. apply read16_UB. lia.
  - rewrite (bind_pure _ _ _ _ (read16_Ok samples n m ltac:(lia) ltac:(lia))).
    apply IH; [exact Hlen | lia | lia].
Qed.

Lemma clipping_loop_UB (samples : list Z) (clip_limit : Z) (k : nat) :
  forall (n count : Z) m,
  length samples = 16%nat ->
  0 <= n <= 16 -> 16 < n + Z.of_nat k ->
  clipping_loop samples clip_limit k n count m
  = (m, [], UB (out_of_bounds 16)).
Proof.
  induction k as [|k IH]; intros n count m Hlen Hn Hk; [lia|].
  cbn [clipping_loop].
  destruct (Z.eq_dec n 16) as [->|Hne].
  - apply bind_UB. apply read16_UB. lia.
  - rewrite (bind_pure _ _ _ _ (read16_Ok samples n m ltac:(lia) ltac:(lia))).
    apply IH; [exact Hlen | lia | lia].
Qed.

(** X1. On an array of 16 [int16_t], [sum] returns the sum of the first
    [len] entries when [len] is at most 16, and the sum fits the
    [int32_t] accumulator; with a longer [len] it reads [samples[16]],
    past the end of the array. *)
Theorem X1_sum_within_and_beyond_the_array
  (samples : list Z) (len : Z) (m : Machine) :
  length samples = 16%nat ->
  Forall (fun v => -32768 <= v <= 32767) samples ->
  (0 <= len <= 16 ->
   sum samples len m
   = (m, [], Ok (fold_right Z.add 0 (firstn (Z.to_nat len) samples)))
   /\ - 2 ^ 31 <= fold_right Z.add 0 (firstn (Z.to_nat len) samples) < 2 ^ 31)
  /\ (16 < len -> sum samples len m = (m, [], UB (out_of_bounds 16))).
Proof.
  intros Hlen Hrange. split.
  - intros Hl. split.
    + apply sum_Ok; assumption.
    + apply (sum_of_fits_int32 samples len Hrange Hlen).
  - intros Hl. unfold sum. apply sum_loop_UB; [exact Hlen | lia | lia].
Qed.

Lemma filter_all_length {A : Type} (f : A -> bool) (l : list A) :
  (forall v, In v l -> f v = true) -> length (filter f l) = length l.
Proof.
  induction l as [|a l IH]; intros H; [reflexivity|].
  cbn [filter]. rewrite (H a (or_introl eq_refl)). cbn [length].
  rewrite IH; [reflexivity|]. intros v Hv. apply H. right. exact Hv.
Qed.

Lemma filter_none_length {A : Type} (f : A -> bool) (l : list A) :
  (forall v, In v l -> f v = false) -> length (filter f l) = 0%nat.
Proof.
  induction l as [|a l IH]; intros H; [reflexivity|].
  cbn [filter]. rewrite (H a (or_introl eq_refl)).
  apply IH. intros v Hv. apply H. right. exact Hv.
Qed.

(** X2. On an array of 16 [int16_t] and a [len] of at most 16,
    [clipping] returns a count between 0 and [len]: [len] itself when
    every one of the first [len] samples has a magnitude of at least
    [clip_limit], which is always so for a sample of -32768 and an
    [int16_t] limit, because the magnitude is taken as an [int]; and 0
    when none has. With a longer [len] it reads past the end of the
    array. *)
Theorem X2_clipping_count_bounds
  (samples : list Z) (clip_limit len : Z) (m : Machine) :
  length samples = 16%nat ->
  (0 <= len <= 16 ->
   exists n,
     clipping samples clip_limit len m = (m, [], Ok n)
     /\ 0 <= n <= len
     /\ ((forall v, In v (firstn (Z.to_nat len) samples) ->
            clip_limit <= Z.abs v) -> n = len)
     /\ ((forall v, In v (firstn (Z.to_nat len) samples) ->
            Z.abs v < clip_limit) -> n = 0)
     /\ (clip_limit <= 32767 ->
         (forall v, In v (firstn (Z.to_nat len) samples) -> v = -32768) ->
         n = len))
  /\ (16 < len ->
      clipping samples clip_limit len m = (m, [], UB (out_of_bounds 16))).
Proof.
  intros Hlen. split.
  - intros Hl. exists (clip_count_of samples clip_limit len).
    split; [apply clipping_Ok; assumption|].
    unfold clip_count_of.
    set (l := firstn (Z.to_nat len) samples).
    assert (Hll : length l = Z.to_nat len).
    { unfold l. rewrite length_firstn, Hlen. lia. }
    assert (Hall : (forall v, In v l -> clip_limit <= Z.abs v) ->
                   Z.of_nat (length (filter (fun v => Z.abs v >=? clip_limit) l))
                   = len).
    { intros H. rewrite filter_all_length; [lia|].
      intros v Hv. apply Z.geb_le. apply H. exact Hv. }
    split; [|split; [exact Hall|split]].
    + pose proof (filter_length_le (fun v => Z.abs v >=? clip_limit) l). lia.
    + intros H. rewrite filter_none_length; [reflexivity|].
      intros v Hv. specialize (H v Hv).
      rewrite Z.geb_leb. apply Z.leb_gt. exact H.
    + intros Hlim H. apply Hall. intros v Hv. rewrite (H v Hv).
      change (Z.abs (-32768)) with 32768. lia.
  - intros Hl. unfold clipping.
    apply clipping_loop_UB; [exact Hlen | lia | lia].
Qed.

(** X3. A batch that announces more than 16 samples stops [updateFIFO] at
    the first sum, which reads past the end of [sample.x]: nothing is
    published and no member is changed. *)
Theorem X3_oversized_batch (sample : FIFOSample.t) (m : Machine) :
  length (FIFOSample.x sample) = 16%nat ->
  16 < batch_size sample ->
  updateFIFO sample m = (m, [], UB (out_of_bounds 16)).
Proof.
  intros Hx HN. unfold updateFIFO. apply bind_UB.
  unfold fifo_publish_raw. apply bind_UB.
  unfold sum. apply sum_loop_UB; [exact Hx | lia | lia].
Qed.

(** ** [PublishStatus] and the end of the two entry points *)

Lemma PublishStatus_eq (m : Machine) :
  PublishStatus m =
  if status_elapsed m >=? status_interval
  then (mkMachine (with_status_last_publish (time (tick m)) (gyro m))
                  (S (S (clock_reads m))),
        [sensor_status_pub (status_of (gyro m) (time (tick m)))], Ok tt)
  else (tick m, [], Ok tt).
Proof.
  unfold PublishStatus. rewrite bind_this. unfold hrt_elapsed_time.
  unfold bind at 1. unfold bind at 1. unfold hrt_absolute_time at 1.
  cbv beta iota. unfold ret at 1. cbv beta iota.
  unfold status_elapsed, time.
  destruct (wrap hrt_abstime_bits _ >=? status_interval); reflexivity.
Qed.

Lemma PublishStatus_returns (m : Machine) : snd (PublishStatus m) = Ok tt.
Proof.
  rewrite PublishStatus_eq.
  destruct (status_elapsed m >=? status_interval); reflexivity.
Qed.

Lemma updateFIFO_full (sample : FIFOSample.t) (clip_limit : Z) m :
  valid_batch sample ->
  F32.to_int16 (_clip_limit (gyro m)) = Some clip_limit ->
  let g1 := before_flush sample clip_limit (gyro m) in
  let before := fifo_before_status sample clip_limit m in
  updateFIFO sample m =
  (fst (fst (PublishStatus before)),
   sensor_pub (fifo_reading sample (gyro m) (time m))
     :: flush_out sample g1 (time (tick m))
     ++ sensor_fifo_pub
          (fifo_echo sample
             (with_timestamp_sample_prev (FIFOSample.timestamp_sample sample)
                (after_flush sample g1))
             (hrt_absolute_time_at
                (if integrator_ready g1 then S (S (clock_reads m))
                 else S (clock_reads m))))
     :: snd (fst (PublishStatus before)),
   Ok tt).
Proof.
  intros Hv Hlim g1 before. unfold updateFIFO.
  set (ts := FIFOSample.timestamp_sample sample).
  set (m1 := on_gyro (fun _ => g1) (tick m)).
  set (m2 := if integrator_ready g1
             then tick (on_gyro (after_flush sample) m1) else m1).
  set (m3 := on_gyro (with_timestamp_sample_prev ts) m2).
  assert (Hg2 : gyro m2 = after_flush sample g1).
  { unfold m2, after_flush.
    destruct (integrator_ready g1) eqn:Hr; cbn; unfold after_flush;
      rewrite ?Hr; reflexivity. }
  assert (Hb : tick m3 = before).
  { unfold before, fifo_before_status, tick. fold g1 ts. f_equal.
    - unfold m3. cbn [gyro on_gyro]. rewrite Hg2. reflexivity.
    - unfold m3, m2, m1. destruct (integrator_ready g1); reflexivity. }
  assert (Hp : PublishStatus (tick m3) =
               (fst (fst (PublishStatus before)),
                snd (fst (PublishStatus before)), Ok tt)).
  { rewrite Hb. pose proof (PublishStatus_returns before) as Hr.
    destruct (PublishStatus before) as [[mp op] rp]. cbn in *.
    rewrite Hr. reflexivity. }
  eapply bind_Ok_eq;
    [ apply fifo_publish_raw_Ok; exact Hv | reflexivity | ].
  eapply bind_Ok_eq;
    [ apply (fifo_clipping_Ok _ clip_limit); assumption | reflexivity | ].
  eapply bind_Ok_eq; [ apply fifo_gap_check_Ok | reflexivity | ].
  eapply bind_Ok_eq;
    [ apply fifo_integrate_Ok; exact Hv | reflexivity | ].
  change (on_gyro (after_integrate sample)
            (on_gyro (after_gap_check sample)
               (on_gyro (after_clipping sample clip_limit) (tick m))))
    with m1.
  assert (Hf : fifo_flush sample m1 =
               (m2, flush_out sample g1 (time (tick m)), Ok tt)).
  { rewrite fifo_flush_Ok. unfold m2, flush_out. cbn [gyro m1 on_gyro].
    destruct (integrator_ready g1); reflexivity. }
  eapply bind_Ok_eq; [ exact Hf | reflexivity | ].
  rewrite bind_modify. fold (on_gyro (with_timestamp_sample_prev ts) m2).
  fold m3.
  eapply bind_Ok_eq; [ apply fifo_publish_fifo_Ok | | exact Hp ].
  cbn [app]. do 3 f_equal.
  + unfold m3. cbn [gyro on_gyro]. rewrite Hg2. reflexivity.
  + unfold time, m3, m2, m1.
    destruct (integrator_ready g1); reflexivity.
Qed.

Lemma update_full (timestamp_sample : Z) (x y z : F32.float) m :
  let raw := rotate_3f (_rotation (gyro m)) (mk3 x y z) in
  let g1 := after_update_clipping raw (gyro m) in
  let val := calibrate g1 raw in
  let before := update_before_status timestamp_sample x y z m in
  update timestamp_sample x y z m =
  (fst (fst (PublishStatus before)),
   sensor_pub (reading timestamp_sample g1 val (time m))
     :: update_integrate_out timestamp_sample val g1 (time (tick m))
     ++ snd (fst (PublishStatus before)),
   Ok tt).
Proof.
  intros raw g1 val before. unfold update. rewrite bind_this. fold raw.
  set (m1 := tick (on_gyro (after_update_clipping raw) m)).
  assert (Hi : update_integrate timestamp_sample val m1 =
               (before, update_integrate_out timestamp_sample val g1
                          (time (tick m)), Ok tt)).
  { rewrite update_integrate_Ok. unfold before, update_before_status.
    fold raw g1 val. cbn [gyro m1 tick on_gyro]. fold g1.
    destruct (snd (put_result timestamp_sample val g1)); reflexivity. }
  assert (Hp : PublishStatus before =
               (fst (fst (PublishStatus before)),
                snd (fst (PublishStatus before)), Ok tt)).
  { pose proof (PublishStatus_returns before) as Hr.
    destruct (PublishStatus before) as [[mp op] rp]. cbn in *.
    rewrite Hr. reflexivity. }
  eapply bind_Ok_eq; [ apply update_clipping_Ok | reflexivity | ].
  rewrite bind_this, bind_clock, bind_publish.
  cbn [gyro on_gyro]. fold g1. fold val.
  fold (tick (on_gyro (after_update_clipping raw) m)). fold m1.
  rewrite (bind_Ok _ _ _ _ _ _ _ _ _ Hi Hp). reflexivity.
Qed.

(** ** What one call publishes and what it leaves alone *)

Lemma echoes_app (a b : list Publication) :
  echoes (a ++ b) = echoes a ++ echoes b.
Proof. unfold echoes. apply flat_map_app. Qed.

Lemma statuses_app (a b : list Publication) :
  statuses (a ++ b) = statuses a ++ statuses b.
Proof. unfold statuses. apply flat_map_app. Qed.

Lemma same_configuration_trans (g1 g2 g3 : PX4Gyroscope) :
  same_configuration g1 g2 -> same_configuration g2 g3 ->
  same_configuration g1 g3.
Proof.
  unfold same_configuration. intros H12 H23.
  destruct H12 as (A1 & A2 & A3 & A4 & A5 & A6 & A7 & A8 & A9 & A10).
  destruct H23 as (B1 & B2 & B3 & B4 & B5 & B6 & B7 & B8 & B9 & B10).
  repeat split; congruence.
Qed.

Lemma clip_axis_same_configuration (raw : Vector3f) (i : Axis) g :
  same_configuration g (clip_axis raw i g)
  /\ _status_last_publish (clip_axis raw i g) = _status_last_publish g.
Proof.
  unfold clip_axis. destruct (F32.gtb _ _); repeat split.
Qed.

Lemma fifo_before_status_keeps (sample : FIFOSample.t) (clip_limit : Z) m :
  same_configuration (gyro m) (gyro (fifo_before_status sample clip_limit m))
  /\ _status_last_publish (gyro (fifo_before_status sample clip_limit m))
     = _status_last_publish (gyro m)
  /\ _integrator (gyro (fifo_before_status sample clip_limit m))
     = _integrator (gyro m).
Proof.
  unfold fifo_before_status, after_flush, before_flush, after_integrate,
    after_gap_check. cbn [gyro].
  destruct (integrator_ready _);
    destruct (timestamp_gap sample _); repeat split.
Qed.

Lemma update_before_status_keeps (timestamp_sample : Z) (x y z : F32.float) m :
  same_configuration (gyro m)
    (gyro (update_before_status timestamp_sample x y z m))
  /\ _status_last_publish
       (gyro (update_before_status timestamp_sample x y z m))
     = _status_last_publish (gyro m).
Proof.
  unfold update_before_status. cbn [gyro].
  set (raw := rotate_3f (_rotation (gyro m)) (mk3 x y z)).
  set (g1 := after_update_clipping raw (gyro m)).
  assert (H1 : same_configuration (gyro m) g1
               /\ _status_last_publish g1 = _status_last_publish (gyro m)).
  { unfold g1, after_update_clipping.
    destruct (clip_axis_same_configuration raw AX (gyro m)) as (A & A').
    destruct (clip_axis_same_configuration raw AY (clip_axis raw AX (gyro m)))
      as (B & B').
    destruct (clip_axis_same_configuration raw AZ
                (clip_axis raw AY (clip_axis raw AX (gyro m)))) as (C0 & C').
    split; [|congruence].
    exact (same_configuration_trans _ _ _
             (same_configuration_trans _ _ _ A B) C0). }
  destruct H1 as (H1 & H1').
  assert (H2 : same_configuration g1
                 (after_update_integrate timestamp_sample
                    (calibrate g1 raw) g1)
               /\ _status_last_publish
                    (after_update_integrate timestamp_sample
                       (calibrate g1 raw) g1)
                  = _status_last_publish g1).
  { unfold after_update_integrate.
    destruct (snd (put_result _ _ _)) as [[da dt]|]; repeat split. }
  destruct H2 as (H2 & H2').
  split; [exact (same_configuration_trans _ _ _ H1 H2)|congruence].
Qed.

(** The machine on which a call of either kind ends with [PublishStatus],
    and what it has published until then. *)
Lemma call_full (c : Call) (clip_limit : Z) (m : Machine) :
  valid_call c ->
  F32.to_int16 (_clip_limit (gyro m)) = Some clip_limit ->
  exists (before : Machine) (body : list Publication),
    call c m =
    (fst (fst (PublishStatus before)),
     body ++ snd (fst (PublishStatus before)), Ok tt)
    /\ statuses body = []
    /\ length (readings body) = 1%nat
    /\ length (echoes body)
       = match c with call_updateFIFO _ => 1%nat | _ => 0%nat end
    /\ (length (reports body) <= 1)%nat
    /\ same_configuration (gyro m) (gyro before)
    /\ _status_last_publish (gyro before) = _status_last_publish (gyro m)
    /\ (clock_reads m < clock_reads before <= clock_reads m + 3)%nat.
Proof.
  intros Hv Hlim. destruct c as [ts x y z|sample]; cbn [call valid_call] in *.
  - exists (update_before_status ts x y z m). eexists.
    split; [rewrite update_full; rewrite app_comm_cons; reflexivity|].
    destruct (update_before_status_keeps ts x y z m) as (Hc & Hl).
    refine (conj _ (conj _ (conj _ (conj _ (conj Hc (conj Hl _))))));
      unfold update_integrate_out, update_before_status; cbn [clock_reads];
      destruct (snd (put_result ts _ _)) as [[da dt]|];
      cbn; try reflexivity; lia.
  - exists (fifo_before_status sample clip_limit m). eexists.
    split.
    { rewrite (updateFIFO_full sample clip_limit m Hv Hlim).
      rewrite app_comm_cons.
      change (?a ++ ?b :: ?c) with (a ++ [b] ++ c).
      rewrite app_assoc. reflexivity. }
    destruct (fifo_before_status_keeps sample clip_limit m) as (Hc & Hl & _).
    refine (conj _ (conj _ (conj _ (conj _ (conj Hc (conj Hl _))))));
      unfold flush_out, fifo_before_status; cbn [clock_reads];
      destruct (integrator_ready _);
      cbn; try reflexivity; lia.
Qed.

Lemma PublishStatus_out_cases (m : Machine) :
  ((status_elapsed m >=? status_interval) = true
   /\ snd (fst (PublishStatus m))
      = [sensor_status_pub (status_of (gyro m) (time (tick m)))]
   /\ gyro (fst (fst (PublishStatus m)))
      = with_status_last_publish (time (tick m)) (gyro m)
   /\ clock_reads (fst (fst (PublishStatus m))) = S (S (clock_reads m)))
  \/ ((status_elapsed m >=? status_interval) = false
      /\ snd (fst (PublishStatus m)) = []
      /\ gyro (fst (fst (PublishStatus m))) = gyro m
      /\ clock_reads (fst (fst (PublishStatus m))) = S (clock_reads m)).
Proof.
  rewrite PublishStatus_eq.
  destruct (status_elapsed m >=? status_interval); [left|right];
    repeat split.
Qed.

(** X4. Every batch of 1 to 16 samples is echoed exactly once on the fifo
    topic, flushed or not: the echo carries the batch's timestamp and
    [dt], the scale in force, the sample count [N], and on each axis an
    array of 16 that holds the first [N] samples of the batch followed
    by zeros. *)
Theorem X4_batch_echo (sample : FIFOSample.t) (clip_limit : Z) (m : Machine) :
  valid_batch sample ->
  F32.to_int16 (_clip_limit (gyro m)) = Some clip_limit ->
  let N := FIFOSample.samples sample in
  let padded (s : list Z) :=
    firstn (Z.to_nat N) s ++ repeat 0 (16 - Z.to_nat N)%nat in
  exists m' out e,
    updateFIFO sample m = (m', out, Ok tt)
    /\ echoes out = [e]
    /\ sensor_gyro_fifo_s.timestamp_sample e
       = FIFOSample.timestamp_sample sample
    /\ sensor_gyro_fifo_s.dt e = FIFOSample.dt sample
    /\ sensor_gyro_fifo_s.scale e = _scale (gyro m)
    /\ sensor_gyro_fifo_s.device_id e = _device_id (gyro m)
    /\ sensor_gyro_fifo_s.samples e = N
    /\ sensor_gyro_fifo_s.x e = padded (FIFOSample.x sample)
    /\ sensor_gyro_fifo_s.y e = padded (FIFOSample.y sample)
    /\ sensor_gyro_fifo_s.z e = padded (FIFOSample.z sample)
    /\ length (sensor_gyro_fifo_s.x e) = 16%nat
    /\ length (sensor_gyro_fifo_s.y e) = 16%nat
    /\ length (sensor_gyro_fifo_s.z e) = 16%nat.
Proof.
  intros Hv Hlim N padded.
  pose proof (batch_size_valid _ Hv) as HN.
  pose proof (updateFIFO_full sample clip_limit m Hv Hlim) as Hrun.
  cbv zeta in Hrun.
  destruct (fifo_before_status_keeps sample clip_limit m)
    as ((Hdev & _ & _ & Hscale & _) & _).
  unfold fifo_before_status in Hdev, Hscale. cbn [gyro] in Hdev, Hscale.
  destruct Hv as (Hn & Hx & Hy & Hz).
  eexists _, _, _. split; [exact Hrun|].
  split.
  { change (echoes (?a :: ?b)) with (echoes [a] ++ echoes b).
    rewrite echoes_app.
    change (echoes (?a :: ?b)) with (echoes [a] ++ echoes b).
    assert (Hf : forall g now, echoes (flush_out sample g now) = [])
      by (intros g now; unfold flush_out;
          destruct (integrator_ready g); reflexivity).
    rewrite Hf.
    destruct (PublishStatus_out_cases
                (fifo_before_status sample clip_limit m))
      as [(_ & -> & _)|(_ & -> & _)]; reflexivity. }
  unfold fifo_echo, padded, fifo_copy, N.
  cbn [sensor_gyro_fifo_s.timestamp_sample sensor_gyro_fifo_s.dt
       sensor_gyro_fifo_s.scale sensor_gyro_fifo_s.device_id
       sensor_gyro_fifo_s.samples sensor_gyro_fifo_s.x
       sensor_gyro_fifo_s.y sensor_gyro_fifo_s.z].
  rewrite HN, Hdev, Hscale.
  repeat split;
    rewrite length_app, length_firstn, repeat_length; lia.
Qed.

(** X5. The publications of a call come in a fixed order. [updateFIFO]
    publishes the reading, then the integrated report if it flushes,
    then the echo, then the status if 100 ms have passed; [update]
    publishes the reading, then the integrated report if its integrator
    completes a window, then the status if 100 ms have passed, and never
    an echo. *)
Theorem X5_order_of_publications :
  (forall (sample : FIFOSample.t) (clip_limit : Z) (m : Machine),
     valid_batch sample ->
     F32.to_int16 (_clip_limit (gyro m)) = Some clip_limit ->
     exists m' out,
       updateFIFO sample m = (m', out, Ok tt)
       /\ map topic_of out =
          [sensor_gyro]
          ++ (if integrator_ready (gyro (fst (fst (fifo_until_flush sample m))))
              then [sensor_gyro_integrated] else [])
          ++ [sensor_gyro_fifo]
          ++ (if status_elapsed (fifo_before_status sample clip_limit m)
                 >=? status_interval
              then [sensor_gyro_status] else []))
  /\
  (forall (timestamp_sample : Z) (x y z : F32.float) (m : Machine),
     let raw := rotate_3f (_rotation (gyro m)) (mk3 x y z) in
     let val :=
       Vec.sub (Vec.scale raw (_scale (gyro m)))
               (_calibration_offset (gyro m)) in
     exists m' out,
       update timestamp_sample x y z m = (m', out, Ok tt)
       /\ map topic_of out =
          [sensor_gyro]
          ++ (match snd (Integrator_put (_integrator (gyro m))
                           timestamp_sample val) with
              | Some _ => [sensor_gyro_integrated]
              | None => []
              end)
          ++ (if status_elapsed
                   (update_before_status timestamp_sample x y z m)
                 >=? status_interval
              then [sensor_gyro_status] else [])).
Proof.
  split.
  - intros sample clip_limit m Hv Hlim.
    pose proof (updateFIFO_full sample clip_limit m Hv Hlim) as Hrun.
    cbv zeta in Hrun.
    rewrite (fifo_until_flush_Ok sample clip_limit m Hv Hlim).
    cbn [fst gyro].
    eexists _, _. split; [exact Hrun|].
    cbn [map app topic_of]. rewrite map_app. cbn [map topic_of].
    f_equal. f_equal.
    + unfold flush_out. destruct (integrator_ready _); reflexivity.
    + f_equal.
      destruct (PublishStatus_out_cases
                  (fifo_before_status sample clip_limit m))
        as [(-> & -> & _)|(-> & -> & _)]; reflexivity.
  - intros ts x y z m raw val.
    pose proof (update_full ts x y z m) as Hrun. cbv zeta in Hrun.
    fold raw in Hrun.
    set (g1 := after_update_clipping raw (gyro m)) in *.
    destruct (after_update_clipping_keeps raw (gyro m))
      as (Hs & Ho & _ & Hi & _).
    fold g1 in Hs, Ho, Hi.
    assert (Hval : calibrate g1 raw = val)
      by (unfold calibrate, val; rewrite Hs, Ho; reflexivity).
    rewrite Hval in Hrun.
    assert (Hput : put_result ts val g1
                   = Integrator_put (_integrator (gyro m)) ts val)
      by (unfold put_result, counted;
          cbn [_integrator with_integrator_samples];
          rewrite Hi; reflexivity).
    eexists _, _. split; [exact Hrun|].
    cbn [map app topic_of]. rewrite map_app.
    f_equal. f_equal.
    + unfold update_integrate_out. rewrite Hput.
      destruct (snd (Integrator_put _ ts val)) as [[da dt]|]; reflexivity.
    + destruct (PublishStatus_out_cases (update_before_status ts x y z m))
        as [(-> & -> & _)|(-> & -> & _)]; reflexivity.
Qed.

(** X6. A call publishes at most one status message. When it does, the
    message is a snapshot of the members as the call leaves them, the
    lifetime clip counters and vibration metrics of this very call
    included, and its timestamp is the new [_status_last_publish]; when
    it does not, [_status_last_publish] is unchanged. *)
Theorem X6_status_is_a_snapshot (c : Call) (clip_limit : Z) (m : Machine) :
  valid_call c ->
  F32.to_int16 (_clip_limit (gyro m)) = Some clip_limit ->
  exists m' out,
    call c m = (m', out, Ok tt)
    /\ (statuses out
        = [status_of (gyro m') (_status_last_publish (gyro m'))]
        \/ (statuses out = []
            /\ _status_last_publish (gyro m')
               = _status_last_publish (gyro m))).
Proof.
  intros Hv Hlim.
  destruct (call_full c clip_limit m Hv Hlim)
    as (before & body & Hrun & Hst & _ & _ & _ & _ & Hlast & _).
  eexists _, _. split; [exact Hrun|].
  rewrite statuses_app, Hst. cbn [app].
  destruct (PublishStatus_out_cases before)
    as [(_ & -> & -> & _)|(_ & -> & -> & _)].
  - left. reflexivity.
  - right. split; [reflexivity|exact Hlast].
Qed.

(** ** Sequences of calls *)

Lemma PublishStatus_body (m : Machine) :
  readings (snd (fst (PublishStatus m))) = []
  /\ reports (snd (fst (PublishStatus m))) = []
  /\ echoes (snd (fst (PublishStatus m))) = []
  /\ (length (statuses (snd (fst (PublishStatus m)))) <= 1)%nat
  /\ same_configuration (gyro m) (gyro (fst (fst (PublishStatus m)))).
Proof.
  destruct (PublishStatus_out_cases m)
    as [(_ & -> & -> & _)|(_ & -> & -> & _)];
    repeat split; cbn; lia.
Qed.

(** The reports of one call: on the batch path [dt] is the product of
    the raw sample counter, a value of its unsigned type, and the
    batch's [dt]; on the single-sample path it is a [uint32_t]. *)
Lemma call_reports_dt (representable : Z -> Prop)
  (c : Call) (clip_limit : Z) (m : Machine) :
  valid_call c ->
  F32.to_int16 (_clip_limit (gyro m)) = Some clip_limit ->
  0 <= integrator_fifo_samples_bits ->
  convertible_dt representable c ->
  Forall (report_dt_defined representable) (reports (snd (fst (call c m)))).
Proof.
  intros Hv Hlim Hbits Hdt.
  destruct c as [ts x y z|sample]; cbn [call valid_call convertible_dt] in *.
  - rewrite update_full. cbn [fst snd].
    change (reports (?a :: ?b)) with (reports [a] ++ reports b).
    rewrite !reports_app, (proj1 (proj2 (PublishStatus_body _))), app_nil_r.
    unfold update_integrate_out.
    destruct (snd (put_result ts _ _)) as [[da dt]|]; cbn; repeat constructor.
  - rewrite (updateFIFO_full sample clip_limit m Hv Hlim). cbn [fst snd].
    change (reports (?a :: ?b)) with (reports [a] ++ reports b).
    rewrite !reports_app.
    change (reports (?a :: ?b)) with (reports [a] ++ reports b).
    rewrite (proj1 (proj2 (PublishStatus_body _))), reports_flush_out,
      !app_nil_r.
    set (g1 := before_flush sample clip_limit (gyro m)).
    destruct (integrator_ready g1); cbn [reports flat_map app];
      [|constructor].
    constructor; [|constructor].
    unfold report_dt_defined, flush_report.
    cbn [sensor_gyro_integrated_s.dt]. apply Hdt.
    unfold g1, before_flush, after_integrate.
    cbn [_integrator_fifo_samples with_last_sample with_integration_raw
         with_integrator_fifo_samples].
    apply (wrap_range _ _ Hbits).
Qed.

(** X7. A sequence of [update] calls and [updateFIFO] calls runs to its
    end without undefined behaviour when the batches have 1 to 16
    samples, [_clip_limit] converts to [int16_t] at the start, and the
    [dt] of every batch gives, with every value of the raw sample
    counter, a product that converts to the integer type of the report's
    [dt]: no array is read out of bounds, nothing is divided by zero,
    and every conversion of a [float] to an integer, that of the clip
    limit and that of each report's [dt], is defined. The sequence
    leaves the configuration members as they were, and it publishes
    exactly one reading per call, exactly one echo per batch call, and
    at most one integrated report and one status per call. *)
Theorem X7_runs_are_defined (representable : Z -> Prop) (cs : list Call) :
  forall (clip_limit : Z) (m : Machine),
  Forall valid_call cs ->
  F32.to_int16 (_clip_limit (gyro m)) = Some clip_limit ->
  0 <= integrator_fifo_samples_bits ->
  Forall (convertible_dt representable) cs ->
  exists m' out,
    run cs m = (m', out, Ok tt)
    /\ Forall (report_dt_defined representable) (reports out)
    /\ same_configuration (gyro m) (gyro m')
    /\ length (readings out) = length cs
    /\ length (echoes out)
       = length (filter (fun c => match c with call_updateFIFO _ => true
                                             | _ => false end) cs)
    /\ (length (reports out) <= length cs)%nat
    /\ (length (statuses out) <= length cs)%nat.
Proof.
  induction cs as [|c cs IH]; intros clip_limit m Hv Hlim Hbits Hdt.
  - exists m, []. repeat split; try reflexivity; try constructor; cbn; lia.
  - inversion Hv as [|c' cs' Hc Hcs]; subst.
    inversion Hdt as [|c' cs' Hdc Hdcs]; subst.
    pose proof (call_reports_dt representable c clip_limit m Hc Hlim
                  Hbits Hdc) as Hconv.
    destruct (call_full c clip_limit m Hc Hlim)
      as (before & body & Hrun & Hst & Hrd & Hec & Hrp & Hcfg & _ & _).
    rewrite Hrun in Hconv. cbn [fst snd] in Hconv.
    destruct (PublishStatus_body before) as (Pr & Pp & Pe & Ps & Pcfg).
    pose proof (same_configuration_trans _ _ _ Hcfg Pcfg) as Hcfg1.
    set (m1 := fst (fst (PublishStatus before))) in *.
    destruct (IH clip_limit m1 Hcs)
      as (m' & out & Hrun' & Hconv' & Hcfg' & Hr & He & Hp & Hs);
      [|exact Hbits|exact Hdcs|].
    { destruct Hcfg1 as (_ & _ & _ & _ & _ & Hl & _). rewrite Hl. exact Hlim. }
    exists m', ((body ++ snd (fst (PublishStatus before))) ++ out).
    split; [cbn [run]; apply (bind_Ok _ _ _ _ _ _ _ _ _ Hrun Hrun')|].
    split.
    { rewrite reports_app. apply Forall_app. split; assumption. }
    split; [exact (same_configuration_trans _ _ _ Hcfg1 Hcfg')|].
    rewrite !readings_app, !echoes_app, !reports_app, !statuses_app.
    rewrite Pr, Pp, Pe, Hst, !length_app. cbn [length app filter].
    rewrite Hr, He, Hrd, Hec.
    repeat split; destruct c; cbn [length]; lia.
Qed.

(** One call under a clock that does not run backwards and does not wrap
    during the call. *)
Lemma call_status_spacing (c : Call) (clip_limit : Z) (m : Machine) :
  valid_call c ->
  F32.to_int16 (_clip_limit (gyro m)) = Some clip_limit ->
  (forall j k : nat, (j <= k)%nat ->
     hrt_absolute_time_at j <= hrt_absolute_time_at k) ->
  hrt_absolute_time_at (clock_reads m + 5) < 2 ^ hrt_abstime_bits ->
  0 <= _status_last_publish (gyro m) <= time m ->
  exists m' out,
    call c m = (m', out, Ok tt)
    /\ _clip_limit (gyro m') = _clip_limit (gyro m)
    /\ (clock_reads m <= clock_reads m' <= clock_reads m + 5)%nat
    /\ 0 <= _status_last_publish (gyro m') <= time m'
    /\ ((statuses out = []
         /\ _status_last_publish (gyro m') = _status_last_publish (gyro m))
        \/ (exists s,
              statuses out = [s]
              /\ sensor_gyro_status_s.timestamp s
                 = _status_last_publish (gyro m')
              /\ _status_last_publish (gyro m) + status_interval
                 <= sensor_gyro_status_s.timestamp s)).
Proof.
  intros Hv Hlim Hmono Hbound (H0 & Hle).
  destruct (call_full c clip_limit m Hv Hlim)
    as (before & body & Hrun & Hst & _ & _ & _ & Hcfg & Hlast & Hclk).
  destruct Hcfg as (_ & _ & _ & _ & _ & Hl & _).
  eexists _, _. split; [exact Hrun|].
  rewrite statuses_app, Hst. cbn [app].
  unfold time in *.
  assert (Hnow : _status_last_publish (gyro before)
                 <= hrt_absolute_time_at (clock_reads before)).
  { rewrite Hlast. etransitivity; [exact Hle|]. apply Hmono. lia. }
  assert (Hlt : hrt_absolute_time_at (clock_reads before)
                < 2 ^ hrt_abstime_bits).
  { eapply Z.le_lt_trans; [|exact Hbound]. apply Hmono. lia. }
  assert (Hel : status_elapsed before
                = hrt_absolute_time_at (clock_reads before)
                  - _status_last_publish (gyro before)).
  { unfold status_elapsed, time. apply wrap_small. rewrite Hlast in *. lia. }
  destruct (PublishStatus_out_cases before)
    as [(He & -> & -> & ->)|(He & -> & -> & ->)].
  - rewrite Hel in He. apply Z.geb_le in He.
    pose proof (Hmono (clock_reads before) (S (clock_reads before))
                  ltac:(lia)) as H1.
    pose proof (Hmono (S (clock_reads before)) (S (S (clock_reads before)))
                  ltac:(lia)) as H2.
    cbn [_status_last_publish with_status_last_publish _clip_limit
         tick clock_reads gyro].
    unfold status_interval in *.
    split; [exact Hl|]. split; [lia|]. split; [unfold time; cbn; lia|].
    right. eexists. split; [reflexivity|].
    cbn [sensor_gyro_status_s.timestamp status_of]. unfold time.
    cbn [clock_reads tick]. rewrite Hlast in *. lia.
  - split; [exact Hl|]. split; [lia|].
    pose proof (Hmono (clock_reads before) (S (clock_reads before))
                  ltac:(lia)) as H1.
    rewrite Hlast in *.
    split; [lia|]. left. split; reflexivity.
Qed.

(** X8. The status topic is rate limited across calls: along any
    sequence of calls, the timestamps of the status messages published
    are at least 100 ms apart, and the first is at least 100 ms after
    the [_status_last_publish] the sequence started with. The clock does
    not run backwards and does not wrap during the sequence. *)
Theorem X8_status_rate_limit (cs : list Call) :
  forall (clip_limit : Z) (m : Machine),
  Forall valid_call cs ->
  F32.to_int16 (_clip_limit (gyro m)) = Some clip_limit ->
  (forall j k : nat, (j <= k)%nat ->
     hrt_absolute_time_at j <= hrt_absolute_time_at k) ->
  hrt_absolute_time_at (clock_reads m + 5 * length cs)
    < 2 ^ hrt_abstime_bits ->
  0 <= _status_last_publish (gyro m) <= time m ->
  exists m' out,
    run cs m = (m', out, Ok tt)
    /\ spaced (_status_last_publish (gyro m))
              (map sensor_gyro_status_s.timestamp (statuses out)).
Proof.
  induction cs as [|c cs IH]; intros clip_limit m Hv Hlim Hmono Hbound Hlast.
  - exists m, []. split; [reflexivity|exact I].
  - inversion Hv as [|c' cs' Hc Hcs]; subst.
    destruct (call_status_spacing c clip_limit m Hc Hlim Hmono)
      as (m1 & o1 & Hrun1 & Hl1 & Hclk & Hlast1 & Hst); [|exact Hlast|].
    { eapply Z.le_lt_trans; [|exact Hbound]. apply Hmono.
      cbn [length]. lia. }
    destruct (IH clip_limit m1 Hcs) as (m' & o2 & Hrun2 & Hsp);
      [rewrite Hl1; exact Hlim | exact Hmono | | exact Hlast1 | ].
    { eapply Z.le_lt_trans; [|exact Hbound]. apply Hmono.
      cbn [length]. lia. }
    exists m', (o1 ++ o2).
    split; [cbn [run]; apply (bind_Ok _ _ _ _ _ _ _ _ _ Hrun1 Hrun2)|].
    rewrite statuses_app, map_app.
    destruct Hst as [(-> & <-)|(s & -> & Hts & Hgap)].
    + exact Hsp.
    + cbn [map app spaced]. split; [exact Hgap|].
      rewrite Hts. exact Hsp.
Qed.

(** ** The vibration metrics and the two windows *)

(** [PublishStatus] writes [_status_last_publish] and nothing else. *)
Lemma PublishStatus_members (m : Machine) :
  exists t,
    gyro (fst (fst (PublishStatus m))) = with_status_last_publish t (gyro m).
Proof.
  destruct (PublishStatus_out_cases m)
    as [(_ & _ & -> & _)|(_ & _ & -> & _)].
  - eexists. reflexivity.
  - exists (_status_last_publish (gyro m)). destruct (gyro m). reflexivity.
Qed.

Lemma clip_axis_window (raw : Vector3f) (i : Axis) (g : PX4Gyroscope) :
  _vibration_metric (clip_axis raw i g) = _vibration_metric g
  /\ _coning_vibration (clip_axis raw i g) = _coning_vibration g
  /\ _delta_angle_prev (clip_axis raw i g) = _delta_angle_prev g
  /\ _integration_raw (clip_axis raw i g) = _integration_raw g
  /\ _timestamp_sample_prev (clip_axis raw i g) = _timestamp_sample_prev g
  /\ _last_sample (clip_axis raw i g) = _last_sample g.
Proof.
  unfold clip_axis. destruct (F32.gtb _ _); repeat split.
Qed.

Lemma after_update_clipping_window (raw : Vector3f) (g : PX4Gyroscope) :
  _vibration_metric (after_update_clipping raw g) = _vibration_metric g
  /\ _coning_vibration (after_update_clipping raw g) = _coning_vibration g
  /\ _delta_angle_prev (after_update_clipping raw g) = _delta_angle_prev g
  /\ _integration_raw (after_update_clipping raw g) = _integration_raw g
  /\ _timestamp_sample_prev (after_update_clipping raw g)
     = _timestamp_sample_prev g
  /\ _last_sample (after_update_clipping raw g) = _last_sample g.
Proof.
  unfold after_update_clipping.
  destruct (clip_axis_window raw AX g) as (a1 & a2 & a3 & a4 & a5 & a6).
  destruct (clip_axis_window raw AY (clip_axis raw AX g))
    as (b1 & b2 & b3 & b4 & b5 & b6).
  destruct (clip_axis_window raw AZ (clip_axis raw AY (clip_axis raw AX g)))
    as (c1 & c2 & c3 & c4 & c5 & c6).
  repeat split; congruence.
Qed.

Lemma before_flush_vibration (sample : FIFOSample.t) (clip_limit : Z)
  (g : PX4Gyroscope) :
  _vibration_metric (before_flush sample clip_limit g) = _vibration_metric g
  /\ _coning_vibration (before_flush sample clip_limit g)
     = _coning_vibration g
  /\ _delta_angle_prev (before_flush sample clip_limit g)
     = _delta_angle_prev g.
Proof.
  unfold before_flush, after_integrate, after_gap_check.
  destruct (timestamp_gap sample _); repeat split.
Qed.

Lemma reports_status (m : Machine) :
  reports (snd (fst (PublishStatus m))) = [].
Proof. exact (proj1 (proj2 (PublishStatus_body m))). Qed.

(** X9. The vibration metrics move with the integrated reports and only
    with them, on both paths. A call that publishes no report leaves
    [_vibration_metric], [_coning_vibration] and [_delta_angle_prev] as
    they were. A call that publishes a report with delta angle [d] sets
    [_vibration_metric] to
    [0.99f * _vibration_metric + 0.01f * norm(d - _delta_angle_prev)],
    [_coning_vibration] to
    [0.99f * _coning_vibration + 0.01f * norm(d % _delta_angle_prev)],
    both from the earlier [_delta_angle_prev], which it then sets to [d].
    The two paths call [ResetIntegrator] and [UpdateVibrationMetrics] in
    opposite orders, with the same result. *)
Theorem X9_vibration_follows_reports
  (c : Call) (clip_limit : Z) (m : Machine) :
  valid_call c ->
  F32.to_int16 (_clip_limit (gyro m)) = Some clip_limit ->
  let g := gyro m in
  exists m' out,
    call c m = (m', out, Ok tt)
    /\ ((reports out = []
         /\ _vibration_metric (gyro m') = _vibration_metric g
         /\ _coning_vibration (gyro m') = _coning_vibration g
         /\ _delta_angle_prev (gyro m') = _delta_angle_prev g)
        \/ (exists r,
              reports out = [r]
              /\ let d := sensor_gyro_integrated_s.delta_angle r in
                 _delta_angle_prev (gyro m') = d
                 /\ _vibration_metric (gyro m') =
                    F32.add
                      (F32.mul (F32.lit 99 100) (_vibration_metric g))
                      (F32.mul (F32.lit 1 100)
                         (Vector3f_norm (Vec.sub d (_delta_angle_prev g))))
                 /\ _coning_vibration (gyro m') =
                    F32.add
                      (F32.mul (F32.lit 99 100) (_coning_vibration g))
                      (F32.mul (F32.lit 1 100)
                         (Vector3f_norm
                            (Vec.cross d (_delta_angle_prev g)))))).
Proof.
  intros Hv Hlim g. destruct c as [ts x y z|sample]; cbn [call valid_call] in *.
  - rewrite update_full. eexists _, _. split; [reflexivity|].
    destruct (PublishStatus_members (update_before_status ts x y z m))
      as (t & ->).
    change (reports (?a :: ?b)) with (reports [a] ++ reports b).
    rewrite !reports_app, reports_status, app_nil_r.
    unfold update_before_status, update_integrate_out, after_update_integrate.
    cbn [gyro].
    set (raw := rotate_3f (_rotation (gyro m)) (mk3 x y z)).
    destruct (after_update_clipping_window raw (gyro m))
      as (Hvm & Hcv & Hdp & _).
    set (g1 := after_update_clipping raw (gyro m)) in *.
    destruct (snd (put_result ts (calibrate g1 raw) g1)) as [[da dt]|].
    + right. eexists. split; [reflexivity|].
      cbn. fold g. rewrite Hvm, Hcv, Hdp. repeat split.
    + left. split; [reflexivity|]. cbn. fold g. repeat split; assumption.
  - rewrite (updateFIFO_full sample clip_limit m Hv Hlim).
    eexists _, _. split; [reflexivity|].
    destruct (PublishStatus_members (fifo_before_status sample clip_limit m))
      as (t & ->).
    change (reports (?a :: ?b)) with (reports [a] ++ reports b).
    rewrite !reports_app.
    change (reports (?a :: ?b)) with (reports [a] ++ reports b).
    rewrite reports_status, reports_flush_out.
    unfold fifo_before_status, after_flush. cbn [gyro].
    destruct (before_flush_vibration sample clip_limit (gyro m))
      as (Hvm & Hcv & Hdp).
    set (g1 := before_flush sample clip_limit (gyro m)) in *.
    destruct (integrator_ready g1).
    + right. eexists. split; [reflexivity|].
      unfold g. rewrite <- Hvm, <- Hcv, <- Hdp. repeat split; reflexivity.
    + left. split; [reflexivity|]. unfold g.
      rewrite <- Hvm, <- Hcv, <- Hdp. repeat split; reflexivity.
Qed.

(** X10. [update] never writes [_last_sample]. When [Integrator::put]
    completes a window, the report carries the delta angle and the [dt]
    that [put] returned, untouched, and [ResetIntegrator] also clears what
    the batch path had accumulated: [_integration_raw], the raw sample
    count and [_timestamp_sample_prev] are zero afterwards. When [put]
    does not complete a window these three are as they were. In both
    cases [_integrator] is the state [put] left. *)
Theorem X10_update_and_the_batch_window
  (timestamp_sample : Z) (x y z : F32.float) (m : Machine) :
  let g := gyro m in
  let raw := rotate_3f (_rotation g) (mk3 x y z) in
  let val := Vec.sub (Vec.scale raw (_scale g)) (_calibration_offset g) in
  let put := Integrator_put (_integrator g) timestamp_sample val in
  exists m' out,
    update timestamp_sample x y z m = (m', out, Ok tt)
    /\ _last_sample (gyro m') = _last_sample g
    /\ _integrator (gyro m') = fst put
    /\ match snd put with
       | Some (delta_angle, integral_dt) =>
           (exists r,
              reports out = [r]
              /\ sensor_gyro_integrated_s.delta_angle r = delta_angle
              /\ sensor_gyro_integrated_s.dt r = from_uint32 integral_dt
              /\ sensor_gyro_integrated_s.timestamp_sample r
                 = timestamp_sample)
           /\ _integration_raw (gyro m') = Vec.zero
           /\ _integrator_fifo_samples (gyro m') = 0
           /\ _timestamp_sample_prev (gyro m') = 0
       | None =>
           reports out = []
           /\ _integration_raw (gyro m') = _integration_raw g
           /\ _integrator_fifo_samples (gyro m') = _integrator_fifo_samples g
           /\ _timestamp_sample_prev (gyro m') = _timestamp_sample_prev g
       end.
Proof.
  intros g raw val put. rewrite update_full. eexists _, _.
  split; [reflexivity|].
  destruct (PublishStatus_members
              (update_before_status timestamp_sample x y z m)) as (t & ->).
  change (reports (?a :: ?b)) with (reports [a] ++ reports b).
  rewrite !reports_app, reports_status, app_nil_r.
  unfold update_before_status, update_integrate_out, after_update_integrate.
  cbn [gyro]. fold g. fold raw.
  destruct (after_update_clipping_window raw g)
    as (_ & _ & _ & Hraw & Hprev & Hlast).
  pose proof (after_update_clipping_keeps raw g) as Hk.
  assert (Hval : calibrate (after_update_clipping raw g) raw = val).
  { unfold calibrate, val.
    destruct Hk as (Hs & Ho & _). rewrite Hs, Ho. reflexivity. }
  rewrite Hval.
  assert (Hput : put_result timestamp_sample val (after_update_clipping raw g)
                 = put).
  { unfold put_result, put, counted. cbn.
    decompose [and] Hk. congruence. }
  rewrite Hput.
  assert (Hfs : _integrator_fifo_samples (after_update_clipping raw g)
                = _integrator_fifo_samples g)
    by (decompose [and] Hk; congruence).
  destruct put as [i [[da dt]|]]; cbn [fst snd].
  - cbn. split; [exact Hlast|]. split; [reflexivity|].
    split; [eexists; repeat split|]. repeat split.
  - cbn. repeat split; assumption.
Qed.

Lemma after_clipping_window (sample : FIFOSample.t) (clip_limit : Z)
  (g : PX4Gyroscope) :
  _timestamp_sample_prev (after_clipping sample clip_limit g)
  = _timestamp_sample_prev g
  /\ _integration_raw (after_clipping sample clip_limit g)
     = _integration_raw g
  /\ _last_sample (after_clipping sample clip_limit g) = _last_sample g.
Proof. repeat split. Qed.

Lemma timestamp_gap_prev (sample : FIFOSample.t) (g g' : PX4Gyroscope) :
  _timestamp_sample_prev g' = _timestamp_sample_prev g ->
  timestamp_gap sample g' = timestamp_gap sample g.
Proof. intros H. unfold timestamp_gap. rewrite H. reflexivity. Qed.

Lemma before_flush_sum (sample : FIFOSample.t) (clip_limit : Z)
  (g : PX4Gyroscope) :
  _integration_raw (before_flush sample clip_limit g) =
  Vec.add (if timestamp_gap sample g then Vec.zero else _integration_raw g)
          (contribution (_last_sample g) sample)
  /\ _last_sample (before_flush sample clip_limit g) = last_of sample.
Proof.
  unfold before_flush.
  destruct (after_clipping_window sample clip_limit g) as (Hp & Hr & Hl).
  rewrite <- (timestamp_gap_prev sample _ _ Hp).
  unfold after_gap_check.
  destruct (timestamp_gap sample (after_clipping sample clip_limit g));
    split; reflexivity.
Qed.

Lemma after_flush_last_sample (sample : FIFOSample.t) (g : PX4Gyroscope) :
  _last_sample (after_flush sample g) = _last_sample g.
Proof. unfold after_flush. destruct (integrator_ready g); reflexivity. Qed.

Lemma fifo_before_status_window (sample : FIFOSample.t) (clip_limit : Z) m :
  _last_sample (gyro (fifo_before_status sample clip_limit m))
  = last_of sample
  /\ _timestamp_sample_prev (gyro (fifo_before_status sample clip_limit m))
     = FIFOSample.timestamp_sample sample.
Proof.
  unfold fifo_before_status.
  cbn [gyro _last_sample _timestamp_sample_prev with_timestamp_sample_prev].
  rewrite after_flush_last_sample.
  split; [exact (proj2 (before_flush_sum sample clip_limit (gyro m)))|].
  reflexivity.
Qed.

Lemma batch_leaves (sample : FIFOSample.t) (clip_limit : Z) (m : Machine) :
  valid_batch sample ->
  F32.to_int16 (_clip_limit (gyro m)) = Some clip_limit ->
  exists m1 out1,
    updateFIFO sample m = (m1, out1, Ok tt)
    /\ _last_sample (gyro m1) = last_of sample
    /\ _timestamp_sample_prev (gyro m1) = FIFOSample.timestamp_sample sample
    /\ _integrator (gyro m1) = _integrator (gyro m)
    /\ _clip_limit (gyro m1) = _clip_limit (gyro m).
Proof.
  intros Hv Hlim.
  pose proof (updateFIFO_full sample clip_limit m Hv Hlim) as Hrun.
  cbv zeta in Hrun.
  destruct (PublishStatus_members (fifo_before_status sample clip_limit m))
    as (t & Hm1).
  destruct (fifo_before_status_keeps sample clip_limit m)
    as (Hcfg & _ & Hint).
  destruct (fifo_before_status_window sample clip_limit m) as (Hl & Hp).
  destruct Hcfg as (_ & _ & _ & _ & _ & Hclip & _).
  revert Hrun Hm1 Hint Hl Hp Hclip.
  generalize (PublishStatus (fifo_before_status sample clip_limit m)).
  generalize (fifo_before_status sample clip_limit m).
  intros before [[m1 o] r] Hrun Hm1 Hint Hl Hp Hclip.
  cbn [fst snd] in *.
  exists m1. eexists. split; [exact Hrun|].
  rewrite Hm1. repeat split; assumption.
Qed.

Lemma next_batch_sum (sample : FIFOSample.t) (clip_limit : Z) (m : Machine) :
  valid_batch sample ->
  F32.to_int16 (_clip_limit (gyro m)) = Some clip_limit ->
  snd (fifo_until_flush sample m) = Ok tt
  /\ _integration_raw (gyro (fst (fst (fifo_until_flush sample m)))) =
     Vec.add (if timestamp_gap sample (gyro m) then Vec.zero
              else _integration_raw (gyro m))
             (contribution (_last_sample (gyro m)) sample)
  /\ _last_sample (gyro (fst (fst (fifo_until_flush sample m))))
     = last_of sample.
Proof.
  intros Hv Hlim.
  rewrite (fifo_until_flush_Ok sample clip_limit m Hv Hlim).
  cbn [fst snd gyro]. split; [reflexivity|].
  exact (before_flush_sum sample clip_limit (gyro m)).
Qed.

(** X11. The trapezoid of a batch starts from the last sample of the
    batch before it, whatever happened in between. After any batch of 1
    to 16 samples [_last_sample] is that batch's last sample and
    [_timestamp_sample_prev] its timestamp, flushed or not, and the
    batch path leaves [_integrator] alone. On the next batch the sum
    before the flush check is the earlier sum, or zero when the gap check
    resets, plus the contribution computed from the previous batch's last
    sample: neither a flush nor a gap reset clears [_last_sample]. *)
Theorem X11_trapezoid_spans_batches
  (s1 s2 : FIFOSample.t) (clip_limit : Z) (m : Machine) :
  valid_batch s1 ->
  valid_batch s2 ->
  F32.to_int16 (_clip_limit (gyro m)) = Some clip_limit ->
  exists m1 out1,
    updateFIFO s1 m = (m1, out1, Ok tt)
    /\ _last_sample (gyro m1) = last_of s1
    /\ _timestamp_sample_prev (gyro m1) = FIFOSample.timestamp_sample s1
    /\ _integrator (gyro m1) = _integrator (gyro m)
    /\ let g2 := gyro (fst (fst (fifo_until_flush s2 m1))) in
       snd (fifo_until_flush s2 m1) = Ok tt
       /\ _integration_raw g2 =
          Vec.add (if timestamp_gap s2 (gyro m1) then Vec.zero
                   else _integration_raw (gyro m1))
                  (contribution (last_of s1) s2)
       /\ _last_sample g2 = last_of s2.
Proof.
  intros Hv1 Hv2 Hlim.
  destruct (batch_leaves s1 clip_limit m Hv1 Hlim)
    as (m1 & out1 & Hrun & Hlast & Hprev & Hint & Hclip).
  exists m1, out1. split; [exact Hrun|]. split; [exact Hlast|].
  split; [exact Hprev|]. split; [exact Hint|].
  rewrite <- Hclip in Hlim.
  destruct (next_batch_sum s2 clip_limit m1 Hv2 Hlim) as (Hok & Hsum & Hnew).
  rewrite Hlast in Hsum.
  cbv zeta. split; [exact Hok|]. split; [exact Hsum|exact Hnew].
Qed.

(** ** The clip limit *)

Lemma SFltb_leb_trans (x a b : spec_float) :
  SFltb x a = true -> SFleb a b = true -> SFltb x b = true.
Proof.
  unfold SFltb, SFleb, SFcompare.
  destruct x as [sx|sx| |sx mx ex], a as [sa|sa| |sa ma ea],
           b as [sb|sb| |sb mb eb];
    try destruct sx; try destruct sa; try destruct sb;
    try reflexivity; try discriminate.
  all: change (PosDef.Pos.compare_cont Eq) with Pos.compare;
    destruct (Z.compare_spec ex ea), (Z.compare_spec ea eb),
             (Z.compare_spec ex eb);
    try discriminate; try reflexivity; try lia; subst;
    destruct (Pos.compare_spec mx ma), (Pos.compare_spec ma mb),
             (Pos.compare_spec mx mb);
    cbn; try discriminate; try reflexivity; try lia.
Qed.

Lemma fmaxf_lower_bound (a b : F32.float) :
  b <> S754_nan ->
  F32.fmaxf a b <> S754_nan /\ SFltb (F32.fmaxf a b) b = false.
Proof.
  intros Hb.
  assert (Hbb : SFltb b b = false).
  { destruct (SFltb b b) eqn:H; [|reflexivity].
    rewrite (SFltb_asym _ _ H) in H. discriminate H. }
  destruct a as [sa|sa| |sa ma ea], b as [sb|sb| |sb mb eb];
    try contradiction; unfold F32.fmaxf;
    try (split; [discriminate|exact Hbb]);
    match goal with
    | |- context [if ?c then _ else _] => destruct c eqn:Hlt
    end;
    (split; [discriminate|first [exact Hbb|exact Hlt]]).
Qed.

(** X12. After [UpdateClipLimit] the limit is never NaN and never below
    [INT16_MAX], whatever [_range] and [_scale] are (zero, infinite and
    NaN included): [fmaxf] returns its second argument when the first is
    NaN or smaller. As [update] counts an axis only when its magnitude
    is greater than the limit, a rotated triplet whose magnitudes are at
    most [INT16_MAX] never changes a clip counter on that path. *)
Theorem X12_clip_limit_lower_bound (g : PX4Gyroscope) :
  let limit := _clip_limit (UpdateClipLimit g) in
  limit <> S754_nan
  /\ F32.ltb limit (F32.of_Z INT16_MAX) = false
  /\ (forall (timestamp_sample : Z) (x y z : F32.float) (m : Machine),
        _clip_limit (gyro m) = limit ->
        (forall i : Axis,
           SFleb (F32.fabsf
                    (get3 (rotate_3f (_rotation (gyro m)) (mk3 x y z)) i))
                 (F32.of_Z INT16_MAX) = true) ->
        exists m' out,
          update timestamp_sample x y z m = (m', out, Ok tt)
          /\ _clipping (gyro m') = _clipping (gyro m)
          /\ (reports out = [] ->
              _integrator_clipping (gyro m') = _integrator_clipping (gyro m))).
Proof.
  intros limit.
  assert (Hmax : F32.of_Z INT16_MAX <> S754_nan) by (vm_compute; discriminate).
  destruct (fmaxf_lower_bound
              (F32.mul (F32.div (_range g) (_scale g)) (F32.lit 999 1000))
              (F32.of_Z INT16_MAX) Hmax) as (Hnan & Hlow).
  change (F32.fmaxf _ _) with limit in Hnan, Hlow.
  split; [exact Hnan|]. split; [exact Hlow|].
  intros ts x y z m Hm Hraw.
  destruct (update_Ok ts x y z m) as (m' & status & t & Hrun & Hg & _ & Hr2).
  set (raw := rotate_3f (_rotation (gyro m)) (mk3 x y z)) in *.
  assert (Hax : forall i g0, _clip_limit g0 = limit -> clip_axis raw i g0 = g0).
  { intros i g0 H0. unfold clip_axis, F32.gtb. rewrite H0.
    destruct (SFltb limit (F32.fabsf (get3 raw i))) eqn:Hlt; [|reflexivity].
    rewrite (SFltb_leb_trans _ _ _ Hlt (Hraw i)) in Hlow. discriminate Hlow. }
  assert (Hsame : after_update_clipping raw (gyro m) = gyro m).
  { unfold after_update_clipping.
    rewrite (Hax AX) by exact Hm. rewrite (Hax AY) by exact Hm.
    apply Hax. exact Hm. }
  rewrite Hsame in Hrun, Hg.
  eexists m', _. split; [exact Hrun|].
  rewrite Hg. unfold after_update_integrate, update_integrate_out.
  destruct (snd (put_result ts _ _)) as [[da dt]|].
  - split; [reflexivity|]. intros Hrep. discriminate Hrep.
  - split; reflexivity.
Qed.

(** ** The update rate *)

Lemma set_update_rate_eq (rate : Z) (m : Machine) :
  rate <> 0 ->
  wrap 32 (1000000 / rate) <> 0 ->
  set_update_rate rate m =
  (on_gyro (fun g =>
      with_integrator_reset_samples
        (wrap integrator_reset_samples_bits
           (4000 / wrap 32 (1000000 / rate)))
        (with_update_rate rate g)) m, [], Ok tt).
Proof.
  intros Hr Hi. unfold set_update_rate. rewrite bind_modify.
  apply Z.eqb_neq in Hr, Hi. rewrite Hr, Hi.
  rewrite !bind_ret. unfold modify, on_gyro. reflexivity.
Qed.

Lemma update_interval_bounds (rate : Z) :
  1 <= rate <= 65535 -> 15 <= 1000000 / rate <= 1000000.
Proof.
  intros Hrate. split.
  - apply Z.div_le_lower_bound; lia.
  - apply Z.div_le_upper_bound; lia.
Qed.

Lemma set_update_rate_Ok (rate : Z) (m : Machine) :
  1 <= rate <= 65535 ->
  set_update_rate rate m =
  (on_gyro (fun g =>
      with_integrator_reset_samples
        (wrap integrator_reset_samples_bits (4000 / (1000000 / rate)))
        (with_update_rate rate g)) m, [], Ok tt).
Proof.
  intros Hrate. pose proof (update_interval_bounds rate Hrate) as Hi.
  assert (Hw : wrap 32 (1000000 / rate) = 1000000 / rate)
    by (apply wrap_small; lia).
  rewrite set_update_rate_eq; [rewrite Hw; reflexivity|lia|rewrite Hw; lia].
Qed.

(** No whole update interval fits in 4000 microseconds exactly when the
    rate is below 250 Hz. *)
Lemma whole_intervals_zero (rate : Z) :
  1 <= rate <= 65535 -> (4000 / (1000000 / rate) = 0 <-> rate < 250).
Proof.
  intros Hrate. pose proof (update_interval_bounds rate Hrate) as Hi.
  pose proof (Z.div_mod 1000000 rate ltac:(lia)) as Hd.
  pose proof (Z.mod_pos_bound 1000000 rate ltac:(lia)) as Hm.
  set (update_interval := 1000000 / rate) in *.
  pose proof (Z.div_mod 4000 update_interval ltac:(lia)) as Hd'.
  pose proof (Z.mod_pos_bound 4000 update_interval ltac:(lia)) as Hm'.
  split.
  - intros H0. rewrite H0 in Hd'. nia.
  - intros Hlt. apply Z.div_small. nia.
Qed.

(** X13. For a rate of 1 to 65535 Hz [set_update_rate] returns, stores
    the rate, and sets the flush threshold [_integrator_reset_samples] to
    [n = 4000 / (1000000 / rate)] in integer arithmetic, cut to the width
    of the member; every other member is as before. [n] is the number of
    whole update intervals in 4000 microseconds: it is at most 266, it is
    zero exactly for rates below 250 Hz, and the second division is
    never by zero. *)
Theorem X13_set_update_rate (rate : Z) (m : Machine) :
  1 <= rate <= 65535 ->
  let update_interval := 1000000 / rate in
  let n := 4000 / update_interval in
  exists m',
    set_update_rate rate m = (m', [], Ok tt)
    /\ gyro m' =
       with_integrator_reset_samples (wrap integrator_reset_samples_bits n)
         (with_update_rate rate (gyro m))
    /\ clock_reads m' = clock_reads m
    /\ 15 <= update_interval <= 1000000
    /\ n * update_interval <= 4000 < (n + 1) * update_interval
    /\ 0 <= n <= 266
    /\ (n = 0 <-> rate < 250).
Proof.
  intros Hrate update_interval n.
  pose proof (update_interval_bounds rate Hrate) as Hi.
  fold update_interval in Hi.
  eexists. split; [apply set_update_rate_Ok; exact Hrate|].
  split; [reflexivity|]. split; [reflexivity|]. split; [exact Hi|].
  assert (Hn : n * update_interval <= 4000 < (n + 1) * update_interval).
  { unfold n. pose proof (Z.div_mod 4000 update_interval ltac:(lia)) as Hd.
    pose proof (Z.mod_pos_bound 4000 update_interval ltac:(lia)) as Hm.
    nia. }
  split; [exact Hn|].
  assert (Hn0 : 0 <= n) by (unfold n; apply Z.div_pos; lia).
  split; [nia|].
  exact (whole_intervals_zero rate Hrate).
Qed.

(** X14. A rate of zero is not rejected: [set_update_rate] stores it in
    [_update_rate] and then divides by it, which is undefined. Nothing
    is published and [_integrator_reset_samples] is not written. *)
Theorem X14_set_update_rate_zero (m : Machine) :
  set_update_rate 0 m
  = (on_gyro (with_update_rate 0) m, [], UB division_by_zero)
  /\ _integrator_reset_samples (gyro (fst (fst (set_update_rate 0 m))))
     = _integrator_reset_samples (gyro m).
Proof.
  assert (H : set_update_rate 0 m
              = (on_gyro (with_update_rate 0) m, [], UB division_by_zero)).
  { unfold set_update_rate. rewrite bind_modify. reflexivity. }
  split; [exact H|]. rewrite H. reflexivity.
Qed.


End MoreProperties.

(** * Properties of [ioctl] *)

Section ControlProperties.

Context {E : Externals} {C : IoctlCodes}.

Lemma int_of_uint32_cases (n : Z) :
  (0 <= n < 2 ^ 31 -> int_of_uint32 n = n)
  /\ (2 ^ 31 <= n < 2 ^ 32 -> int_of_uint32 n = n - 2 ^ 32).
Proof.
  unfold int_of_uint32. split; intros H;
    rewrite wrap_small by lia;
    [ destruct (Z.ltb_spec n (2 ^ 31)) | destruct (Z.ltb_spec n (2 ^ 31)) ];
    lia.
Qed.

(** X16. [ioctl] never publishes, never reads the clock and always
    returns. With [GYROIOCSSCALE] it returns [PX4_OK] and replaces
    [_calibration_offset] by the three offsets of the argument; no other
    member changes, [_scale] included, although the command is named for
    the scale. With any other command no member changes:
    [DEVIOCGDEVICEID] returns [_device_id] converted to [int], which is
    negative for an id of [2^31] or more, and every remaining command
    returns [-ENOTTY]. *)
Theorem X16_ioctl (cmd : Z) (arg : gyro_calibration_s.t) (m : Machine) :
  let offsets :=
    mk3 (gyro_calibration_s.x_offset arg) (gyro_calibration_s.y_offset arg)
        (gyro_calibration_s.z_offset arg) in
  exists (r : Z) (g' : PX4Gyroscope),
    ioctl cmd arg m = (mkMachine g' (clock_reads m), [], Ok r)
    /\ (cmd = GYROIOCSSCALE ->
        r = PX4_OK
        /\ g' = with_calibration_offset offsets (gyro m)
        /\ _scale g' = _scale (gyro m))
    /\ (cmd <> GYROIOCSSCALE ->
        g' = gyro m
        /\ (cmd = DEVIOCGDEVICEID ->
            r = int_of_uint32 (_device_id (gyro m))
            /\ (0 <= _device_id (gyro m) < 2 ^ 31 -> r = _device_id (gyro m))
            /\ (2 ^ 31 <= _device_id (gyro m) < 2 ^ 32 -> r < 0))
        /\ (cmd <> DEVIOCGDEVICEID -> r = - ENOTTY)).
Proof.
  intros offsets. unfold ioctl.
  destruct (Z.eqb_spec cmd GYROIOCSSCALE) as [Hs|Hs].
  - eexists _, _. rewrite bind_modify.
    split; [reflexivity|]. split; [|intros Hn; contradiction].
    intros _. repeat split.
  - destruct (Z.eqb_spec cmd DEVIOCGDEVICEID) as [Hd|Hd].
    + exists (int_of_uint32 (_device_id (gyro m))), (gyro m).
      rewrite bind_this.
      split; [destruct m; reflexivity|].
      split; [intros Habs; contradiction|].
      intros _. split; [reflexivity|]. split; [|intros Hn; contradiction].
      intros _. split; [reflexivity|].
      destruct (int_of_uint32_cases (_device_id (gyro m))) as (Hlo & Hhi).
      split; [exact Hlo|]. intros Hr. rewrite (Hhi Hr). lia.
    + exists (- ENOTTY), (gyro m). split; [destruct m; reflexivity|].
      split; [intros Habs; contradiction|].
      intros _. split; [reflexivity|]. split; [intros Habs; contradiction|].
      intros _. reflexivity.
Qed.

(** X17. The offsets set through [ioctl] take effect on the next
    reading: after [GYROIOCSSCALE], [update] publishes the rotated input
    multiplied by the unchanged [_scale] and reduced by the new offsets,
    and the offsets stay in place after the call. *)
Theorem X17_calibration_takes_effect
  (arg : gyro_calibration_s.t) (timestamp_sample : Z) (x y z : F32.float)
  (m : Machine) :
  let offsets :=
    mk3 (gyro_calibration_s.x_offset arg) (gyro_calibration_s.y_offset arg)
        (gyro_calibration_s.z_offset arg) in
  exists m1 m' out r,
    ioctl GYROIOCSSCALE arg m = (m1, [], Ok PX4_OK)
    /\ update timestamp_sample x y z m1 = (m', out, Ok tt)
    /\ readings out = [r]
    /\ mk3 (sensor_gyro_s.x r) (sensor_gyro_s.y r) (sensor_gyro_s.z r) =
       Vec.sub
         (Vec.scale (rotate_3f (_rotation (gyro m)) (mk3 x y z))
                    (_scale (gyro m)))
         offsets
    /\ _calibration_offset (gyro m') = offsets.
Proof.
  intros offsets. unfold ioctl. rewrite Z.eqb_refl, bind_modify.
  fold offsets.
  set (m1 := mkMachine (with_calibration_offset offsets (gyro m))
                       (clock_reads m)).
  exists m1. rewrite update_full. eexists _, _, _.
  split; [reflexivity|]. split; [reflexivity|].
  destruct (PublishStatus_members
              (update_before_status timestamp_sample x y z m1)) as (t & ->).
  destruct (PublishStatus_body
              (update_before_status timestamp_sample x y z m1))
    as (Hrd & _).
  change (readings (?a :: ?b)) with (readings [a] ++ readings b).
  rewrite !readings_app, Hrd, app_nil_r.
  change (_rotation (gyro m1)) with (_rotation (gyro m)).
  set (raw := rotate_3f (_rotation (gyro m)) (mk3 x y z)).
  pose proof (after_update_clipping_keeps raw (gyro m1))
    as (Hs & Ho & _).
  destruct (update_before_status_keeps timestamp_sample x y z m1)
    as (Hcfg & _).
  destruct Hcfg as (_ & _ & _ & _ & _ & _ & _ & _ & Hoff & _).
  assert (Hro : readings
                  (update_integrate_out timestamp_sample
                     (calibrate (after_update_clipping raw (gyro m1)) raw)
                     (after_update_clipping raw (gyro m1)) (time (tick m1)))
                = []).
  { unfold update_integrate_out.
    destruct (snd (put_result _ _ _)) as [[da dt]|]; reflexivity. }
  rewrite Hro, app_nil_r.
  split; [reflexivity|]. split.
  - cbn [readings flat_map app reading sensor_gyro_s.x sensor_gyro_s.y
         sensor_gyro_s.z].
    fold raw. unfold calibrate. rewrite Hs, Ho.
    unfold Vec.sub, Vec.scale, zip3, map3. reflexivity.
  - cbn [_calibration_offset with_status_last_publish].
    rewrite Hoff. reflexivity.
Qed.

End ControlProperties.
(** * Runs on the concrete firmware *)

Ltac by_computation :=
  vm_compute;
  first [ reflexivity
        | let H := fresh in intro H; discriminate H
        | repeat split; first [ reflexivity
                              | let H := fresh in intro H; discriminate H ] ].

(** The literals of the source as binary32 numbers. *)
Example literal_0_999 : F32.lit 999 1000 = S754_finite false 16760439 (-24).
Proof. reflexivity. Qed.

Example literal_1e_6 : F32.lit 1 1000000 = S754_finite false 8796093 (-43).
Proof. reflexivity. Qed.

Example literal_0_5 : F32.lit 1 2 = S754_finite false 8388608 (-24).
Proof. reflexivity. Qed.

(** Four batches of four samples of 100 counts, 1000 microseconds apart,
    at scale 1 and a flush every fourth batch: each reading is 100, and
    the flush reports the 16 samples with the delta angle
    [(50 + 300 + 3 * 400) * 1e-6f * 1000], about 1.55. *)
Example four_constant_batches :
  let b t := call_updateFIFO (constant_batch t 4 (F32.of_Z 1000) 100) in
  let out :=
    published (run [b 4000; b 8000; b 12000; b 16000])
              (boot 100 ROTATION_NONE 4) in
  map sensor_gyro_s.x (readings out)
  = [F32.of_Z 100; F32.of_Z 100; F32.of_Z 100; F32.of_Z 100]
  /\ map sensor_gyro_integrated_s.samples (reports out) = [16]
  /\ map (fun r => t0 (sensor_gyro_integrated_s.delta_angle r)) (reports out)
     = [F32.mul (F32.of_Z 1550) (F32.mul (F32.lit 1 1000000) (F32.of_Z 1000))].
Proof. vm_compute. repeat split; reflexivity. Qed.



(** With the orientation [ROTATION_YAW_90], a batch of one sample
    [(2, 0, 0)] adds [0.5 * (0 + 2) = 1] to the x axis of the sum; taken
    over the rotated sample [(0, 2, 0)] the contribution would go to
    the y axis. *)
Lemma C2_rotated_contribution_counterexample :
  let m := boot 100 ROTATION_YAW_90 4 in
  let sample :=
    FIFOSample.mk 4000 1 (F32.of_Z 1000)
      (repeat 2 16) (repeat 0 16) (repeat 0 16) in
  let m' := machine_after (updateFIFO sample) m in
  valid_batch sample
  /\ reports (published (updateFIFO sample) m) = []
  /\ _integration_raw (gyro m') = mk3 (F32.of_Z 1) F32.zero F32.zero
  /\ Vec.add (_integration_raw (gyro m))
       (@spec_rotated_contribution (firmware 100) (_rotation (gyro m))
          (_last_sample (gyro m)) sample)
     = mk3 F32.zero (F32.of_Z 1) F32.zero
  /\ _integration_raw (gyro m')
     <> Vec.add (_integration_raw (gyro m))
          (@spec_rotated_contribution (firmware 100) (_rotation (gyro m))
             (_last_sample (gyro m)) sample).
Proof. by_computation. Defined.

Lemma C2_trapezoid_on_raw_samples_witness :
  let m := boot 100 ROTATION_YAW_90 4 in
  let sample :=
    FIFOSample.mk 4000 1 (F32.of_Z 1000)
      (repeat 2 16) (repeat 0 16) (repeat 0 16) in
  exists m',
    fifo_integrate sample m = (m', [], Ok tt)
    /\ _last_sample (gyro m') = mk3 2 0 0.
Proof.
  intros m sample.
  destruct (C2_trapezoid_on_raw_samples sample m ltac:(by_computation))
    as (m' & Hrun & _ & Hlast).
  exists m'. split; [exact Hrun|]. rewrite Hlast. reflexivity.
Defined.

(** One [update] leaves [_timestamp_sample_prev] at zero and the sample
    count at one; the batch that follows at time 10000 resets the
    window although the previous timestamp is zero. *)
Lemma C3_gap_reset_counterexample :
  let m :=
    machine_after (update 1000 F32.zero F32.zero F32.zero)
                  (boot 100 ROTATION_NONE 4) in
  let sample := constant_batch 10000 1 (F32.of_Z 1000) 5 in
  _timestamp_sample_prev (gyro m) = 0
  /\ _integrator_samples (gyro m) = 1
  /\ spec_gap_condition sample (gyro m) = false
  /\ timestamp_gap sample (gyro m) = true
  /\ snd (fifo_gap_check sample m) = Ok tt
  /\ published (fifo_gap_check sample) m = []
  /\ _integrator_samples (gyro (machine_after (fifo_gap_check sample) m)) = 0.
Proof. by_computation. Defined.

Lemma C3_gap_reset_witness :
  let m :=
    machine_after (update 1000 F32.zero F32.zero F32.zero)
                  (boot 100 ROTATION_NONE 4) in
  let sample := constant_batch 10000 1 (F32.of_Z 1000) 5 in
  exists m' m'',
    fifo_gap_check sample m = (m', [], Ok tt)
    /\ gyro m' = ResetIntegrator (gyro m)
    /\ fifo_integrate sample m' = (m'', [], Ok tt)
    /\ _integrator_samples (gyro m'') = 1.
Proof.
  intros m sample.
  destruct (C3_gap_reset sample m) as (m' & Hrun & Hreset & _ & Hfresh & _).
  assert (Hgap :
    FIFOSample.timestamp_sample sample > _timestamp_sample_prev (gyro m)
    /\ F32.gtb
         (F32.of_Z (wrap hrt_abstime_bits
            (FIFOSample.timestamp_sample sample
             - _timestamp_sample_prev (gyro m))))
         (F32.mul (F32.mul (F32.of_Z (batch_size sample))
                           (FIFOSample.dt sample)) (F32.of_Z 2)) = true)
    by by_computation.
  destruct (Hfresh Hgap ltac:(by_computation)) as (m'' & Hint & Hn & _).
  exists m', m''. split; [exact Hrun|]. split; [exact (Hreset Hgap)|].
  split; [exact Hint|]. rewrite Hn. reflexivity.
Defined.

(** A single sample exactly at the limit 32767 is not counted by
    [update] and is counted by [updateFIFO]; with [ROTATION_YAW_90] a
    single sample that exceeds the limit on x is counted on y. *)
Lemma C4_clipping_counterexample :
  let at_limit := FIFOSample.mk 1000 1 (F32.of_Z 1000)
                    (repeat 32767 16) (repeat 0 16) (repeat 0 16) in
  let m := boot 100 ROTATION_NONE 4 in
  let turned := boot 100 ROTATION_YAW_90 4 in
  _clip_limit (gyro m) = F32.of_Z 32767
  /\ _clipping (gyro (machine_after
                        (update 1000 (F32.of_Z 32767) F32.zero F32.zero) m))
     = mk3 0 0 0
  /\ _clipping (gyro (machine_after (updateFIFO at_limit) m)) = mk3 1 0 0
  /\ _clipping (gyro (machine_after
                        (update 1000 (F32.of_Z 32768) F32.zero F32.zero)
                        turned))
     = mk3 0 1 0.
Proof. by_computation. Defined.

Lemma C4_clipping_on_both_paths_witness :
  let at_limit := FIFOSample.mk 1000 1 (F32.of_Z 1000)
                    (repeat 32767 16) (repeat 0 16) (repeat 0 16) in
  let m := boot 100 ROTATION_NONE 4 in
  exists m',
    fifo_clipping at_limit m = (m', [], Ok tt)
    /\ _clipping (gyro m') = mk3 1 0 0
    /\ _integrator_clipping (gyro m') = 1.
Proof.
  intros at_limit m.
  destruct (proj1 C4_clipping_on_both_paths at_limit 32767 m
              ltac:(by_computation) ltac:(by_computation))
    as (m' & Hrun & Hc & Hw).
  exists m'. split; [exact Hrun|]. rewrite Hc, Hw. split; reflexivity.
Defined.

(** A batch with no sample publishes a reading and counts the call
    before the read at index -1. *)
Lemma C5_empty_batch_counterexample :
  let sample := constant_batch 5000 0 (F32.of_Z 1000) 100 in
  let m := boot 100 ROTATION_NONE 4 in
  length (published (updateFIFO sample) m) = 1%nat
  /\ length (readings (published (updateFIFO sample) m)) = 1%nat
  /\ _integrator_samples (gyro m) = 0
  /\ _integrator_samples (gyro (machine_after (updateFIFO sample) m)) = 1
  /\ snd (updateFIFO sample m) = UB (out_of_bounds (-1)).
Proof. by_computation. Defined.

Lemma C5_empty_batch_not_rejected_witness :
  let sample := constant_batch 5000 0 (F32.of_Z 1000) 100 in
  let m := boot 100 ROTATION_NONE 4 in
  exists m' r u,
    updateFIFO sample m = (m', [sensor_pub r], UB u)
    /\ u = out_of_bounds (-1).
Proof.
  intros sample m.
  destruct (C5_empty_batch_not_rejected sample m ltac:(by_computation))
    as (_ & m' & u & Hrun & Hu).
  eexists m', _, u. split; [exact Hrun|].
  apply (Hu 32767). by_computation.
Defined.

Lemma C6_one_calibrated_reading_witness :
  let sample := constant_batch 4000 4 (F32.of_Z 1000) 100 in
  let m := boot 100 ROTATION_NONE 1 in
  exists m' out r,
    updateFIFO sample m = (m', out, Ok tt)
    /\ readings out = [r]
    /\ sensor_gyro_s.x r = F32.of_Z 100.
Proof.
  intros sample m.
  destruct (proj2 C6_one_calibrated_reading sample m ltac:(by_computation))
    as (m' & out & res & r & Hrun & Hread & Hval & Hres).
  rewrite (Hres 32767 ltac:(by_computation)) in Hrun.
  exists m', out, r. split; [exact Hrun|]. split; [exact Hread|].
  apply (f_equal t0) in Hval. cbn [t0] in Hval. rewrite Hval.
  by_computation.
Defined.



Lemma C8_clip_counters_witness :
  let clipped := constant_batch 4000 3 (F32.of_Z 1000) 32767 in
  let m := boot 100 ROTATION_NONE 2 in
  let cs := [call_update 1000 (F32.of_Z 40000) F32.zero F32.zero;
             call_updateFIFO clipped] in
  let c := call_updateFIFO clipped in
  exists m1 o1 m2 o2,
    run cs m = (m1, o1, Ok tt)
    /\ call c m1 = (m2, o2, Ok tt)
    /\ get3 (_clipping (gyro m1)) AX = 4
    /\ get3 (_clipping (gyro m2)) AX = 7.
Proof.
  intros clipped m cs c.
  assert (Hin : forall i,
    0 <= get3 (_clipping (gyro m)) i < 2 ^ @clipping_bits (firmware 100))
    by (intros i; destruct i; by_computation).
  assert (Hcs : Forall valid_call cs)
    by (repeat constructor; by_computation).
  destruct (C8_clip_counters cs c 32767 m Hcs
              ltac:(by_computation) ltac:(by_computation) Hin)
    as (m1 & o1 & m2 & o2 & Hrun1 & Hrun2 & Hcount & _).
  exists m1, o1, m2, o2. split; [exact Hrun1|]. split; [exact Hrun2|].
  destruct (Hcount AX) as (H1 & H2 & _). rewrite H2, H1.
  split; reflexivity.
Defined.

(** A lifetime counter of 32 bits at its greatest value: one [update]
    with a clipped x axis is defined and leaves the counter at zero. *)
Lemma C8_counter_wraps_counterexample :
  let m := on_gyro (with_clipping (mk3 4294967295 0 0))
                   (boot 100 ROTATION_NONE 4) in
  let m' := machine_after
              (update 1000 (F32.of_Z 40000) F32.zero F32.zero) m in
  snd (update 1000 (F32.of_Z 40000) F32.zero F32.zero m) = Ok tt
  /\ get3 (_clipping (gyro m)) AX = 4294967295
  /\ get3 (_clipping (gyro m')) AX = 0
  /\ get3 (_clipping (gyro m')) AX < get3 (_clipping (gyro m)) AX.
Proof. by_computation. Defined.

(** With scale zero and range 35 the clip limit is plus infinity. *)
Lemma C9_infinite_clip_limit_counterexample :
  let g := with_scale F32.zero (fresh 100 ROTATION_NONE 4) in
  _scale g = F32.zero
  /\ _range g = F32.of_Z 35
  /\ F32.div (_range g) (_scale g) = S754_infinity false
  /\ _clip_limit (UpdateClipLimit g) = S754_infinity false.
Proof. by_computation. Defined.

Lemma C9_clip_limit_at_zero_scale_witness :
  let g := with_scale F32.zero (fresh 100 ROTATION_NONE 4) in
  _clip_limit (UpdateClipLimit g) = F32.pinf.
Proof.
  intros g.
  destruct (C9_clip_limit_at_zero_scale g false ltac:(by_computation))
    as (_ & Hinf).
  apply Hinf. by_computation.
Defined.



(** * Runs of the further properties *)

(** Sixteen samples of 100 counts: the first four add up to 400, and a
    length of 17 leaves the array. *)
Lemma X1_sum_within_and_beyond_the_array_witness :
  let samples := repeat 100 16 in
  let m := boot 100 ROTATION_NONE 4 in
  sum samples 4 m = (m, [], Ok 400)
  /\ sum samples 17 m = (m, [], UB (out_of_bounds 16)).
Proof.
  intros samples m.
  destruct (X1_sum_within_and_beyond_the_array samples 4 m
              ltac:(reflexivity) ltac:(repeat constructor; lia))
    as (Hin & _).
  destruct (X1_sum_within_and_beyond_the_array samples 17 m
              ltac:(reflexivity) ltac:(repeat constructor; lia))
    as (_ & Hout).
  split; [exact (proj1 (Hin ltac:(lia)))|exact (Hout ltac:(lia))].
Defined.

(** Three samples at the limit are all counted. *)
Lemma X2_clipping_count_bounds_witness :
  let samples := repeat 32767 16 in
  let m := boot 100 ROTATION_NONE 4 in
  clipping samples 32767 3 m = (m, [], Ok 3).
Proof.
  intros samples m.
  destruct (X2_clipping_count_bounds samples 32767 3 m ltac:(reflexivity))
    as (Hin & _).
  destruct (Hin ltac:(lia)) as (n & Hrun & _ & Hall & _).
  rewrite Hrun, Hall; [reflexivity|].
  intros v Hv. cbn in Hv. destruct Hv as [<-|[<-|[<-|[]]]]; lia.
Defined.

(** A batch that announces 17 samples. *)
Lemma X3_oversized_batch_witness :
  let sample := constant_batch 4000 17 (F32.of_Z 1000) 100 in
  let m := boot 100 ROTATION_NONE 4 in
  updateFIFO sample m = (m, [], UB (out_of_bounds 16)).
Proof.
  intros sample m.
  exact (X3_oversized_batch sample m ltac:(reflexivity) ltac:(by_computation)).
Defined.

(** The echo of a batch of four samples of 100 counts. *)
Lemma X4_batch_echo_witness :
  let sample := constant_batch 4000 4 (F32.of_Z 1000) 100 in
  let m := boot 100 ROTATION_NONE 4 in
  exists m' out e,
    updateFIFO sample m = (m', out, Ok tt)
    /\ echoes out = [e]
    /\ sensor_gyro_fifo_s.samples e = 4
    /\ sensor_gyro_fifo_s.x e
       = [100; 100; 100; 100; 0; 0; 0; 0; 0; 0; 0; 0; 0; 0; 0; 0].
Proof.
  intros sample m.
  destruct (X4_batch_echo sample 32767 m
              ltac:(by_computation) ltac:(by_computation))
    as (m' & out & e & Hrun & He & _ & _ & _ & _ & HN & Hx & _).
  exists m', out, e. split; [exact Hrun|]. split; [exact He|].
  split; [exact HN|]. rewrite Hx. reflexivity.
Defined.

(** The first batch after boot with a flush at every batch publishes on
    all four topics. *)
Lemma X5_order_of_publications_witness :
  let sample := constant_batch 4000 4 (F32.of_Z 1000) 100 in
  let m := boot 100 ROTATION_NONE 1 in
  exists m' out,
    updateFIFO sample m = (m', out, Ok tt)
    /\ map topic_of out
       = [sensor_gyro; sensor_gyro_integrated; sensor_gyro_fifo;
          sensor_gyro_status].
Proof.
  intros sample m.
  destruct (proj1 X5_order_of_publications sample 32767 m
              ltac:(by_computation) ltac:(by_computation))
    as (m' & out & Hrun & Hmap).
  exists m', out. split; [exact Hrun|]. rewrite Hmap. by_computation.
Defined.

Lemma X6_status_is_a_snapshot_witness :
  let c := call_updateFIFO (constant_batch 4000 4 (F32.of_Z 1000) 100) in
  let m := boot 100 ROTATION_NONE 4 in
  exists m' out,
    call c m = (m', out, Ok tt)
    /\ (statuses out
        = [status_of (gyro m') (_status_last_publish (gyro m'))]
        \/ (statuses out = []
            /\ _status_last_publish (gyro m')
               = _status_last_publish (gyro m))).
Proof.
  intros c m.
  exact (X6_status_is_a_snapshot c 32767 m
           ltac:(by_computation) ltac:(by_computation)).
Defined.

(** One single reading and one batch with [dt] 1000, on a raw sample
    counter of 8 bits and a [dt] field of 32 bits without sign: every
    product of a counter value and 1000 converts. *)
Lemma X7_runs_are_defined_witness :
  let cs := [call_update 1000 (F32.of_Z 40000) F32.zero F32.zero;
             call_updateFIFO (constant_batch 4000 4 (F32.of_Z 1000) 100)] in
  let m := boot 100 ROTATION_NONE 4 in
  let uint32 n := 0 <= n < 2 ^ 32 in
  exists m' out,
    run cs m = (m', out, Ok tt)
    /\ Forall (report_dt_defined uint32) (reports out)
    /\ length (readings out) = 2%nat
    /\ length (echoes out) = 1%nat.
Proof.
  intros cs m uint32.
  assert (Hall : forallb
            (fun i =>
               match F32.trunc (F32.mul (F32.of_Z (Z.of_nat i))
                                        (F32.of_Z 1000)) with
               | Some n => (0 <=? n) && (n <? 2 ^ 32)
               | None => false
               end) (seq 0 256) = true)
    by (vm_compute; reflexivity).
  assert (Hdt : Forall (@convertible_dt (firmware 100) uint32) cs).
  { repeat constructor. intros k Hk.
    change (2 ^ @integrator_fifo_samples_bits (firmware 100)) with 256 in Hk.
    rewrite forallb_forall in Hall.
    specialize (Hall (Z.to_nat k) ltac:(apply in_seq; lia)).
    rewrite Z2Nat.id in Hall by lia.
    change (FIFOSample.dt (constant_batch 4000 4 (F32.of_Z 1000) 100))
      with (F32.of_Z 1000).
    unfold float_to_integer_defined.
    destruct (F32.trunc (F32.mul (F32.of_Z k) (F32.of_Z 1000))) as [n|];
      [|discriminate Hall].
    exists n. split; [reflexivity|].
    apply andb_true_iff in Hall. destruct Hall as (H0 & H1).
    apply Z.leb_le in H0. apply Z.ltb_lt in H1. split; assumption. }
  destruct (X7_runs_are_defined uint32 cs 32767 m
              ltac:(repeat constructor; by_computation)
              ltac:(by_computation) ltac:(by_computation) Hdt)
    as (m' & out & Hrun & Hconv & _ & Hr & He & _).
  exists m', out. split; [exact Hrun|]. split; [exact Hconv|].
  split; [exact Hr|exact He].
Defined.

(** Four batches in a row on a clock that advances 10 microseconds per
    reading: the status messages of the run are 100 ms apart. *)
Lemma X8_status_rate_limit_witness :
  let b t := call_updateFIFO (constant_batch t 4 (F32.of_Z 1000) 100) in
  let cs := [b 4000; b 8000; b 12000; b 16000] in
  let m := boot 100 ROTATION_NONE 4 in
  exists m' out,
    run cs m = (m', out, Ok tt)
    /\ spaced 0 (map sensor_gyro_status_s.timestamp (statuses out)).
Proof.
  intros b cs m.
  assert (Hmono : forall j k : nat, (j <= k)%nat ->
            @hrt_absolute_time_at (firmware 100) j
            <= @hrt_absolute_time_at (firmware 100) k)
    by (intros j k Hjk;
        change (1000000 + 10 * Z.of_nat j <= 1000000 + 10 * Z.of_nat k);
        lia).
  exact (X8_status_rate_limit cs 32767 m
           ltac:(repeat constructor; by_computation)
           ltac:(by_computation) Hmono
           ltac:(by_computation) ltac:(by_computation)).
Defined.

Lemma X9_vibration_follows_reports_witness :
  let c := call_updateFIFO (constant_batch 4000 4 (F32.of_Z 1000) 100) in
  let m := boot 100 ROTATION_NONE 1 in
  exists m' out r,
    call c m = (m', out, Ok tt)
    /\ reports out = [r]
    /\ _delta_angle_prev (gyro m') = sensor_gyro_integrated_s.delta_angle r.
Proof.
  intros c m.
  destruct (X9_vibration_follows_reports c 32767 m
              ltac:(by_computation) ltac:(by_computation))
    as (m' & out & Hrun & [(Hnone & _)|(r & Hr & Hd & _)]).
  - exfalso.
    assert (Hout : published (call c) m = out)
      by (unfold published; rewrite Hrun; reflexivity).
    rewrite <- Hout in Hnone. revert Hnone. by_computation.
  - exists m', out, r. split; [exact Hrun|]. split; [exact Hr|exact Hd].
Defined.

(** Two batches 4000 microseconds apart. *)
Lemma X11_trapezoid_spans_batches_witness :
  let s1 := constant_batch 4000 4 (F32.of_Z 1000) 100 in
  let s2 := constant_batch 8000 4 (F32.of_Z 1000) 300 in
  let m := boot 100 ROTATION_NONE 4 in
  exists m1 out1,
    updateFIFO s1 m = (m1, out1, Ok tt)
    /\ _last_sample (gyro m1) = mk3 100 100 100
    /\ _timestamp_sample_prev (gyro m1) = 4000.
Proof.
  intros s1 s2 m.
  destruct (X11_trapezoid_spans_batches s1 s2 32767 m
              ltac:(by_computation) ltac:(by_computation)
              ltac:(by_computation))
    as (m1 & out1 & Hrun & Hlast & Hprev & _).
  exists m1, out1. split; [exact Hrun|]. split; [exact Hlast|exact Hprev].
Defined.

(** A triplet of 30000 counts on each axis after [UpdateClipLimit] at
    range 35 and scale 1. *)
Lemma X12_clip_limit_lower_bound_witness :
  let m := boot 100 ROTATION_NONE 4 in
  let v := F32.of_Z 30000 in
  exists m' out,
    update 1000 v v v m = (m', out, Ok tt)
    /\ _clipping (gyro m') = mk3 0 0 0.
Proof.
  intros m v.
  destruct (X12_clip_limit_lower_bound (fresh 100 ROTATION_NONE 4))
    as (_ & _ & Hup).
  destruct (Hup 1000 v v v m ltac:(by_computation)
              ltac:(intros i; destruct i; by_computation))
    as (m' & out & Hrun & Hclip & _).
  exists m', out. split; [exact Hrun|]. rewrite Hclip. reflexivity.
Defined.

(** At 1000 Hz the threshold is four calls. *)
Lemma X13_set_update_rate_witness :
  let m := boot 100 ROTATION_NONE 0 in
  exists m',
    set_update_rate 1000 m = (m', [], Ok tt)
    /\ _update_rate (gyro m') = 1000
    /\ _integrator_reset_samples (gyro m') = 4.
Proof.
  intros m.
  destruct (X13_set_update_rate 1000 m ltac:(lia))
    as (m' & Hrun & Hg & _).
  exists m'. split; [exact Hrun|]. rewrite Hg. split; reflexivity.
Defined.


(** The device id 7 read back through [ioctl]. *)
Lemma X16_ioctl_witness :
  let m := boot 100 ROTATION_NONE 4 in
  let arg := gyro_calibration_s.mk F32.zero F32.zero F32.zero in
  exists r g',
    @ioctl (firmware 100) codes 8194 arg m
    = (mkMachine g' (clock_reads m), [], Ok r)
    /\ r = 7.
Proof.
  intros m arg.
  destruct (@X16_ioctl (firmware 100) codes 8194 arg m)
    as (r & g' & Hrun & _ & Hother).
  destruct (Hother ltac:(by_computation)) as (_ & Hid & _).
  destruct (Hid ltac:(reflexivity)) as (_ & Hsmall & _).
  exists r, g'. split; [exact Hrun|].
  exact (Hsmall ltac:(by_computation)).
Defined.
